(** * GrantMate: the retrieval-and-answering pipeline

    A shallow embedding of [src/qa_system.py] and of the question parser of
    [src/main.py], with the properties of the pipeline stated and settled
    against it.

    Conventions of the embedding.
    - A Python [str] is a list of code points ([pystr], code points in [N]).
      Literals of the source are written [py "..."]; the few non-ASCII
      characters the source names (bullets, dashes) are given by code point.
    - Python's Unicode tables ([str.lower], [str.upper], [str.islower],
      [str.isupper], the regex classes [\w] and [\d], case variants under
      [re.IGNORECASE]) are an interface, [CaseTables]; general theorems hold
      for every table, evaluations on ASCII inputs use the ASCII instance,
      which agrees with Python on ASCII text.
    - A Python [float] is a binary64 number, and a finite one is a rational
      ([Q]). Where the code computes with floats (the scores of the
      search), every operation rounds to the nearest float ([binary64]);
      NaN and infinities are not modelled.
    - A Python [int] is a [Z]; [len] is a [nat].
    - Exceptions are explicit: a computation that may raise returns an
      [outcome].
    - The external services (embedding backend, generation backend, the
      [json] and [numpy] libraries, the disk cache) are section variables. *)

From Stdlib Require Import List ZArith NArith QArith Bool Lia Lqa Arith.
From Stdlib Require Import String Ascii.
From Stdlib Require Import Sorted Permutation.
Import ListNotations.

Set Implicit Arguments.
Set Warnings "-register-all,-abstract-large-number".
Set Default Proof Using "Type".

(* ================================================================== *)
(** ** Python strings *)
(* ================================================================== *)

Definition pystr := list N.

(** An ASCII literal of the source. *)
Definition py (s : string) : pystr :=
  List.map N_of_ascii (list_ascii_of_string s).

Definition NL : N := 10%N.   (* '\n' *)
Definition CR : N := 13%N.   (* '\r' *)
Definition TAB : N := 9%N.   (* '\t' *)
Definition SP : N := 32%N.   (* ' ' *)
Definition DQUOTE : N := 34%N.

Fixpoint str_eqb (a b : pystr) : bool :=
  match a, b with
  | [], [] => true
  | x :: a', y :: b' => N.eqb x y && str_eqb a' b'
  | _, _ => false
  end.

(** [x in l] for a list (or set) of strings. *)
Definition str_mem (x : pystr) (l : list pystr) : bool :=
  existsb (str_eqb x) l.

(** [s.startswith(p)] *)
Fixpoint startswith (p s : pystr) : bool :=
  match p, s with
  | [], _ => true
  | x :: p', y :: s' => N.eqb x y && startswith p' s'
  | _ :: _, [] => false
  end.

(** [s.endswith(p)] *)
Definition endswith (p s : pystr) : bool :=
  startswith (rev p) (rev s).

(** [sub in s] for strings. *)
Fixpoint contains (sub s : pystr) : bool :=
  startswith sub s ||
  match s with
  | [] => false
  | _ :: s' => contains sub s'
  end.

(** [s.find(sub, start)], counted from the position [start] of the
    suffix [s] it is given; [None] is Python's [-1]. *)
Fixpoint find_from (sub s : pystr) (start : nat) : option nat :=
  if startswith sub s then Some start
  else match s with
       | [] => None
       | _ :: s' => find_from sub s' (S start)
       end.

Definition find (sub s : pystr) (start : nat) : option nat :=
  if Nat.leb start (List.length s) then find_from sub (skipn start s) start
  else None.

(** [s[a:b]] for non-negative in-range bounds. *)
Definition substring (a b : nat) (s : pystr) : pystr :=
  firstn (b - a) (skipn a s).

(** [sep.join(parts)] *)
Fixpoint join (sep : pystr) (parts : list pystr) : pystr :=
  match parts with
  | [] => []
  | [p] => p
  | p :: rest => p ++ sep ++ join sep rest
  end.

(** [s.split(c)] for a one-character separator: one more piece than there
    are separators, so [''.split(c) = ['']]. *)
Fixpoint split_on (c : N) (s : pystr) : list pystr :=
  match s with
  | [] => [[]]
  | x :: s' =>
      if N.eqb x c then [] :: split_on c s'
      else match split_on c s' with
           | [] => [[x]]
           | p :: ps => (x :: p) :: ps
           end
  end.

Local Open Scope N_scope.

(** Unicode whitespace: [str.isspace], the characters [str.strip] and
    [str.split] remove, and the regex class [\s] of a [str] pattern. *)
Definition isspace (c : N) : bool :=
  ((9 <=? c) && (c <=? 13)) || ((28 <=? c) && (c <=? 32))
  || (c =? 133) || (c =? 160) || (c =? 5760)
  || ((8192 <=? c) && (c <=? 8202))
  || (c =? 8232) || (c =? 8233) || (c =? 8239) || (c =? 8287)
  || (c =? 12288).

Local Close Scope N_scope.

Fixpoint lstrip (s : pystr) : pystr :=
  match s with
  | c :: s' => if isspace c then lstrip s' else s
  | [] => []
  end.

Definition rstrip (s : pystr) : pystr := rev (lstrip (rev s)).

Definition strip (s : pystr) : pystr := rstrip (lstrip s).

(** [s.split()]: the maximal runs of non-whitespace. *)
Fixpoint split_ws_aux (cur : pystr) (s : pystr) : list pystr :=
  match s with
  | [] => match cur with [] => [] | _ => [rev cur] end
  | c :: s' =>
      if isspace c
      then match cur with
           | [] => split_ws_aux [] s'
           | _ => rev cur :: split_ws_aux [] s'
           end
      else split_ws_aux (c :: cur) s'
  end.

Definition split_ws (s : pystr) : list pystr := split_ws_aux [] s.

(** Python's Unicode tables, as far as the program consults them. *)
Class CaseTables := {
  str_lower : pystr -> pystr;  (* [s.lower()] *)
  ch_upper : N -> pystr;       (* [c.upper()] for a one-character string *)
  ch_islower : N -> bool;      (* [c.islower()] *)
  ch_isupper : N -> bool;      (* [c.isupper()] *)
  ch_isword : N -> bool;       (* the regex class [\w] *)
  ch_isdigit : N -> bool;      (* the regex class [\d] *)
  ch_variants : N -> list N    (* the other characters that [c] stands for
                                  under [re.IGNORECASE] *)
}.

Local Open Scope N_scope.

Definition ascii_lower (c : N) : bool := (97 <=? c) && (c <=? 122).
Definition ascii_upper (c : N) : bool := (65 <=? c) && (c <=? 90).
Definition ascii_digit (c : N) : bool := (48 <=? c) && (c <=? 57).

(** The tables on ASCII text; other code points are left uncased. *)
Definition AsciiTables : CaseTables := {|
  str_lower := map (fun c => if ascii_upper c then c + 32 else c);
  ch_upper := fun c => if ascii_lower c then [c - 32] else [c];
  ch_islower := ascii_lower;
  ch_isupper := ascii_upper;
  ch_isword := fun c =>
    ascii_lower c || ascii_upper c || ascii_digit c || (c =? 95);
  ch_isdigit := ascii_digit;
  ch_variants := fun c =>
    if ascii_upper c then [c + 32]
    else if ascii_lower c then [c - 32]
    else []
|}.

Local Close Scope N_scope.

(** [s.lower()] *)
Definition lower {T : CaseTables} (s : pystr) : pystr := str_lower s.

(** Python's slice [l[:k]] for an [int] [k]: a negative [k] counts from
    the end. *)
Definition slice_to {A} (k : Z) (l : list A) : list A :=
  if (0 <=? k)%Z then firstn (Z.to_nat k) l
  else firstn (List.length l - Z.to_nat (- k)) l.

(** [s[-k:]] for [k > 0]: the last [k] characters, all of [s] when it is
    shorter. *)
Definition suffix {A} (k : nat) (l : list A) : list A :=
  skipn (List.length l - k) l.

Definition len {A} (l : list A) : Z := Z.of_nat (List.length l).

(** The truth value of a string or a list: it is not empty. *)
Definition nonempty {A} (l : list A) : bool :=
  match l with [] => false | _ => true end.

(* ================================================================== *)
(** ** Exceptions *)
(* ================================================================== *)

(** The exceptions the code tells apart: [json.JSONDecodeError], caught by
    name, and every other [Exception] (a backend error, a [TypeError], a
    [KeyError], an [IndexError]). Each carries [str(e)]. *)
Inductive exn :=
| JSONDecodeError (msg : pystr)
| PyError (msg : pystr).

Definition exn_msg (e : exn) : pystr :=
  match e with JSONDecodeError m => m | PyError m => m end.

Inductive outcome (A : Type) :=
| Ok (a : A)
| Raise (e : exn).
Arguments Ok {A} a.
Arguments Raise {A} e.

Definition bind {A B} (m : outcome A) (f : A -> outcome B) : outcome B :=
  match m with Ok a => f a | Raise e => Raise e end.

Notation "x <- m ;; k" := (bind m (fun x => k))
  (at level 61, m at next level, right associativity).
Notation "' p <- m ;; k" := (bind m (fun p => k))
  (at level 61, p pattern, m at next level, right associativity).

(** [try: body  except json.JSONDecodeError: handler] *)
Definition try_json {A} (body : outcome A) (handler : outcome A) : outcome A :=
  match body with
  | Raise (JSONDecodeError _) => handler
  | other => other
  end.

(** [try: body  except Exception as e: handler(e)] *)
Definition try_except {A} (body : outcome A) (handler : exn -> A) : A :=
  match body with
  | Ok a => a
  | Raise e => handler e
  end.

(* ================================================================== *)
(** ** Documents and chunks ([KnowledgeBaseLoader]) *)
(* ================================================================== *)

Record document := {
  doc_path : pystr;
  doc_content : pystr;
  doc_filename : pystr;
  doc_priority : Q
}.

Record chunk := {
  path : pystr;
  filename : pystr;
  content : pystr;
  start_line : Z;
  end_line : Z;
  priority : Q
}.

Module KnowledgeBaseLoader.
Section Loader.
Context {T : CaseTables}.

(** [_get_folder_priority(self, path)] *)
Definition _get_folder_priority (path : pystr) : Q :=
  let path_lower := lower path in
  if contains (py "quantitative") path_lower then
    if contains (py "donations_summary") path_lower then 2
    else 4
  else if contains (py "qualitative") path_lower then 3
  else if contains (py "grant_example") path_lower then 2
  else if contains (py "contact") path_lower then 1
  else 3 # 2.

(** The document [load_all] builds for a file it could read. *)
Definition load_doc (rel_path name text : pystr) : document :=
  {| doc_path := rel_path;
     doc_content := text;
     doc_filename := name;
     doc_priority := _get_folder_priority rel_path |}.

(** A markdown file found under [self.kb_path]: its path relative to the
    knowledge base, its name, and what reading it gives. *)
Record md_file := {
  file_rel_path : pystr;
  file_name : pystr;
  file_read : outcome pystr
}.

(** [load_all(self)] over the files [self.kb_path.rglob("*.md")] finds: a
    file that cannot be read is passed over with a warning. *)
Definition load_all (md_files : list md_file) : list document :=
  flat_map (fun f =>
              match file_read f with
              | Ok text => [load_doc (file_rel_path f) (file_name f) text]
              | Raise _ => []
              end) md_files.

End Loader.

(** The state of the loop of [get_chunks] over the lines of one document:
    [current_chunk], [chunk_start] and the chunks appended so far. *)
Record chunker := {
  current_chunk : pystr;
  chunk_start : Z;
  emitted : list chunk
}.

Definition chunk_of (doc : document) (text : pystr) (first last : Z) : chunk :=
  {| path := doc_path doc;
     filename := doc_filename doc;
     content := text;
     start_line := first;
     end_line := last;
     priority := doc_priority doc |}.

(** One iteration of [for i, line in enumerate(lines)]. *)
Definition chunk_step (doc : document) (chunk_size overlap : Z)
    (st : chunker) (i : Z) (line : pystr) : chunker :=
  let cur := current_chunk st in
  if (len cur + len line >? chunk_size)%Z && nonempty cur then
    let overlap_lines :=
      if (overlap >? 0)%Z then split_on NL (suffix (Z.to_nat overlap) cur)
      else [] in
    {| current_chunk := join [NL] overlap_lines ++ [NL] ++ line;
       chunk_start := Z.max 0 (i - len overlap_lines);
       emitted := emitted st ++ [chunk_of doc cur (chunk_start st) i] |}
  else
    {| current_chunk := if nonempty cur then cur ++ [NL] ++ line else line;
       chunk_start := chunk_start st;
       emitted := emitted st |}.

Fixpoint chunk_loop (doc : document) (chunk_size overlap : Z)
    (st : chunker) (i : Z) (lines : list pystr) : chunker :=
  match lines with
  | [] => st
  | line :: rest =>
      chunk_loop doc chunk_size overlap
        (chunk_step doc chunk_size overlap st i line) (i + 1) rest
  end.

(** The body of [for doc in self.documents]. *)
Definition chunk_document (chunk_size overlap : Z) (doc : document)
  : list chunk :=
  let lines := split_on NL (doc_content doc) in
  let st := chunk_loop doc chunk_size overlap
              {| current_chunk := []; chunk_start := 0; emitted := [] |}
              0 lines in
  if nonempty (strip (current_chunk st))
  then emitted st
       ++ [chunk_of doc (current_chunk st) (chunk_start st) (len lines)]
  else emitted st.

(** [get_chunks(self, chunk_size, overlap)] over [self.documents]. *)
Definition get_chunks (documents : list document) (chunk_size overlap : Z)
  : list chunk :=
  flat_map (chunk_document chunk_size overlap) documents.

End KnowledgeBaseLoader.

(* ================================================================== *)
(** ** JSON values *)
(* ================================================================== *)

(** What [json.loads] returns and what the backends answer with: [None],
    [bool], numbers, [str], [list] and [dict]. A [dict] keeps its keys in
    insertion order. *)
Inductive json :=
| JNull
| JBool (b : bool)
| JNum (q : Q)
| JStr (s : pystr)
| JArr (l : list json)
| JObj (kv : list (pystr * json)).

(** [d.get(k)] *)
Fixpoint dict_get {A} (d : list (pystr * A)) (k : pystr) : option A :=
  match d with
  | [] => None
  | (k', v) :: d' => if str_eqb k' k then Some v else dict_get d' k
  end.

(** [k in d] *)
Definition dict_has {A} (d : list (pystr * A)) (k : pystr) : bool :=
  match dict_get d k with Some _ => true | None => false end.

(** [d.get(k, default)] *)
Definition dict_get_default {A} (d : list (pystr * A)) (k : pystr)
    (default : A) : A :=
  match dict_get d k with Some v => v | None => default end.

(** [d[k] = v]: the value of an existing key is replaced where it stands,
    a new key goes last. *)
Fixpoint dict_set {A} (d : list (pystr * A)) (k : pystr) (v : A)
  : list (pystr * A) :=
  match d with
  | [] => [(k, v)]
  | (k', v') :: d' =>
      if str_eqb k' k then (k', v) :: d' else (k', v') :: dict_set d' k v
  end.

(** [{q: f(q) for q in keys}] *)
Definition dict_comprehension {A} (keys : list pystr) (f : pystr -> A)
  : list (pystr * A) :=
  fold_left (fun d q => dict_set d q (f q)) keys [].

Definition dict_keys {A} (d : list (pystr * A)) : list pystr := map fst d.

(* ================================================================== *)
(** ** Floating-point numbers ([float]) *)
(* ================================================================== *)

(** Python's [float] and numpy's [float64] are IEEE binary64 numbers. A
    finite float is a rational, and an arithmetic operation gives the
    float nearest to the exact result, a tie going to the even mantissa:
    [3 * 1.2] is [3.5999999999999996] and [2 * 1.8] is [3.6]. The model
    keeps the 53 bits of precision and leaves the exponent free; the
    infinities, NaN and underflow are outside it. *)

(** The integer nearest to [n / d], a tie going to the even one. *)
Definition round_half_even (n d : Z) : Z :=
  let q := (n / d)%Z in
  let r := (n mod d)%Z in
  if (2 * r <? d)%Z then q
  else if (d <? 2 * r)%Z then (q + 1)%Z
  else if Z.even q then q else (q + 1)%Z.

(** [n / d] over [2 ^ e] as a fraction of integers. *)
Definition scaled_num (n : positive) (e : Z) : Z :=
  (Zpos n * 2 ^ Z.max (- e) 0)%Z.

Definition scaled_den (d : positive) (e : Z) : Z :=
  (Zpos d * 2 ^ Z.max e 0)%Z.

(** The exponent [e] of the last bit of the float nearest to [n / d]:
    [2 ^ 52 <= (n / d) / 2 ^ e < 2 ^ 53]. *)
Definition last_bit (n d : positive) : Z :=
  let e0 := (Z.log2 (Zpos n) - Z.log2 (Zpos d) - 53)%Z in
  if (scaled_num n e0 <? 2 ^ 53 * scaled_den d e0)%Z then e0
  else (e0 + 1)%Z.

(** The float nearest to [n / d]. *)
Definition round_positive (n d : positive) : Q :=
  let e := last_bit n d in
  let m := round_half_even (scaled_num n e) (scaled_den d e) in
  Qred (if (0 <=? e)%Z then inject_Z (m * 2 ^ e)
        else Qmake m (Z.to_pos (2 ^ (- e)))).

(** The float nearest to [q]. *)
Definition binary64 (q : Q) : Q :=
  match Qnum q with
  | Z0 => 0
  | Zpos n => round_positive n (Qden q)
  | Zneg n => - round_positive n (Qden q)
  end.

(** [a + b], [a * b] and [a / b] on floats. *)
Definition fadd (a b : Q) : Q := binary64 (a + b).

Definition fmul (a b : Q) : Q := binary64 (a * b).

Definition fdiv (a b : Q) : Q := binary64 (a / b).

(** The float a decimal literal stands for, and the float of an [int]. *)
Definition float_lit (q : Q) : Q := binary64 q.

Definition float_of_int (n : Z) : Q := binary64 (inject_Z n).

(* ================================================================== *)
(** ** Semantic search ([VectorSearcher]) *)
(* ================================================================== *)

(** Stable sort by decreasing score: [l.sort(key=lambda x: x[0],
    reverse=True)] keeps entries of equal score in their order. *)
Fixpoint insert_desc {A} (x : Q * A) (l : list (Q * A)) : list (Q * A) :=
  match l with
  | [] => [x]
  | y :: l' =>
      if Qle_bool (fst y) (fst x) then x :: l
      else y :: insert_desc x l'
  end.

Definition sort_desc {A} (l : list (Q * A)) : list (Q * A) :=
  fold_right insert_desc [] l.

(** [enumerate(l)] *)
Fixpoint enumerate_from {A} (i : nat) (l : list A) : list (nat * A) :=
  match l with
  | [] => []
  | x :: l' => (i, x) :: enumerate_from (S i) l'
  end.

Definition enumerate {A} (l : list A) : list (nat * A) := enumerate_from 0 l.

(** Monadic [for] loop that collects one result per element. *)
Fixpoint mapM {A B} (f : A -> outcome B) (l : list A) : outcome (list B) :=
  match l with
  | [] => Ok []
  | x :: l' => y <- f x ;; ys <- mapM f l' ;; Ok (y :: ys)
  end.

(** The embedding in the answer to a call for one text: the "embedding"
    member of a [dict] answer (an empty list when it has none), the answer
    itself otherwise. *)
Definition embedding_of (result : json) : json :=
  match result with
  | JObj kv => dict_get_default kv (py "embedding") (JArr [])
  | other => other
  end.

Module VectorSearcher.
Section Searcher.
Context {T : CaseTables}.

(** [numpy]: the type of arrays, [np.array], [np.dot], which raises a
    [ValueError] on arrays whose shapes do not match, and
    [np.linalg.norm]. *)
Variable ndarray : Type.
Variable np_array : json -> ndarray.
Variable np_dot : ndarray -> ndarray -> outcome Q.
Variable np_linalg_norm : ndarray -> Q.

(** The embedding backend answering a query
    ([genai.embed_content(..., task_type="retrieval_query")]). *)
Variable embed_query : pystr -> outcome json.

(** [_cosine_similarity(self, vec1, vec2)] *)
Definition _cosine_similarity (vec1 vec2 : ndarray) : outcome Q :=
  dot_product <- np_dot vec1 vec2 ;;
  let norm1 := np_linalg_norm vec1 in
  let norm2 := np_linalg_norm vec2 in
  if Qeq_bool norm1 0 || Qeq_bool norm2 0 then Ok 0
  else Ok (fdiv dot_product (fmul norm1 norm2)).

(** The set of lower-cased words of a text: [set(text.lower().split())]. *)
Definition words_of (text : pystr) : list pystr :=
  nodup (list_eq_dec N.eq_dec) (split_ws (lower text)).

(** [len(query_words & content_words)] *)
Definition word_overlap (query_words content_words : list pystr) : nat :=
  List.length (filter (fun w => str_mem w content_words) query_words).

(** The scored list of [_keyword_fallback], sorted and cut. *)
Definition keyword_scored (chunks : list chunk) (query : pystr) (top_k : Z)
  : list (Q * chunk) :=
  let query_words := words_of query in
  let scored_chunks :=
    flat_map (fun c =>
      let overlap := word_overlap query_words (words_of (content c)) in
      if (0 <? overlap)%nat
      then [(fmul (float_of_int (Z.of_nat overlap))
               (fadd 1 (fmul (priority c) (float_lit (2 # 10)))), c)]
      else []) chunks in
  slice_to top_k (sort_desc scored_chunks).

(** [_keyword_fallback(self, query, top_k)] *)
Definition _keyword_fallback (chunks : list chunk) (query : pystr) (top_k : Z)
  : list chunk :=
  map snd (keyword_scored chunks query top_k).

(** [similarities] of [search]: one boosted score per embedding, with the
    index of its chunk; [self.chunks[i]] raises an [IndexError] when there
    is no chunk [i]. *)
Definition similarities (chunks : list chunk) (embeddings : list ndarray)
    (query_embedding : ndarray) : outcome (list (Q * nat)) :=
  mapM (fun '(i, chunk_embedding) =>
          similarity <-
            _cosine_similarity query_embedding chunk_embedding ;;
          match nth_error chunks i with
          | Some c =>
              Ok (fmul similarity
                    (fadd 1 (fmul (priority c) (float_lit (1 # 10)))), i)
          | None => Raise (PyError (py "list index out of range"))
          end)
       (enumerate embeddings).

(** The entries of [similarities[:top_k]] that [search] keeps, with the
    chunk each stands for. *)
Definition search_scored (chunks : list chunk) (sims : list (Q * nat))
    (top_k : Z) : outcome (list (Q * chunk)) :=
  mapM (fun '(score, idx) =>
          match nth_error chunks idx with
          | Some c => Ok (score, c)
          | None => Raise (PyError (py "list index out of range"))
          end)
       (filter (fun '(score, idx) => negb (Qle_bool score 0))
          (slice_to top_k (sort_desc sims))).

(** [search(self, query, top_k)] over [self.chunks] and
    [self.embeddings]. *)
Definition search (chunks : list chunk) (embeddings : list ndarray)
    (query : pystr) (top_k : Z) : outcome (list chunk) :=
  match embed_query query with
  | Raise _ => Ok (_keyword_fallback chunks query top_k)
  | Ok result =>
      let query_embedding := np_array (embedding_of result) in
      sims <- similarities chunks embeddings query_embedding ;;
      scored <- search_scored chunks sims top_k ;;
      Ok (map snd scored)
  end.

End Searcher.
End VectorSearcher.

(** Lexicographic order on strings by code point: Python's [<=] on [str]. *)
Fixpoint str_leb (a b : pystr) : bool :=
  match a, b with
  | [], _ => true
  | _ :: _, [] => false
  | x :: a', y :: b' =>
      if N.ltb x y then true
      else if N.eqb x y then str_leb a' b'
      else false
  end.

(** [sorted(l, key=key)] for string keys: stable, increasing. *)
Fixpoint insert_by_key {A} (key : A -> pystr) (x : A) (l : list A) : list A :=
  match l with
  | [] => [x]
  | y :: l' =>
      if str_leb (key x) (key y) && negb (str_eqb (key x) (key y))
      then x :: l
      else y :: insert_by_key key x l'
  end.

Definition sorted_by_key {A} (key : A -> pystr) (l : list A) : list A :=
  fold_left (fun acc x => insert_by_key key x acc) l [].

(** [range(0, stop, step)] *)
Definition range_step (stop step : nat) : list nat :=
  map (fun k => k * step)%nat (seq 0 ((stop + (step - 1)) / step)).

Module EmbeddingIndex.

(** What [genai.embed_content] is asked to embed: the text of one chunk,
    or the list of the texts of a batch. *)
Inductive embed_request :=
| EmbedOne (text : pystr)
| EmbedBatch (texts : list pystr).

Section Index.

(** [numpy]: arrays, [np.array] and [np.zeros]. *)
Variable ndarray : Type.
Variable np_array : json -> ndarray.
Variable np_zeros : nat -> ndarray.

(** The embedding backend. Its answer to a call may depend on the calls
    made before, so a call takes the state of the service and gives the
    next one back. *)
Variable backend : Type.
Variable embed_content : backend -> embed_request -> outcome json * backend.

(** The disk cache: [hashlib.md5(...).hexdigest()] and, by file name, the
    embeddings unpickled from a cache file that exists and loads. *)
Variable md5_hexdigest : pystr -> pystr.
Variable cache_files : pystr -> option (list ndarray).

(** [_get_cache_path(self)] *)
Definition _get_cache_path (chunks : list chunk) : pystr :=
  let hashed :=
    flat_map (fun c => path c ++ content c) (sorted_by_key path chunks) in
  py "embeddings_" ++ md5_hexdigest hashed ++ py ".pkl".

(** [_load_embeddings_from_cache(self)]: the cached embeddings, if any. *)
Definition _load_embeddings_from_cache (chunks : list chunk)
  : option (list ndarray) :=
  cache_files (_get_cache_path chunks).

(** One chunk of the fall-back loop: its embedding, or [np.zeros(768)]
    when the call fails. *)
Definition embed_chunk (b : backend) (c : chunk) : ndarray * backend :=
  match embed_content b (EmbedOne (content c)) with
  | (Ok result, b') => (np_array (embedding_of result), b')
  | (Raise _, b') => (np_zeros 768, b')
  end.

(** [for chunk in batch_chunks: ... embeddings.append(...)] *)
Fixpoint embed_individually (b : backend) (batch_chunks : list chunk)
    (embeddings : list ndarray) : list ndarray * backend :=
  match batch_chunks with
  | [] => (embeddings, b)
  | c :: rest =>
      let '(v, b') := embed_chunk b c in
      embed_individually b' rest (embeddings ++ [v])
  end.

Definition is_list (j : json) : bool :=
  match j with JArr _ => true | _ => false end.

(** The vectors the code appends for the answer to a batch call, or the
    [ValueError] it raises. *)
Definition batch_vectors (result : json) : outcome (list ndarray) :=
  match result with
  | JObj kv =>
      match dict_get kv (py "embedding") with
      | Some embedding_list =>
          match embedding_list with
          | JArr (first :: rest) =>
              if is_list first
              then Ok (map np_array (first :: rest))
              else Ok [np_array embedding_list]
          | _ => Raise (PyError (py "Unexpected batch response format"))
          end
      | None => Raise (PyError (py "Unexpected response type"))
      end
  | JArr l => Ok (map np_array l)
  | _ => Raise (PyError (py "Unexpected response type"))
  end.

(** The body of [for batch_start in range(0, total_chunks, batch_size)].
    The inner [try] handles every exception of the batch call; the
    handler of the outer [try] is the same fall-back loop. *)
Definition embed_batch (chunks : list chunk) (batch_size : nat)
    (st : list ndarray * backend) (batch_start : nat)
  : list ndarray * backend :=
  let '(embeddings, b) := st in
  let total_chunks := List.length chunks in
  let batch_end := Nat.min (batch_start + batch_size) total_chunks in
  let batch_chunks :=
    firstn (batch_end - batch_start) (skipn batch_start chunks) in
  let batch_contents := map content batch_chunks in
  match embed_content b (EmbedBatch batch_contents) with
  | (Ok result, b') =>
      match batch_vectors result with
      | Ok vectors => (embeddings ++ vectors, b')
      | Raise _ => embed_individually b' batch_chunks embeddings
      end
  | (Raise _, b') => embed_individually b' batch_chunks embeddings
  end.

(** The index after [_compute_embeddings]: [self.embeddings], the state of
    the backend, and the cache file written, if one was. *)
Record index := {
  embeddings : list ndarray;
  service : backend;
  cache_written : option (pystr * list ndarray)
}.

(** [_compute_embeddings(self)] *)
Definition _compute_embeddings (b : backend) (chunks : list chunk) : index :=
  match _load_embeddings_from_cache chunks with
  | Some cached =>
      {| embeddings := cached; service := b; cache_written := None |}
  | None =>
      let batch_size := 100%nat in
      let '(embs, b') :=
        fold_left (embed_batch chunks batch_size)
          (range_step (List.length chunks) batch_size) ([], b) in
      {| embeddings := embs; service := b';
         cache_written := Some (_get_cache_path chunks, embs) |}
  end.

End Index.
End EmbeddingIndex.

(* ================================================================== *)
(** ** Regular expressions ([re]) *)
(* ================================================================== *)

(** The fragment of Python's [re] syntax the program uses. A pattern is
    matched by backtracking, as [re] does: alternatives are tried from left
    to right, a greedy repetition tries the longest count first, a lazy one
    the shortest. *)
Inductive regex :=
| REps                                   (* the empty pattern *)
| RChar (p : N -> bool)                  (* one character: literal or class *)
| RNotChar (p : N -> bool)               (* a negated class [[^...]], and [.] *)
| RSeq (r1 r2 : regex)
| RAlt (r1 r2 : regex)                   (* [r1|r2] *)
| RRep (r : regex) (lo : nat) (hi : option nat) (greedy : bool)
                                         (* [r{lo,hi}], [r*], [r+], [r?] *)
| RGroup (n : nat) (r : regex)           (* capturing group number [n] *)
| RBol                                   (* [^] *)
| REol.                                  (* [$] *)

(** The text last matched by each group. *)
Definition captures := list (nat * pystr).

Fixpoint group (caps : captures) (n : nat) : pystr :=
  match caps with
  | [] => []
  | (m, s) :: caps' => if Nat.eqb m n then s else group caps' n
  end.

Definition or_else {A} (a : option A) (b : unit -> option A) : option A :=
  match a with Some x => Some x | None => b tt end.

Definition opt_pred (hi : option nat) : option nat :=
  match hi with Some n => Some (Nat.pred n) | None => None end.

Section Matcher.
Context {T : CaseTables}.
Variable icase : bool.     (* [re.IGNORECASE] *)
Variable R : Type.

(** A continuation gets the position reached, the text left and the
    groups. *)
Definition cont := nat -> pystr -> captures -> option R.

(** A character against a class; with [re.IGNORECASE] also through its
    case variants. *)
Definition char_matches (p : N -> bool) (c : N) : bool :=
  p c || (icase && existsb p (ch_variants c)).

(** Repetition of [step], which matches the repeated pattern once. An
    iteration that consumes nothing ends the repetition. *)
Fixpoint rep_loop (step : nat -> pystr -> captures -> cont -> option R)
    (fuel lo : nat) (hi : option nat) (greedy : bool)
    (pos : nat) (s : pystr) (caps : captures) (k : cont) : option R :=
  match fuel with
  | O => if Nat.eqb lo 0 then k pos s caps else None
  | S fuel' =>
      let more (_ : unit) :=
        match hi with
        | Some O => None
        | _ =>
            step pos s caps (fun pos' s' caps' =>
              if Nat.eqb pos' pos then None
              else rep_loop step fuel' (Nat.pred lo) (opt_pred hi) greedy
                     pos' s' caps' k)
        end in
      if Nat.eqb lo 0 then
        if greedy then or_else (more tt) (fun _ => k pos s caps)
        else or_else (k pos s caps) more
      else more tt
  end.

Fixpoint rmatch (r : regex) (pos : nat) (s : pystr) (caps : captures)
    (k : cont) {struct r} : option R :=
  match r with
  | REps => k pos s caps
  | RChar p =>
      match s with
      | c :: s' => if char_matches p c then k (S pos) s' caps else None
      | [] => None
      end
  | RNotChar p =>
      match s with
      | c :: s' => if char_matches p c then None else k (S pos) s' caps
      | [] => None
      end
  | RSeq r1 r2 =>
      rmatch r1 pos s caps (fun pos' s' caps' => rmatch r2 pos' s' caps' k)
  | RAlt r1 r2 =>
      or_else (rmatch r1 pos s caps k) (fun _ => rmatch r2 pos s caps k)
  | RRep r' lo hi greedy =>
      rep_loop (rmatch r') (S (List.length s)) lo hi greedy pos s caps k
  | RGroup n r' =>
      rmatch r' pos s caps (fun pos' s' caps' =>
        k pos' s' ((n, firstn (pos' - pos) s) :: caps'))
  | RBol => if Nat.eqb pos 0 then k pos s caps else None
  | REol =>
      match s with
      | [] => k pos s caps
      | [c] => if N.eqb c NL then k pos s caps else None
      | _ => None
      end
  end.

End Matcher.

(** The result of a match: where it ends, the text after it, the groups. *)
Definition match_result := (nat * pystr * captures)%type.

Section Re.
Context {T : CaseTables}.
Variable icase : bool.

(** A match of [r] that starts at position [pos], where [s] is the text
    from that position on. *)
Definition match_at (r : regex) (pos : nat) (s : pystr) : option match_result :=
  rmatch icase r pos s [] (fun pos' s' caps => Some (pos', s', caps)).

(** [re.search(r, s)]: the leftmost match, as (start, end, groups). *)
Fixpoint search_from (r : regex) (pos : nat) (s : pystr)
  : option (nat * nat * captures) :=
  match match_at r pos s with
  | Some (pos', _, caps) => Some (pos, pos', caps)
  | None =>
      match s with
      | [] => None
      | _ :: s' => search_from r (S pos) s'
      end
  end.

Definition re_search (r : regex) (s : pystr) : bool :=
  match search_from r 0 s with Some _ => true | None => false end.

(** [re.sub(r, repl, s)]: every leftmost non-overlapping match is replaced
    by [repl] of its groups. (No pattern the program substitutes or splits
    on matches the empty string; such a match is passed over.) *)
Fixpoint sub_loop (r : regex) (repl : captures -> pystr)
    (fuel pos : nat) (s : pystr) : pystr :=
  match fuel with
  | O => s
  | S fuel' =>
      match match_at r pos s with
      | Some (pos', s', caps) =>
          if Nat.ltb pos pos'
          then repl caps ++ sub_loop r repl fuel' pos' s'
          else match s with
               | [] => []
               | c :: rest => c :: sub_loop r repl fuel' (S pos) rest
               end
      | None =>
          match s with
          | [] => []
          | c :: rest => c :: sub_loop r repl fuel' (S pos) rest
          end
      end
  end.

Definition re_sub (r : regex) (repl : captures -> pystr) (s : pystr) : pystr :=
  sub_loop r repl (S (List.length s)) 0 s.

(** [re.split(r, s)]: the texts between the matches; when [with_group] is
    set the pattern has one capturing group, whose text is put between
    them. *)
Fixpoint split_loop (r : regex) (with_group : bool)
    (fuel pos : nat) (cur : pystr) (s : pystr) : list pystr :=
  match fuel with
  | O => [rev cur ++ s]
  | S fuel' =>
      match s with
      | [] => [rev cur]
      | c :: rest =>
          match match_at r pos s with
          | Some (pos', s', caps) =>
              if Nat.ltb pos pos'
              then rev cur ::
                   (if with_group then [group caps 1] else []) ++
                   split_loop r with_group fuel' pos' [] s'
              else split_loop r with_group fuel' (S pos) (c :: cur) rest
          | None => split_loop r with_group fuel' (S pos) (c :: cur) rest
          end
      end
  end.

Definition re_split (r : regex) (with_group : bool) (s : pystr) : list pystr :=
  split_loop r with_group (S (List.length s)) 0 [] s.

(** [re.findall(r, s)] for a pattern without capturing groups: the texts
    of the matches. *)
Fixpoint findall_loop (r : regex) (fuel pos : nat) (s : pystr) : list pystr :=
  match fuel with
  | O => []
  | S fuel' =>
      match match_at r pos s with
      | Some (pos', s', _) =>
          if Nat.ltb pos pos'
          then firstn (pos' - pos) s :: findall_loop r fuel' pos' s'
          else match s with
               | [] => []
               | _ :: rest => findall_loop r fuel' (S pos) rest
               end
      | None =>
          match s with
          | [] => []
          | _ :: rest => findall_loop r fuel' (S pos) rest
          end
      end
  end.

Definition re_findall (r : regex) (s : pystr) : list pystr :=
  findall_loop r (S (List.length s)) 0 s.

End Re.

(** Pattern syntax. *)
Definition chr (c : N) : regex := RChar (N.eqb c).
Definition one_of (cs : list N) : regex :=
  RChar (fun c => existsb (N.eqb c) cs).
Definition none_of (cs : list N) : regex :=
  RNotChar (fun c => existsb (N.eqb c) cs).
Definition in_range (a b c : N) : bool := N.leb a c && N.leb c b.
Definition star (r : regex) : regex := RRep r 0 None true.
Definition plus (r : regex) : regex := RRep r 1 None true.
Definition opt (r : regex) : regex := RRep r 0 (Some 1%nat) true.
Definition lazy_star (r : regex) : regex := RRep r 0 None false.
Definition times (r : regex) (lo hi : nat) : regex := RRep r lo (Some hi) true.
Definition at_least (r : regex) (lo : nat) : regex := RRep r lo None true.

Fixpoint seq_of (rs : list regex) : regex :=
  match rs with
  | [] => REps
  | [r] => r
  | r :: rs' => RSeq r (seq_of rs')
  end.

Fixpoint alt_of (rs : list regex) : regex :=
  match rs with
  | [] => REps
  | [r] => r
  | r :: rs' => RAlt r (alt_of rs')
  end.

(** A literal text. *)
Definition lit (s : string) : regex := seq_of (map chr (py s)).

Definition ws : regex := RChar isspace.              (* [\s] *)
Definition dot : regex := RNotChar (N.eqb NL).      (* [.] *)

Definition no_groups (caps : captures) : pystr := [].
Definition group1 (caps : captures) : pystr := group caps 1.

(* ================================================================== *)
(** ** The question parser ([main.py]) *)
(* ================================================================== *)

Module Main.
Section Parser.
Context {T : CaseTables}.

Local Open Scope N_scope.

Definition STAR : N := 42.       (* '*' *)
Definition BACKTICK : N := 96.
Definition HASH : N := 35.       (* '#' *)
Definition COLON : N := 58.
Definition DASH : N := 45.       (* '-' *)
Definition EN_DASH : N := 8211.  (* U+2013 *)
Definition EM_DASH : N := 8212.  (* U+2014 *)
Definition PERIOD : N := 46.
Definition RPAREN : N := 41.
Definition LPAREN : N := 40.
Definition QMARK : N := 63.
Definition BANG : N := 33.

(** The bullet characters of [[-•*→▶▪▫]]. *)
Definition bullets : list N := [DASH; 8226; STAR; 8594; 9654; 9642; 9643].

Local Close Scope N_scope.

(** The interrogative and modal words, in the order of the source. *)
Definition question_words : list string :=
  ["what"; "who"; "when"; "where"; "why"; "how"; "which"; "can"; "could";
   "would"; "should"; "is"; "are"; "do"; "does"; "did"; "will"; "has";
   "have"]%string.

(** [clean_question(text)] *)
Definition clean_question (text : pystr) : pystr :=
  if negb (nonempty text) then [] else
  (* r'\*\*([^*]+)\*\*' -> r'\1' *)
  let text := re_sub false
    (seq_of [lit "**"; RGroup 1 (plus (none_of [STAR])); lit "**"])
    group1 text in
  (* r'\*([^*]+)\*' -> r'\1' *)
  let text := re_sub false
    (seq_of [chr STAR; RGroup 1 (plus (none_of [STAR])); chr STAR])
    group1 text in
  (* r'`([^`]+)`' -> r'\1' *)
  let text := re_sub false
    (seq_of [chr BACKTICK; RGroup 1 (plus (none_of [BACKTICK])); chr BACKTICK])
    group1 text in
  (* r'#{1,6}\s+' -> '' *)
  let text :=
    re_sub false (RSeq (times (chr HASH) 1 6) (plus ws)) no_groups text in
  (* r'\s+' -> ' ' *)
  let text := re_sub false (plus ws) (fun _ => [SP]) text in
  let text := strip text in
  (* r'^[:\-–—]\s+' -> '' *)
  let text := re_sub false
    (seq_of [RBol; one_of [COLON; DASH; EN_DASH; EM_DASH]; plus ws])
    no_groups text in
  (* r'\s+[:\-–—]$' -> '' *)
  let text := re_sub false
    (seq_of [plus ws; one_of [COLON; DASH; EN_DASH; EM_DASH]; REol])
    no_groups text in
  match text with
  | c :: rest => if ch_islower c then ch_upper c ++ rest else text
  | [] => []
  end.

(** The lines [is_valid_question] rejects as formatting. *)
Definition formatting_lines : list pystr :=
  map py ["question"; "answer"; "q:"; "a:"; "note:"; "see:"]%string.

(** [is_valid_question(text)] *)
Definition is_valid_question (text : pystr) : bool :=
  if negb (nonempty text) || Nat.ltb (List.length text) 10 then false else
  let word_count := List.length (split_ws text) in
  if Nat.ltb word_count 3 && negb (endswith [QMARK] text) then false else
  if Nat.ltb (List.length text) 10 then false else
  if str_mem (lower text) formatting_lines then false else
  (* len(re.sub(r'[^\w\s]', '', text)) < len(text) * 0.5 *)
  if Nat.ltb
       (2 * List.length
              (re_sub false (RNotChar (fun c => ch_isword c || isspace c))
                 no_groups text))
       (List.length text)
  then false
  else true.

(** [questions] and [seen]. *)
Record parsed := {
  questions : list pystr;
  seen : list pystr
}.

(** [if question and question not in seen and is_valid_question(question):
       questions.append(question); seen.add(question.lower().strip())];
    the last block of the sentence strategy appends without adding to
    [seen] ([remember = false]). *)
Definition add_question (remember : bool) (st : parsed) (question : pystr)
  : parsed :=
  if nonempty question && negb (str_mem question (seen st))
     && is_valid_question question
  then {| questions := questions st ++ [question];
          seen := if remember then strip (lower question) :: seen st
                  else seen st |}
  else st.

(** [question = ' '.join(current).strip(); question = clean_question(question)]
    and the block above. *)
Definition flush (remember : bool) (st : parsed) (current : list pystr)
  : parsed :=
  add_question remember st (clean_question (strip (join [SP] current))).

(** The prefixes and the trailing colon removed from a line. *)
Definition strip_markers (line : pystr) : pystr :=
  (* r'^(Q:|Question:|q:|question:)\s*', re.IGNORECASE *)
  let line := re_sub true
    (seq_of [RBol;
             RGroup 1 (alt_of [lit "Q:"; lit "Question:"; lit "q:";
                               lit "question:"]);
             star ws]) no_groups line in
  (* r'^\d+[\.\)]\s*' *)
  let line := re_sub false
    (seq_of [RBol; plus (RChar ch_isdigit); one_of [PERIOD; RPAREN]; star ws])
    no_groups line in
  (* r'^[a-zA-Z][\.\)]\s*' *)
  let line := re_sub false
    (seq_of [RBol; RChar (fun c => in_range 97 122 c || in_range 65 90 c);
             one_of [PERIOD; RPAREN]; star ws]) no_groups line in
  (* r'^[-•*→▶▪▫]\s*' *)
  let line :=
    re_sub false (seq_of [RBol; one_of bullets; star ws]) no_groups line in
  (* r'^[IVX]+[\.\)]\s*' *)
  let line := re_sub false
    (seq_of [RBol; plus (one_of [73; 86; 88]%N); one_of [PERIOD; RPAREN];
             star ws])
    no_groups line in
  (* r'^\([a-z0-9]+\)\s*', re.IGNORECASE *)
  let line := re_sub true
    (seq_of [RBol; chr LPAREN;
             plus (RChar (fun c => in_range 97 122 c || in_range 48 57 c));
             chr RPAREN; star ws]) no_groups line in
  (* r':\s*$' *)
  let line := re_sub false (seq_of [chr COLON; star ws; REol]) no_groups line in
  strip line.

(** [is_new_question] of the line loop. *)
Definition is_new_question (line : pystr) : bool :=
  endswith [QMARK] line
  || (match line with
      | c :: _ => ch_isupper c && Nat.leb (List.length (split_ws line)) 15
      | [] => false
      end)
  || re_search true
       (RSeq RBol (RGroup 1 (alt_of (map lit question_words)))) line.

(** One iteration of [for line in lines], on [questions], [seen] and
    [current_question]. *)
Definition line_step (st : parsed * list pystr) (line : pystr)
  : parsed * list pystr :=
  let '(ps, current_question) := st in
  let line := strip line in
  if negb (nonempty line) then
    if nonempty current_question then (flush true ps current_question, [])
    else (ps, current_question)
  else
    let line := strip_markers line in
    if negb (nonempty line) then (ps, current_question)
    else if is_new_question line && nonempty current_question
    then (flush true ps current_question, [line])
    else (ps, current_question ++ [line]).

(** Strategy 1: the lines, then the question left in the accumulator. *)
Definition by_lines (normalized : pystr) : parsed :=
  let '(ps, current_question) :=
    fold_left line_step (split_on NL normalized)
      ({| questions := []; seen := [] |}, []) in
  if nonempty current_question then flush true ps current_question else ps.

(** Strategy 2: the blocks between blank lines. *)
Definition by_blocks (normalized : pystr) (st : parsed) : parsed :=
  if Nat.leb (List.length (questions st)) 1 && contains [NL; NL] normalized
  then
    fold_left (fun ps segment =>
                 add_question true ps (clean_question (strip segment)))
      (re_split false (at_least (chr NL) 2) false normalized) st
  else st.

(** One iteration of [for i, sentence in enumerate(sentences)]. *)
Definition sentence_step (st : parsed * list pystr) (sentence : pystr)
  : parsed * list pystr :=
  let '(ps, current_q) := st in
  let sentence := strip sentence in
  if negb (nonempty sentence) then (ps, current_q)
  else
    let current_q := current_q ++ [sentence] in
    if endswith [QMARK] sentence
       || (endswith [PERIOD] sentence && Nat.leb 2 (List.length current_q))
    then (flush true ps current_q, [])
    else (ps, current_q).

(** Strategy 3: sentences, split by r'([.!?]+(?:\s+|$))'. *)
Definition by_sentences (normalized : pystr) (st : parsed) : parsed :=
  if nonempty (questions st) then st
  else
    let sentences :=
      re_split false
        (RGroup 1 (RSeq (plus (one_of [PERIOD; BANG; QMARK]))
                        (RAlt (plus ws) REol)))
        true normalized in
    let '(ps, current_q) := fold_left sentence_step sentences (st, []) in
    if nonempty current_q then flush false ps current_q else ps.

(** The last fall-back: the whole input as one question. *)
Definition as_one (normalized : pystr) (st : parsed) : parsed :=
  if nonempty (questions st) then st
  else
    let cleaned := clean_question normalized in
    if nonempty cleaned && is_valid_question cleaned
    then {| questions := questions st ++ [cleaned]; seen := seen st |}
    else st.

(** The body of the final [for q in questions]. *)
Definition finish (q : pystr) : pystr :=
  let q := clean_question q in
  if Nat.ltb 20 (List.length q)
     && negb (existsb (fun e => endswith [e] (rstrip q)) [PERIOD; BANG; QMARK])
  then
    if existsb (fun w => contains (py w) (lower q)) question_words
    then rstrip q ++ [QMARK]
    else rstrip q ++ [PERIOD]
  else q.

(** The input with line ends and blanks normalized. *)
Definition normalize (raw : pystr) : pystr :=
  let normalized :=
    re_sub false (RSeq (chr CR) (chr NL)) (fun _ => [NL]) (strip raw) in
  let normalized := re_sub false (chr CR) (fun _ => [NL]) normalized in
  let normalized :=
    re_sub false (at_least (chr NL) 3) (fun _ => [NL; NL]) normalized in
  re_sub false (plus (one_of [SP; TAB])) (fun _ => [SP]) normalized.

(** The questions found, before the final clean-up. *)
Definition found_questions (raw : pystr) : list pystr :=
  let normalized := normalize raw in
  questions
    (as_one normalized
       (by_sentences normalized
          (by_blocks normalized (by_lines normalized)))).

(** [parse_questions(raw)] *)
Definition parse_questions (raw : pystr) : list pystr :=
  if negb (nonempty raw) || negb (nonempty (strip raw)) then []
  else map finish (found_questions raw).

End Parser.
End Main.

(* ================================================================== *)
(** ** Python operations on parsed JSON *)
(* ================================================================== *)

(** [key in v] *)
Definition py_contains (key : pystr) (v : json) : outcome bool :=
  match v with
  | JObj kv => Ok (dict_has kv key)
  | JArr l =>
      Ok (existsb (fun x => match x with
                            | JStr s => str_eqb s key
                            | _ => false
                            end) l)
  | JStr s => Ok (contains key s)
  | _ => Raise (PyError (py "argument is not iterable"))
  end.

(** [v[key] = x] *)
Definition py_setitem (v : json) (key : pystr) (x : json) : outcome json :=
  match v with
  | JObj kv => Ok (JObj (dict_set kv key x))
  | JArr _ => Raise (PyError (py "list indices must be integers or slices, not str"))
  | _ => Raise (PyError (py "object does not support item assignment"))
  end.

(** [v[key]] *)
Definition py_getitem (v : json) (key : pystr) : outcome json :=
  match v with
  | JObj kv =>
      match dict_get kv key with
      | Some x => Ok x
      | None => Raise (PyError key)
      end
  | JArr _ => Raise (PyError (py "list indices must be integers or slices, not str"))
  | JStr _ => Raise (PyError (py "string indices must be integers, not 'str'"))
  | _ => Raise (PyError (py "object is not subscriptable"))
  end.

(** The truth value of [v]. *)
Definition py_truthy (v : json) : bool :=
  match v with
  | JNull => false
  | JBool b => b
  | JNum q => negb (Qeq_bool q 0)
  | JStr s => nonempty s
  | JArr l => nonempty l
  | JObj kv => nonempty kv
  end.

(** [v > 0.0] *)
Definition py_positive (v : json) : outcome bool :=
  match v with
  | JNum q => Ok (negb (Qle_bool q 0))
  | JBool b => Ok b
  | _ => Raise (PyError (py "'>' not supported between these instances"))
  end.

(** [{q: text for q in questions}] *)
Definition answer_all (questions : list pystr) (text : pystr)
  : list (pystr * json) :=
  dict_comprehension questions (fun _ => JStr text).

Module Answers.

(** The fixed texts of [QAEngine.answer_batch] and
    [PHCQASystem.answer_batch]. *)
Definition tailored_default : pystr :=
  py "Responses were tailored based on the sponsor context provided, emphasizing alignment with sponsor priorities and using relevant PHC programs and statistics.".
Definition no_fit_analysis : pystr :=
  py "No fit analysis available - sponsor context was not sufficient for evaluation.".
Definition no_detailed_fit : pystr :=
  py "Unable to provide detailed fit analysis - recommend reviewing sponsor requirements against PHC capabilities.".
Definition tailored_short : pystr :=
  py "Responses were tailored based on sponsor context.".
Definition no_fit_short : pystr := py "No fit analysis available.".
Definition parse_error : pystr := py "Error: Could not parse JSON response".
Definition quota_error : pystr := py "Error: API quota exceeded".
Definition no_information : pystr :=
  py "No relevant information found in the knowledge base.".

(** The four-key object. *)
Definition tailored_object (answers : json) (tailoring : pystr) (score : Q)
    (fit : pystr) : json :=
  JObj [(py "answers", answers);
        (py "tailoring_explanation", JStr tailoring);
        (py "fit_score", JNum score);
        (py "fit_explanation", JStr fit)].

End Answers.

(* ================================================================== *)
(** ** Prompt and answers ([QAEngine]) *)
(* ================================================================== *)

(** The fixed text of the prompt of [build_prompt], piece by piece, in the
    order of the f-string. *)
Record prompt_text := {
  format_tailored : pystr;     (* [output_format_section], four keys *)
  format_plain : pystr;        (* [output_format_section], answers only *)
  sponsor_header : pystr;      (* the sponsor section up to [{quick_ref}] *)
  sponsor_instructions : pystr;(* the sponsor section after [{cleaned_context}] *)
  prompt_intro : pystr;        (* up to "... secure grant funding." *)
  prompt_rules : pystr;        (* up to [{additional_context_section}] *)
  prompt_knowledge : pystr;    (* "**KNOWLEDGE BASE CONTEXT:** ... grant responses" *)
  prompt_sources : pystr;      (* up to [{context_text}] *)
  prompt_questions : pystr;    (* up to [{questions_text}] *)
  prompt_examples : pystr;     (* up to [{output_format_section}] *)
  prompt_closing : pystr       (* the rest *)
}.

Module QAEngine.
Import Answers.

(** [self.max_context_tokens], set by [__init__]. *)
Definition max_context_tokens : Z := 1000000.

(** [count_tokens(self, text)] *)
Definition count_tokens (text : pystr) : Z := (len text / 2)%Z.

Section Prompt.
Context {T : CaseTables}.
Variable template : prompt_text.

(** [additional_context and additional_context.strip()] *)
Definition has_context (additional_context : pystr) : bool :=
  nonempty additional_context && nonempty (strip additional_context).

Definition ge4 (c : chunk) : bool := Qle_bool 4 (priority c).
Definition ge3 (c : chunk) : bool := Qle_bool 3 (priority c).
Definition ge2 (c : chunk) : bool := Qle_bool 2 (priority c).

(** [prioritized_chunks]: the four tiers, highest first. *)
Definition prioritized (context_chunks : list chunk) : list chunk :=
  filter ge4 context_chunks
  ++ filter (fun c => ge3 c && negb (ge4 c)) context_chunks
  ++ filter (fun c => ge2 c && negb (ge3 c)) context_chunks
  ++ filter (fun c => negb (ge2 c)) context_chunks.

Definition source_type (c : chunk) : pystr :=
  if ge4 c then py "QUANTITATIVE DATA"
  else if ge3 c then py "QUALITATIVE INFO"
  else if ge2 c then py "GRANT EXAMPLE"
  else py "CONTACT INFO".

(** One entry of [context_sections]. *)
Definition context_section (c : chunk) : pystr :=
  py "[" ++ source_type c ++ py "] Source: " ++ path c ++ [NL] ++ content c.

Definition context_text (context_chunks : list chunk) : pystr :=
  join ([NL; NL] ++ py "---" ++ [NL; NL])
    (map context_section (prioritized context_chunks)).

Definition questions_text (questions : list pystr) : pystr :=
  join [NL] (map (fun q => py "- " ++ q) questions).

Local Open Scope N_scope.

Definition upper_az : regex := RChar (in_range 65 90).          (* [A-Z] *)
Definition not_stop : regex := none_of [46; NL].                (* [^.\n] *)

(** r'(?:sponsor|funder|grantor|foundation|organization|company).*?[:is]\s*([A-Z][^.\n]{5,50})' *)
Definition sponsor_pattern1 : regex :=
  seq_of [alt_of (map lit ["sponsor"; "funder"; "grantor"; "foundation";
                           "organization"; "company"]%string);
          lazy_star dot; one_of [58; 105; 115]; star ws;
          RGroup 1 (RSeq upper_az (times not_stop 5 50))].

(** r'(?:from|by|through)\s+([A-Z][^.\n]{5,50})(?:\s+foundation|\s+grants?|\s+program)?' *)
Definition sponsor_pattern2 : regex :=
  seq_of [alt_of (map lit ["from"; "by"; "through"]%string); plus ws;
          RGroup 1 (RSeq upper_az (times not_stop 5 50));
          opt (alt_of [RSeq (plus ws) (lit "foundation");
                       seq_of [plus ws; lit "grant"; opt (chr 115)];
                       RSeq (plus ws) (lit "program")])].

(** r'([A-Z][A-Za-z\s&]{5,50})(?:\s+Foundation|\s+Grants?|\s+Program|\s+Initiative)' *)
Definition sponsor_pattern3 : regex :=
  seq_of [RGroup 1
            (RSeq upper_az
               (times (RChar (fun c => in_range 65 90 c || in_range 97 122 c
                                       || isspace c || (c =? 38))) 5 50));
          alt_of [RSeq (plus ws) (lit "Foundation");
                  seq_of [plus ws; lit "Grant"; opt (chr 115)];
                  RSeq (plus ws) (lit "Program");
                  RSeq (plus ws) (lit "Initiative")]].

(** r'\$[\d,]+(?:,\d{3})*(?:\.\d{2})?' *)
Definition amount_pattern : regex :=
  seq_of [chr 36; plus (RChar (fun c => ch_isdigit c || (c =? 44)));
          star (RSeq (chr 44) (times (RChar ch_isdigit) 3 3));
          opt (RSeq (chr 46) (times (RChar ch_isdigit) 2 2))].

Local Close Scope N_scope.

(** The first sponsor pattern found in the context: [match.group(1).strip()]. *)
Fixpoint sponsor_name (patterns : list regex) (cleaned_context : pystr)
  : option pystr :=
  match patterns with
  | [] => None
  | r :: rest =>
      match search_from true r 0 cleaned_context with
      | Some (_, _, caps) => Some (strip (group caps 1))
      | None => sponsor_name rest cleaned_context
      end
  end.

(** [context_summary_parts] *)
Definition context_summary_parts (cleaned_context : pystr) : list pystr :=
  (match sponsor_name [sponsor_pattern1; sponsor_pattern2; sponsor_pattern3]
           cleaned_context with
   | Some name =>
       if nonempty name then [py "**Sponsor/Funder**: " ++ name] else []
   | None => []
   end)
  ++ (if existsb (fun k => contains (py k) (lower cleaned_context))
           ["priority"; "focus"; "emphasis"; "values"; "mission"; "goal";
            "objective"]%string
      then [py "**Key Focus Areas**: Referenced in context below"] else [])
  ++ (if existsb (fun k => contains (py k) (lower cleaned_context))
           ["requirement"; "must"; "should"; "need"; "seeking";
            "looking for"]%string
      then [py "**Specific Requirements**: Referenced in context below"] else [])
  ++ (match re_findall false amount_pattern cleaned_context with
      | [] => []
      | amounts => [py "**Grant Amount**: " ++ join (py ", ") (firstn 3 amounts)]
      end).

(** [quick_ref] *)
Definition quick_ref (cleaned_context : pystr) : pystr :=
  let summary_text := join [NL] (context_summary_parts cleaned_context) in
  if nonempty summary_text
  then py "**QUICK REFERENCE:**" ++ [NL] ++ summary_text ++ [NL; NL]
  else [].

(** [additional_context_section] *)
Definition additional_context_section (additional_context : pystr) : pystr :=
  if has_context additional_context then
    let cleaned_context := strip additional_context in
    sponsor_header template ++ quick_ref cleaned_context
    ++ py "**FULL SPONSOR CONTEXT:**" ++ [NL] ++ cleaned_context
    ++ sponsor_instructions template
  else [].

(** [build_prompt(self, questions, context_chunks, additional_context,
    include_tailoring_explanation)] *)
Definition build_prompt (questions : list pystr) (context_chunks : list chunk)
    (additional_context : pystr) (include_tailoring_explanation : bool)
  : pystr :=
  let output_format_section :=
    if include_tailoring_explanation then format_tailored template
    else format_plain template in
  prompt_intro template
  ++ (if has_context additional_context
      then py " This grant application is for a SPECIFIC SPONSOR - you MUST tailor your responses to align with their priorities, requirements, and values as detailed in the sponsor context below."
      else [])
  ++ prompt_rules template
  ++ additional_context_section additional_context
  ++ prompt_knowledge template
  ++ (if has_context additional_context
      then py " that are tailored to the sponsor context above"
      else [])
  ++ prompt_sources template
  ++ context_text context_chunks
  ++ prompt_questions template
  ++ questions_text questions
  ++ prompt_examples template
  ++ output_format_section
  ++ prompt_closing template.

(** The loop that drops chunks from the end of [reduced_chunks];
    [attempts] is [max_attempts - attempt]. *)
Fixpoint reduce_chunks (attempts : nat) (questions : list pystr)
    (reduced_chunks : list chunk) (additional_context : pystr)
    (include : bool) : list chunk :=
  match attempts with
  | O => reduced_chunks
  | S attempts' =>
      if (count_tokens (build_prompt questions reduced_chunks
                          additional_context include)
          >? max_context_tokens)%Z
      then
        if Nat.leb (List.length reduced_chunks) 10 then reduced_chunks
        else reduce_chunks attempts' questions (removelast reduced_chunks)
               additional_context include
      else reduced_chunks
  end.

(** The chunks [answer_batch] keeps for the prompt it sends. *)
Definition kept_chunks (questions : list pystr) (context_chunks : list chunk)
    (additional_context : pystr) : list chunk :=
  let include := has_context additional_context in
  if (count_tokens (build_prompt questions context_chunks
                      additional_context include)
      >? max_context_tokens)%Z
  then
    let reduced_chunks :=
      filter ge4 context_chunks
      ++ filter (fun c => negb (ge4 c)) context_chunks in
    reduce_chunks 50 questions reduced_chunks additional_context include
  else context_chunks.

(** The prompt [answer_batch] sends. *)
Definition final_prompt (questions : list pystr) (context_chunks : list chunk)
    (additional_context : pystr) : pystr :=
  build_prompt questions
    (kept_chunks questions context_chunks additional_context)
    additional_context (has_context additional_context).

End Prompt.

Section Engine.
Context {T : CaseTables}.
Variable template : prompt_text.

(** The generation backend: the text of the response to a prompt
    ([model.generate_content(prompt, ...)] and [response.text]), or the
    exception raised. *)
Variable generate_content : pystr -> outcome pystr.

(** [json.loads] *)
Variable json_loads : pystr -> outcome json.

(** [if key not in v: v[key] = default] *)
Definition set_default (v : json) (key : pystr) (default : json)
  : outcome json :=
  has <- py_contains key v ;;
  if has then Ok v else py_setitem v key default.

(** "Ensure all required fields are present". *)
Definition ensure_fields (fit tailoring : pystr) (v : json) : outcome json :=
  v <- set_default v (py "fit_score") (JNum 0) ;;
  v <- set_default v (py "fit_explanation") (JStr fit) ;;
  set_default v (py "tailoring_explanation") (JStr tailoring).

(** The [try] block after [result_json = json.loads(response.text)]. *)
Definition shape_parsed (include : bool) (result_json : json) : outcome json :=
  has <- py_contains (py "answers") result_json ;;
  if include then
    if has then ensure_fields no_fit_analysis tailored_default result_json
    else Ok (tailored_object result_json tailored_default (35 # 10)
               no_detailed_fit)
  else
    if has then py_getitem result_json (py "answers") else Ok result_json.

(** What is returned for the text found between the fences. *)
Definition shape_fenced (include : bool) (fenced : pystr) : outcome json :=
  parsed <- json_loads (strip fenced) ;;
  if include then
    has <- py_contains (py "answers") parsed ;;
    if has then ensure_fields no_fit_short tailored_short parsed
    else Ok (tailored_object parsed tailored_short 0 no_fit_short)
  else
    has <- py_contains (py "answers") parsed ;;
    if has then py_getitem parsed (py "answers") else Ok parsed.

(** "Last resort: return error for each question". *)
Definition last_resort (include : bool) (questions : list pystr) : json :=
  if include then
    tailored_object (JObj (answer_all questions parse_error))
      (py "Unable to generate tailoring explanation due to parsing error.") 0
      (py "Unable to generate fit analysis due to parsing error.")
  else JObj (answer_all questions parse_error).

(** The text between a fence that opens with [fence] and the next
    [```], when there is one further on. *)
Definition fenced_text (fence text : pystr) : option pystr :=
  match find fence text 0 with
  | Some i =>
      let json_start := (i + List.length fence)%nat in
      match find (py "```") text json_start with
      | Some json_end =>
          if Nat.ltb json_start json_end
          then Some (substring json_start json_end text)
          else None
      | None => None
      end
  | None => None
  end.

(** The handler's first attempt: [json.loads] on the stripped text when
    it is wrapped in braces; any failure there is passed over. *)
Definition retry_stripped (text : pystr) : option json :=
  if startswith (py "{") text && endswith (py "}") text
  then match json_loads text with
       | Ok v => Some v
       | Raise _ => None
       end
  else None.

(** The handler's second attempt: the text inside a [```json] fence, or
    else inside a plain fence. *)
Definition extract_fenced (text : pystr) : option pystr :=
  if contains (py "```json") text then fenced_text (py "```json") text
  else if contains (py "```") text then fenced_text (py "```") text
  else None.

(** The handler of [json.JSONDecodeError]. *)
Definition recover (include : bool) (questions : list pystr)
    (response_text : pystr) : outcome json :=
  let text := strip response_text in
  match retry_stripped text with
  | Some v => Ok v
  | None =>
      match extract_fenced text with
      | Some fenced => shape_fenced include fenced
      | None => Ok (last_resort include questions)
      end
  end.

(** The handler of [except Exception as e]. *)
Definition on_error (include : bool) (questions : list pystr) (e : exn)
  : json :=
  let error_msg := exn_msg e in
  let quota :=
    contains (py "429") error_msg
    || contains (py "quota") (lower error_msg)
    || contains (py "rate limit") (lower error_msg) in
  if include then
    if quota then
      tailored_object (JObj (answer_all questions quota_error))
        (py "Unable to generate tailoring explanation due to API error.") 0
        (py "Unable to generate fit analysis due to API error.")
    else
      tailored_object (JObj (answer_all questions (py "Error: " ++ error_msg)))
        (py "Unable to generate tailoring explanation due to error.") 0
        (py "Unable to generate fit analysis due to error.")
  else
    if quota then JObj (answer_all questions quota_error)
    else JObj (answer_all questions (py "Error: " ++ error_msg)).

(** The outer [try] block, given the prompt. *)
Definition generate_and_parse (include : bool) (questions : list pystr)
    (prompt : pystr) : outcome json :=
  response_text <- generate_content prompt ;;
  try_json (result_json <- json_loads response_text ;;
            shape_parsed include result_json)
           (recover include questions response_text).

(** [answer_batch(self, questions, context_chunks, additional_context)].
    Building the prompt raises nothing; all the rest runs under
    [except Exception]. *)
Definition answer_batch (questions : list pystr) (context_chunks : list chunk)
    (additional_context : pystr) : outcome json :=
  let include := has_context additional_context in
  let prompt :=
    final_prompt template questions context_chunks additional_context in
  Ok (try_except (generate_and_parse include questions prompt)
        (on_error include questions)).

End Engine.
End QAEngine.

(* ================================================================== *)
(** ** The orchestrator ([PHCQASystem]) *)
(* ================================================================== *)

Module PHCQASystem.
Import Answers.

(** What a call of [answer_batch] returns or raises, and the prompts it
    sent to the generation backend. *)
Record run := {
  returned : outcome json;
  generation_calls : list pystr
}.

(** [all_chunks], [seen_chunk_ids] and [question_chunks]. *)
Record retrieval := {
  all_chunks : list chunk;
  seen_chunk_ids : list (pystr * Z);
  question_chunks : list (pystr * list chunk)
}.

Definition chunk_id (c : chunk) : pystr * Z := (path c, start_line c).

Definition id_mem (i : pystr * Z) (ids : list (pystr * Z)) : bool :=
  existsb (fun j => str_eqb (fst i) (fst j) && Z.eqb (snd i) (snd j)) ids.

(** [question_chunks[q].append(chunk)] *)
Definition append_for (q : pystr) (c : chunk) (qc : list (pystr * list chunk))
  : list (pystr * list chunk) :=
  dict_set qc q (dict_get_default qc q [] ++ [c]).

(** One chunk of a search result: pooled if it is new, and attributed to
    the questions [attributed] when it is pooled ([only_new]) or always. *)
Definition add_chunk (only_new : bool) (attributed : list pystr)
    (st : retrieval) (c : chunk) : retrieval :=
  let fresh := negb (id_mem (chunk_id c) (seen_chunk_ids st)) in
  let attribute := if only_new then fresh else true in
  {| all_chunks := if fresh then all_chunks st ++ [c] else all_chunks st;
     seen_chunk_ids :=
       if fresh then seen_chunk_ids st ++ [chunk_id c] else seen_chunk_ids st;
     question_chunks :=
       if attribute
       then fold_left (fun qc q => append_for q c qc) attributed
              (question_chunks st)
       else question_chunks st |}.

Section System.
Context {T : CaseTables}.
Variable template : prompt_text.
Variable generate_content : pystr -> outcome pystr.
Variable json_loads : pystr -> outcome json.

(** [self.searcher.search(query, top_k=...)] *)
Variable search : pystr -> Z -> outcome (list chunk).

Definition common_words : list pystr :=
  map py ["what"; "how"; "when"; "where"; "why"; "does"; "is"; "are"; "the";
          "and"; "for"; "with"]%string.

(** [combined_query] of a batch of more than three questions. *)
Definition combined_query (questions : list pystr) : pystr :=
  let combined_keywords :=
    flat_map (fun q =>
      let words := split_ws (lower q) in
      let important_words :=
        filter (fun w => Nat.ltb 3 (List.length w)
                         && negb (str_mem w common_words))
          words in
      firstn 5 important_words) questions in
  join [SP] (firstn 20 combined_keywords).

(** An individual search: every chunk returned is attributed to
    [question]. *)
Definition search_question (top_k : Z) (st : retrieval) (question : pystr)
  : outcome retrieval :=
  relevant_chunks <- search question top_k ;;
  Ok (fold_left (add_chunk false [question]) relevant_chunks st).

Fixpoint search_questions (top_k : Z) (st : retrieval) (qs : list pystr)
  : outcome retrieval :=
  match qs with
  | [] => Ok st
  | q :: rest =>
      st' <- search_question top_k st q ;;
      search_questions top_k st' rest
  end.

(** The retrieval step of [answer_batch]. *)
Definition retrieve (questions : list pystr) (top_k : Z) : outcome retrieval :=
  let st0 := {| all_chunks := []; seen_chunk_ids := [];
                question_chunks :=
                  dict_comprehension questions (fun _ => []) |} in
  if Nat.ltb 3 (List.length questions) then
    initial_chunks <- search (combined_query questions) (top_k * 2) ;;
    let st1 := fold_left (add_chunk true questions) initial_chunks st0 in
    let sample_size := Nat.min 3 (List.length questions) in
    search_questions (top_k / 2) st1 (firstn sample_size questions)
  else search_questions top_k st0 questions.

(** [sources_map]: per question, the sorted distinct non-empty paths of
    its chunks. *)
Definition sources_map (questions : list pystr)
    (qc : list (pystr * list chunk)) : list (pystr * json) :=
  dict_comprehension questions (fun question =>
    let question_sources :=
      nodup (list_eq_dec N.eq_dec)
        (filter nonempty (map path (dict_get_default qc question []))) in
    JArr (map JStr (sorted_by_key (fun p => p) question_sources))).

(** The return value when no chunk was retrieved. *)
Definition no_chunks_result (questions : list pystr)
    (additional_context : pystr) (return_sources : bool) : json :=
  if return_sources then
    JObj ([(py "answers", JObj (answer_all questions no_information));
           (py "sources",
            JObj (dict_comprehension questions (fun _ => JArr [])))]
          ++ (if QAEngine.has_context additional_context
              then [(py "tailoring_explanation",
                     JStr (py "Unable to tailor responses - no relevant information found in knowledge base."));
                    (py "fit_score", JNum 0);
                    (py "fit_explanation",
                     JStr (py "Unable to assess fit - no relevant information found in knowledge base to compare against sponsor requirements."))]
              else []))
  else JObj (answer_all questions no_information).

(** The part of [answer_batch] after the call of the engine. *)
Definition assemble (questions : list pystr) (qc : list (pystr * list chunk))
    (return_sources : bool) (result : json) : outcome json :=
  let new_format :=
    match result with
    | JObj kv => dict_has kv (py "answers")
    | _ => false
    end in
  let answers :=
    match result with
    | JObj kv => if new_format then dict_get_default kv (py "answers") JNull
                 else result
    | _ => result
    end in
  let field (k : string) (default : json) :=
    match result with
    | JObj kv => if new_format then dict_get_default kv (py k) default
                 else default
    | _ => default
    end in
  let tailoring_explanation := field "tailoring_explanation"%string (JStr []) in
  let fit_score := field "fit_score"%string (JNum 0) in
  let fit_explanation := field "fit_explanation"%string (JStr []) in
  if return_sources || py_truthy tailoring_explanation then
    let response := [(py "answers", answers);
                     (py "sources", JObj (sources_map questions qc))] in
    let response :=
      if py_truthy tailoring_explanation
      then dict_set response (py "tailoring_explanation") tailoring_explanation
      else response in
    positive <- py_positive fit_score ;;
    let response :=
      if positive then dict_set response (py "fit_score") fit_score
      else response in
    let response :=
      if py_truthy fit_explanation
      then dict_set response (py "fit_explanation") fit_explanation
      else response in
    Ok (JObj response)
  else Ok answers.

(** [answer_batch(self, questions, top_k, additional_context,
    return_sources)] *)
Definition answer_batch (questions : list pystr) (top_k : Z)
    (additional_context : pystr) (return_sources : bool) : run :=
  match retrieve questions top_k with
  | Raise e => {| returned := Raise e; generation_calls := [] |}
  | Ok st =>
      if negb (nonempty (all_chunks st)) then
        {| returned := Ok (no_chunks_result questions additional_context
                             return_sources);
           generation_calls := [] |}
      else
        {| returned :=
             result <- QAEngine.answer_batch template generate_content
                         json_loads questions (all_chunks st)
                         additional_context ;;
             assemble questions (question_chunks st) return_sources result;
           generation_calls :=
             [QAEngine.final_prompt template questions (all_chunks st)
                additional_context] |}
      end.

End System.
End PHCQASystem.

(* ================================================================== *)
(** ** The entry point ([answer_questions]) *)
(* ================================================================== *)

(** [api_key or os.getenv("GEMINI_API_KEY")], then [if not api_key]: the
    key to use, if there is one. [None] and the empty string both count as
    no key. *)
Definition resolve_api_key (api_key env_key : option pystr) : option pystr :=
  let api_key :=
    match api_key with
    | Some k => if nonempty k then Some k else env_key
    | None => env_key
    end in
  match api_key with
  | Some k => if nonempty k then Some k else None
  | None => None
  end.

Section AnswerQuestions.
Context {T : CaseTables}.

(** [numpy]. *)
Variable ndarray : Type.
Variable np_array : json -> ndarray.
Variable np_zeros : nat -> ndarray.
Variable np_dot : ndarray -> ndarray -> outcome Q.
Variable np_linalg_norm : ndarray -> Q.

(** The embedding backend, for the chunks and for the queries, and the
    disk cache. *)
Variable backend : Type.
Variable embed_content :
  backend -> EmbeddingIndex.embed_request -> outcome json * backend.
Variable embed_query : pystr -> outcome json.
Variable md5_hexdigest : pystr -> pystr.
Variable cache_files : pystr -> option (list ndarray).

(** The generation backend and [json.loads]. *)
Variable template : prompt_text.
Variable generate_content : pystr -> outcome pystr.
Variable json_loads : pystr -> outcome json.

(** [PHCQASystem.__init__]: [self.chunks], the knowledge base loaded
    and cut with the default sizes. *)
Definition system_chunks (md_files : list KnowledgeBaseLoader.md_file)
  : list chunk :=
  KnowledgeBaseLoader.get_chunks (KnowledgeBaseLoader.load_all md_files)
    1000 200.

(** [PHCQASystem.__init__]: [self.searcher.search], over the chunks and
    the index [VectorSearcher.__init__] builds for them. *)
Definition system_search (md_files : list KnowledgeBaseLoader.md_file)
    (b : backend) (query : pystr) (top_k : Z) : outcome (list chunk) :=
  let chunks := system_chunks md_files in
  let index :=
    EmbeddingIndex._compute_embeddings np_array np_zeros embed_content
      md5_hexdigest cache_files b chunks in
  VectorSearcher.search np_array np_dot np_linalg_norm embed_query
    chunks (EmbeddingIndex.embeddings index) query top_k.

(** [answer_questions(questions, api_key, kb_path, additional_context,
    return_sources)], given the environment variable, the files under
    [kb_path] and the state of the embedding backend. It checks the key,
    builds a [PHCQASystem] and calls its [answer_batch] with the default
    [top_k]. *)
Definition answer_questions (env_key : option pystr)
    (md_files : list KnowledgeBaseLoader.md_file) (b : backend)
    (questions : list pystr) (api_key : option pystr)
    (additional_context : pystr) (return_sources : bool) : PHCQASystem.run :=
  match resolve_api_key api_key env_key with
  | None =>
      {| PHCQASystem.returned :=
           Raise (PyError (py "Gemini API key required. Set GEMINI_API_KEY env var or pass api_key parameter"));
         PHCQASystem.generation_calls := [] |}
  | Some _ =>
      PHCQASystem.answer_batch template generate_content json_loads
        (system_search md_files b)
        questions 15 additional_context return_sources
  end.

End AnswerQuestions.

(* ================================================================== *)
(** ** The endpoint ([generate] of [main.py]) *)
(* ================================================================== *)

(** [s.replace(old, new)] for a non-empty [old]: the occurrences of [old]
    are replaced from left to right, without overlap. *)
Fixpoint replace_loop (fuel : nat) (old new s : pystr) : pystr :=
  match fuel with
  | O => s
  | S fuel' =>
      match s with
      | [] => []
      | c :: s' =>
          if startswith old s
          then new ++ replace_loop fuel' old new (skipn (List.length old) s)
          else c :: replace_loop fuel' old new s'
      end
  end.

Definition replace (old new s : pystr) : pystr :=
  replace_loop (S (List.length s)) old new s.

(** [s.split(sep)] for a non-empty [sep]. *)
Fixpoint split_str_loop (fuel : nat) (sep cur s : pystr) : list pystr :=
  match fuel with
  | O => [rev cur ++ s]
  | S fuel' =>
      match s with
      | [] => [rev cur]
      | c :: s' =>
          if startswith sep s
          then rev cur
               :: split_str_loop fuel' sep [] (skipn (List.length sep) s)
          else split_str_loop fuel' sep (c :: cur) s'
      end
  end.

Definition split_str (sep s : pystr) : list pystr :=
  split_str_loop (S (List.length s)) sep [] s.

(** [v.get(key, default)]: only a [dict] has the method. *)
Definition py_get (v : json) (key : pystr) (default : json) : outcome json :=
  match v with
  | JObj kv => Ok (dict_get_default kv key default)
  | _ => Raise (PyError (py "object has no attribute 'get'"))
  end.

(** [for x in v]: the items of a list, the characters of a string, the
    keys of a [dict]. *)
Definition py_iter (v : json) : outcome (list json) :=
  match v with
  | JArr l => Ok l
  | JStr s => Ok (map (fun c => JStr [c]) s)
  | JObj kv => Ok (map (fun e => JStr (fst e)) kv)
  | _ => Raise (PyError (py "object is not iterable"))
  end.

Module Endpoint.

(** What a request handler does: it returns a response, raises an
    [HTTPException], or lets another exception escape (the framework then
    answers with status 500). *)
Inductive http (A : Type) :=
| Respond (a : A)
| HTTPException (status_code : Z) (detail : pystr)
| Uncaught (e : exn).
Arguments Respond {A} a.
Arguments HTTPException {A} status_code detail.
Arguments Uncaught {A} e.

(** The response models. *)
Record AnswerPayload := {
  question : pystr;
  answer : pystr;
  sources : list pystr
}.

Record GenerateResponse := {
  results : list AnswerPayload;
  tailoring_explanation : pystr;
  fit_score : Q;
  fit_explanation : pystr
}.

(** [get_api_key()], given the environment variable. *)
Definition get_api_key (env_key : option pystr) : http pystr :=
  match env_key with
  | Some api_key =>
      if nonempty api_key then Respond api_key
      else HTTPException 500
             (py "GEMINI_API_KEY environment variable not set")
  | None =>
      HTTPException 500 (py "GEMINI_API_KEY environment variable not set")
  end.

Definition SLASH : N := 47%N.
Definition ARROW : N := 8594%N.   (* U+2192 *)

(** The answer put in place of a missing one. *)
Definition no_answer : pystr :=
  py "Error: Could not generate an answer for this question. Please try rephrasing or check if the question is relevant to PHC's work.".

Section Generate.
Context {T : CaseTables}.

(** [s.title()], by Python's Unicode tables. *)
Variable str_title : pystr -> pystr.

(** The validation of the response models: what [pydantic] makes of a
    value given for a [str] field and for a [float] field. *)
Variable validate_str : json -> outcome pystr.
Variable validate_float : json -> outcome Q.

(** [answer_questions(questions, api_key=api_key, kb_path=...,
    additional_context=additional_context, return_sources=True)] *)
Variable answer_questions : list pystr -> pystr -> pystr -> outcome json.

(** The readable form of a source path that holds "knowledge_base/". *)
Definition display_source (source : pystr) : pystr :=
  let rel_path := last (split_str (py "knowledge_base/") source) [] in
  let parts := split_on SLASH (replace (py ".md") [] rel_path) in
  if Nat.eqb (List.length parts) 2 then
    let category := str_title (replace (py "_") (py " ") (nth 0 parts [])) in
    let filename :=
      str_title (replace (py "phc ") (py "PHC ")
                   (replace (py "_") (py " ") (nth 1 parts []))) in
    category ++ [SP; ARROW; SP] ++ filename
  else
    str_title (replace (py "phc ") (py "PHC ")
                 (replace (py "_") (py " ") (last parts []))).

(** The body of [for source in question_sources]. *)
Definition clean_source (source : json) : outcome json :=
  has <- py_contains (py "knowledge_base/") source ;;
  if has then
    match source with
    | JStr s => Ok (JStr (display_source s))
    | _ => Raise (PyError (py "object has no attribute 'split'"))
    end
  else Ok source.

(** [answer_map] and [sources_map_normalized]. *)
Record lookup := {
  answer_map : list (pystr * json);
  sources_map_normalized : list (pystr * json)
}.

(** One iteration of [for key, value in answers.items()]. *)
Definition index_answer (sources_map : json) (st : lookup)
    (item : pystr * json) : outcome lookup :=
  let '(key, value) := item in
  let answer_map := dict_set (answer_map st) key value in
  let normalized_key := lower (strip key) in
  let answer_map :=
    if dict_has answer_map normalized_key then answer_map
    else dict_set answer_map normalized_key value in
  has <- py_contains key sources_map ;;
  if has then
    v <- py_getitem sources_map key ;;
    Ok {| answer_map := answer_map;
          sources_map_normalized :=
            dict_set (dict_set (sources_map_normalized st) key v)
              normalized_key v |}
  else Ok {| answer_map := answer_map;
             sources_map_normalized := sources_map_normalized st |}.

Fixpoint index_answers (sources_map : json) (st : lookup)
    (items : list (pystr * json)) : outcome lookup :=
  match items with
  | [] => Ok st
  | item :: rest =>
      st' <- index_answer sources_map st item ;;
      index_answers sources_map st' rest
  end.

(** The truth value of what [d.get(k)] gives. *)
Definition found_truthy (v : option json) : bool :=
  match v with
  | Some x => py_truthy x
  | None => false
  end.

(** The body of [for question in questions]. *)
Definition result_for (answers : list (pystr * json)) (sources_map : json)
    (st : lookup) (question : pystr) : outcome AnswerPayload :=
  let answer := dict_get answers question in
  let answer :=
    if found_truthy answer then answer
    else dict_get (answer_map st) (lower (strip question)) in
  question_sources <- py_get sources_map question (JArr []) ;;
  let question_sources :=
    if py_truthy question_sources then question_sources
    else dict_get_default (sources_map_normalized st)
           (lower (strip question)) (JArr []) in
  items <- py_iter question_sources ;;
  cleaned_sources <- mapM clean_source items ;;
  let answer :=
    match answer with
    | Some x => if py_truthy x then x else JStr no_answer
    | None => JStr no_answer
    end in
  answer <- validate_str answer ;;
  sources <- mapM validate_str cleaned_sources ;;
  Ok {| question := question; answer := answer; sources := sources |}.

(** The part of [generate] after the [try] block. *)
Definition build_response (questions : list pystr) (answers sources_map
    tailoring_explanation fit_score fit_explanation : json)
  : outcome GenerateResponse :=
  match answers with
  | JObj items =>
      st <- index_answers sources_map
              {| answer_map := []; sources_map_normalized := [] |} items ;;
      results <- mapM (result_for items sources_map st) questions ;;
      tailoring_explanation <- validate_str tailoring_explanation ;;
      fit_score <- validate_float fit_score ;;
      fit_explanation <- validate_str fit_explanation ;;
      Ok {| results := results;
            tailoring_explanation := tailoring_explanation;
            fit_score := fit_score;
            fit_explanation := fit_explanation |}
  | _ => Raise (PyError (py "object has no attribute 'items'"))
  end.

(** [generate(payload)], given the environment variable and the two
    fields of the request. *)
Definition generate (env_key : option pystr)
    (grantQuestions grantContext : pystr) : http GenerateResponse :=
  let questions := Main.parse_questions grantQuestions in
  if negb (nonempty questions) then
    HTTPException 400 (py "No valid grant questions found in input.")
  else
    match get_api_key env_key with
    | HTTPException status_code detail => HTTPException status_code detail
    | Uncaught e => Uncaught e
    | Respond api_key =>
        let additional_context :=
          if nonempty grantContext then strip grantContext else [] in
        match answer_questions questions api_key additional_context with
        | Raise e =>
            HTTPException 500 (py "Error generating answers: " ++ exn_msg e)
        | Ok result =>
            let new_format :=
              match result with
              | JObj kv => dict_has kv (py "answers")
              | _ => false
              end in
            let field (k : string) (default : json) :=
              match result with
              | JObj kv =>
                  if new_format then dict_get_default kv (py k) default
                  else default
              | _ => default
              end in
            let answers :=
              match result with
              | JObj kv =>
                  if new_format then dict_get_default kv (py "answers") JNull
                  else result
              | _ => result
              end in
            if negb (py_truthy answers) then
              HTTPException 500
                (py "No answers were generated. The QA system returned an empty result.")
            else
              match build_response questions answers
                      (field "sources"%string (JObj []))
                      (field "tailoring_explanation"%string (JStr []))
                      (field "fit_score"%string (JNum 0))
                      (field "fit_explanation"%string (JStr [])) with
              | Ok response => Respond response
              | Raise e => Uncaught e
              end
        end
    end.

End Generate.
End Endpoint.

(* ------------------------------------------------------------------ *)
(** *** The endpoint over the QA system *)
(* ------------------------------------------------------------------ *)

Section Service.
Context {T : CaseTables}.

Variable ndarray : Type.
Variable np_array : json -> ndarray.
Variable np_zeros : nat -> ndarray.
Variable np_dot : ndarray -> ndarray -> outcome Q.
Variable np_linalg_norm : ndarray -> Q.
Variable backend : Type.
Variable embed_content :
  backend -> EmbeddingIndex.embed_request -> outcome json * backend.
Variable embed_query : pystr -> outcome json.
Variable md5_hexdigest : pystr -> pystr.
Variable cache_files : pystr -> option (list ndarray).
Variable template : prompt_text.
Variable generate_content : pystr -> outcome pystr.
Variable json_loads : pystr -> outcome json.

(** The call in [generate]:
    [answer_questions(questions, api_key=api_key, kb_path=...,
    additional_context=additional_context, return_sources=True)]. *)
Definition call_answer_questions (env_key : option pystr)
    (md_files : list KnowledgeBaseLoader.md_file) (b : backend)
    (questions : list pystr) (api_key additional_context : pystr)
  : outcome json :=
  PHCQASystem.returned
    (answer_questions np_array np_zeros np_dot np_linalg_norm
       embed_content embed_query md5_hexdigest cache_files
       template generate_content json_loads
       env_key md_files b questions (Some api_key) additional_context true).

End Service.

(* ================================================================== *)
(** ** Vocabulary of the statements *)
(* ================================================================== *)

(** The marker [m] occurs in the lower-cased path. *)
Definition has_marker {T : CaseTables} (m : string) (p : pystr) : bool :=
  contains (py m) (lower p).

(** What the chunker guarantees of a buffer built from the lines [lines]:
    it fits [chunk_size] up to the joining newline, or it is one line, or
    it is the overlap of the chunk before it followed by one line. *)
Definition buffer_ok (chunk_size overlap : Z) (lines : list pystr)
    (text : pystr) : Prop :=
  (len text <= chunk_size + 1)%Z
  \/ In text lines
  \/ exists line, In line lines /\
       (len text <= Z.max 0 overlap + 1 + len line)%Z.

(** The invariant of the loop of [get_chunks]. *)
Definition chunker_ok (chunk_size overlap : Z) (lines : list pystr)
    (st : KnowledgeBaseLoader.chunker) : Prop :=
  (KnowledgeBaseLoader.current_chunk st = []
   \/ buffer_ok chunk_size overlap lines
        (KnowledgeBaseLoader.current_chunk st))
  /\ Forall (fun c => buffer_ok chunk_size overlap lines (content c))
       (KnowledgeBaseLoader.emitted st).





(** The text [x] occurs in [s]. *)
Definition appears_in (x s : pystr) : Prop :=
  exists before after, s = before ++ x ++ after.

(** The prompt for [chunks] is over the token budget. *)
Definition over_budget {T : CaseTables} (template : prompt_text)
    (questions : list pystr) (additional_context : pystr)
    (chunks : list chunk) : bool :=
  (QAEngine.count_tokens
     (QAEngine.build_prompt template questions chunks additional_context
        (QAEngine.has_context additional_context))
   >? QAEngine.max_context_tokens)%Z.

(** [reduced_chunks] before the loop: the chunks of priority 4.0 and more,
    then the others. *)
Definition quantitative_first (chunks : list chunk) : list chunk :=
  filter QAEngine.ge4 chunks
  ++ filter (fun c => negb (QAEngine.ge4 c)) chunks.

(** The keys of [answers] are the questions, each once. *)
Definition covers {A} (questions : list pystr) (answers : list (pystr * A))
  : Prop :=
  NoDup (dict_keys answers)
  /\ forall q, In q (dict_keys answers) <-> In q questions.

(** [w] is an answers map, or an object whose first member "answers" is
    one. *)
Definition carries_answers (w : json) (answers : list (pystr * json)) : Prop :=
  w = JObj answers
  \/ exists rest, w = JObj ((py "answers", JObj answers) :: rest).





(* ================================================================== *)
(** ** Inputs for evaluation *)
(* ================================================================== *)

(** A document of two lines, "ab" and "c". *)
Definition two_line_doc : document :=
  {| doc_path := py "notes.md";
     doc_content := py "ab" ++ [NL] ++ py "c";
     doc_filename := py "notes.md";
     doc_priority := 3 # 2 |}.

(** The chunk [get_chunks] cuts from it for [chunk_size = 3]. *)
Definition two_line_chunk : chunk :=
  {| path := py "notes.md"; filename := py "notes.md";
     content := py "ab" ++ [NL] ++ py "c";
     start_line := 0; end_line := 2; priority := 3 # 2 |}.

(** Two chunks of a small knowledge base. *)
Definition chunk_stat : chunk :=
  {| path := py "quantitative/impact.md"; filename := py "impact.md";
     content := py "served 15081 participants";
     start_line := 0; end_line := 1; priority := 4 |}.

Definition chunk_addr : chunk :=
  {| path := py "contact/address.md"; filename := py "address.md";
     content := py "1031 Franklin Street";
     start_line := 0; end_line := 1; priority := 1 |}.

(** Embeddings that are plain numbers. *)
Definition number_of (j : json) : Q :=
  match j with JNum q => q | _ => 0 end.

(** [np.dot] on arrays of no dimension: the product. *)
Definition dot_q (a b : Q) : outcome Q := Ok (a * b).

(** [np.zeros(n)] as a JSON list. *)
Definition zeros (n : nat) : json := JArr (repeat (JNum 0) n).

(** The answer to a call for a single text: one flat vector. *)
Definition flat_answer : json :=
  JObj [(py "embedding", JArr [JNum (1 # 10); JNum (2 # 10)])].

(** A backend that gives that answer to every call, batch calls too. *)
Definition flat_backend (b : unit) (r : EmbeddingIndex.embed_request)
  : outcome json * unit :=
  (Ok flat_answer, b).


(** Two chunks whose keyword scores for the query "a b c" are [3 * 1.2]
    and [2 * 1.8]. *)
Definition three_words : chunk :=
  {| path := py "contact/a.md"; filename := py "a.md";
     content := py "a b c";
     start_line := 0; end_line := 1; priority := 1 |}.

Definition two_words : chunk :=
  {| path := py "quantitative/b.md"; filename := py "b.md";
     content := py "a b";
     start_line := 0; end_line := 1; priority := 4 |}.

(** A chunk of priority 3.0 whose text alone is over the token budget. *)
Definition long_story : chunk :=
  {| path := py "qualitative/story.md"; filename := py "story.md";
     content := repeat 120%N (Z.to_nat 2000002);
     start_line := 0; end_line := 1; priority := 3 |}.

(** A backend that refuses every call. *)
Definition failing_backend (b : unit) (r : EmbeddingIndex.embed_request)
  : outcome json * unit :=
  (Raise (PyError (py "429 quota exceeded")), b).

(** A prompt text with a short marker for each fixed piece. *)
Definition marker_text : prompt_text :=
  {| format_tailored := py "<format: four keys>";
     format_plain := py "<format: answers>";
     sponsor_header := py "<sponsor header>";
     sponsor_instructions := py "<sponsor instructions>";
     prompt_intro := py "<intro>";
     prompt_rules := py "<rules>";
     prompt_knowledge := py "<knowledge base>";
     prompt_sources := py "<sources>";
     prompt_questions := py "<questions>";
     prompt_examples := py "<examples>";
     prompt_closing := py "<closing>" |}.

(** A question and an answer to it. *)
Definition what_is_phc : pystr := py "What is PHC?".

Definition phc_connects : pystr := py "PHC connects people.".

(** The JSON text [{"What is PHC?": "PHC connects people."}]. *)
Definition answer_json : pystr :=
  py "{" ++ [DQUOTE] ++ what_is_phc ++ [DQUOTE] ++ py ": "
  ++ [DQUOTE] ++ phc_connects ++ [DQUOTE] ++ py "}".


(** [json.loads] on the texts of the examples: the answer object, the
    empty object [{}], and texts it rejects (the fenced text among
    them). *)
Definition loads_examples (s : pystr) : outcome json :=
  if str_eqb s answer_json then Ok (JObj [(what_is_phc, JStr phc_connects)])
  else if str_eqb s (py "{}") then Ok (JObj [])
  else Raise (JSONDecodeError (py "Expecting value: line 1 column 1 (char 0)")).

(** A searcher that finds the statistics chunk for every query, and one
    that finds nothing. *)
Definition search_stat (query : pystr) (top_k : Z) : outcome (list chunk) :=
  Ok [chunk_stat].

Definition search_nothing (query : pystr) (top_k : Z) : outcome (list chunk) :=
  Ok [].

(* ================================================================== *)
(** ** Vocabulary of the further properties *)
(* ================================================================== *)

(** The text without the newlines it starts with. *)
Fixpoint drop_newlines (s : pystr) : pystr :=
  match s with
  | c :: s' => if N.eqb c NL then drop_newlines s' else s
  | [] => []
  end.

(** The line range of [c] is a non-empty range of the first [n] lines. *)
Definition range_ok (n : Z) (c : chunk) : Prop :=
  (0 <= start_line c)%Z /\ (start_line c < end_line c)%Z /\ (end_line c <= n)%Z.

(** Two chunks with the same path and the same text. *)
Definition same_text (c c' : chunk) : Prop :=
  path c = path c' /\ content c = content c'.

(** The tier [build_prompt] puts a chunk in, by its priority: 3 for
    quantitative data (4.0 and more), 2 for qualitative information (3.0
    and more), 1 for grant examples (2.0 and more), 0 for the rest. *)
Definition tier (c : chunk) : nat :=
  if QAEngine.ge4 c then 3
  else if QAEngine.ge3 c then 2
  else if QAEngine.ge2 c then 1
  else 0.

(** Tiers in decreasing order. *)
Definition by_tier_desc (a b : chunk) : Prop := (tier b <= tier a)%nat.

(** The label of a tier in the prompt. *)
Definition tier_label (t : nat) : pystr :=
  match t with
  | 3 => py "QUANTITATIVE DATA"
  | 2 => py "QUALITATIVE INFO"
  | 1 => py "GRANT EXAMPLE"
  | _ => py "CONTACT INFO"
  end%nat.

(** The message of an exception reads like a quota or rate-limit error:
    the test of the handler of [QAEngine.answer_batch]. *)
Definition mentions_quota {T : CaseTables} (error_msg : pystr) : bool :=
  contains (py "429") error_msg
  || contains (py "quota") (lower error_msg)
  || contains (py "rate limit") (lower error_msg).

(** A response that is a JSON object with its own answers and fit score. *)
Definition scored_answer : pystr := py "<answers and a fit score>".

Definition loads_scored (s : pystr) : outcome json :=
  if str_eqb s scored_answer
  then Ok (JObj [(py "answers", JObj [(what_is_phc, JStr phc_connects)]);
                 (py "fit_score", JNum (42 # 10))])
  else Raise (JSONDecodeError (py "Expecting value: line 1 column 1 (char 0)")).

(** The fit score [PHCQASystem.answer_batch] reads off the result of the
    engine: the "fit_score" member of an object that has "answers", 0.0
    otherwise. *)
Definition reported_fit_score (result : json) : json :=
  match result with
  | JObj kv =>
      if dict_has kv (py "answers")
      then dict_get_default kv (py "fit_score") (JNum 0)
      else JNum 0
  | _ => JNum 0
  end.

(** A value Python compares with [0.0]: a number or a [bool]. *)
Definition is_number (v : json) : bool :=
  match v with
  | JNum _ | JBool _ => true
  | _ => false
  end.

(** Strings in increasing order. *)
Definition str_le (a b : pystr) : Prop := str_leb a b = true.

(** [c] was returned by a call of the searcher. *)
Definition found (search : pystr -> Z -> outcome (list chunk)) (c : chunk)
  : Prop :=
  exists query k l, search query k = Ok l /\ In c l.

(** The invariant of the retrieval loops: [seen_chunk_ids] holds the ids
    of the pooled chunks, which are distinct; every pooled chunk came from
    a search; every chunk attributed to a question has the id of a pooled
    chunk. *)
Definition pool_ok (search : pystr -> Z -> outcome (list chunk))
    (st : PHCQASystem.retrieval) : Prop :=
  PHCQASystem.seen_chunk_ids st
    = map PHCQASystem.chunk_id (PHCQASystem.all_chunks st)
  /\ NoDup (map PHCQASystem.chunk_id (PHCQASystem.all_chunks st))
  /\ (forall c, In c (PHCQASystem.all_chunks st) -> found search c)
  /\ (forall q cs c,
        dict_get (PHCQASystem.question_chunks st) q = Some cs -> In c cs ->
        In (PHCQASystem.chunk_id c)
          (map PHCQASystem.chunk_id (PHCQASystem.all_chunks st))).

(** A response whose fit score is a word, not a number. *)
Definition worded_answer : pystr := py "<answers and a fit score in words>".

Definition loads_worded (s : pystr) : outcome json :=
  if str_eqb s worded_answer
  then Ok (JObj [(py "answers", JObj [(what_is_phc, JStr phc_connects)]);
                 (py "fit_score", JStr (py "high"))])
  else Raise (JSONDecodeError (py "Expecting value: line 1 column 1 (char 0)")).

(** A knowledge base with one blank file. *)
Definition blank_file : KnowledgeBaseLoader.md_file :=
  {| KnowledgeBaseLoader.file_rel_path := py "notes/empty.md";
     KnowledgeBaseLoader.file_name := py "empty.md";
     KnowledgeBaseLoader.file_read := Ok [SP; NL] |}.

(** [np.zeros(n)] for embeddings that are plain numbers. *)
Definition zeros_q (n : nat) : Q := 0.

(** Every white-space character of [s] is a space that is followed by a
    visible character. *)
Fixpoint spaced (s : pystr) : Prop :=
  match s with
  | [] => True
  | c :: rest =>
      (isspace c = true ->
       c = SP /\ match rest with
                 | d :: _ => isspace d = false
                 | [] => False
                 end)
      /\ spaced rest
  end.

(** The same, but for a space that may end the text. *)
Fixpoint loosely_spaced (s : pystr) : Prop :=
  match s with
  | [] => True
  | c :: rest =>
      (isspace c = true ->
       c = SP /\ match rest with
                 | d :: _ => isspace d = false
                 | [] => True
                 end)
      /\ loosely_spaced rest
  end.

(** [s] does not start with white space. *)
Definition starts_visible (s : pystr) : Prop :=
  match s with
  | c :: _ => isspace c = false
  | [] => True
  end.

(** A tidy text: no white space at either end, and single spaces
    between the words. *)
Definition tidy (s : pystr) : Prop := starts_visible s /\ spaced s.

(** The upper-case form of a lower-case character is made of visible
    characters: it holds of Python's tables. *)
Definition upper_is_visible (T : CaseTables) : Prop :=
  forall c, ch_islower c = true ->
    ch_upper c <> [] /\ Forall (fun u => isspace u = false) (ch_upper c).

(** Every value of the [dict] is a string. *)
Definition text_values (kv : list (pystr * json)) : Prop :=
  Forall (fun e => exists s, snd e = JStr s) kv.

(** Every value of the [dict] is a list of strings. *)
Definition path_lists (kv : list (pystr * json)) : Prop :=
  Forall (fun e => exists ps, snd e = JArr (map JStr ps)) kv.

(** [s.title()] on ASCII text: a letter is upper-cased after a character
    that is no letter, lower-cased after a letter. *)
Fixpoint ascii_title_from (previous_is_cased : bool) (s : pystr) : pystr :=
  match s with
  | [] => []
  | c :: s' =>
      if ascii_lower c then
        (if previous_is_cased then c else (c - 32)%N)
        :: ascii_title_from true s'
      else if ascii_upper c then
        (if previous_is_cased then (c + 32)%N else c)
        :: ascii_title_from true s'
      else c :: ascii_title_from false s'
  end.

Definition ascii_title (s : pystr) : pystr := ascii_title_from false s.

(** [pydantic] on well-typed values: a string for a [str] field, a number
    for a [float] field. *)
Definition str_field (v : json) : outcome pystr :=
  match v with
  | JStr s => Ok s
  | _ => Raise (PyError (py "Input should be a valid string"))
  end.

Definition float_field (v : json) : outcome Q :=
  match v with
  | JNum q => Ok q
  | _ => Raise (PyError (py "Input should be a valid number"))
  end.

(** The two maps [generate] builds hold strings and lists of strings. *)
Definition lookup_ok (st : Endpoint.lookup) : Prop :=
  text_values (Endpoint.answer_map st)
  /\ path_lists (Endpoint.sources_map_normalized st).

(** What [generate] shows for a source path: its readable form when it
    holds "knowledge_base/", the path itself otherwise. *)
Definition shown (str_title : pystr -> pystr) (s : pystr) : pystr :=
  if contains (py "knowledge_base/") s
  then Endpoint.display_source str_title s
  else s.

(** A result of the QA system in the shape [generate] expects: an object
    whose "answers" is an object of strings, whose "sources", if any, is
    an object of lists of strings, and whose other fields, if any, are a
    string, a number and a string. *)
Definition sourced_result (result : json)
    (answers sources : list (pystr * json))
    (tailoring : pystr) (score : Q) (fit : pystr) : Prop :=
  exists kv,
    result = JObj kv
    /\ dict_get kv (py "answers") = Some (JObj answers)
    /\ dict_get_default kv (py "sources") (JObj []) = JObj sources
    /\ dict_get_default kv (py "tailoring_explanation") (JStr [])
       = JStr tailoring
    /\ dict_get_default kv (py "fit_score") (JNum 0) = JNum score
    /\ dict_get_default kv (py "fit_explanation") (JStr []) = JStr fit
    /\ text_values answers
    /\ path_lists sources.

(** A QA system that answers the one question it knows, with a source. *)
Definition answers_phc (questions : list pystr) (api_key ctx : pystr)
  : outcome json :=
  Ok (JObj [(py "answers", JObj [(what_is_phc, JStr phc_connects)]);
            (py "sources",
             JObj [(what_is_phc,
                    JArr [JStr (py "quantitative/phc_impact_2024.md")])])]).

(** A knowledge base of one file, and its one chunk. *)
Definition stat_file : KnowledgeBaseLoader.md_file :=
  {| KnowledgeBaseLoader.file_rel_path := py "quantitative/impact.md";
     KnowledgeBaseLoader.file_name := py "impact.md";
     KnowledgeBaseLoader.file_read := Ok (py "served 15081 participants") |}.

(** A generation backend that refuses every call. *)
Definition refusing (prompt : pystr) : outcome pystr :=
  Raise (PyError (py "429 quota exceeded")).

(* ================================================================== *)
(** * Properties *)
(* ================================================================== *)

Lemma str_eqb_spec a b : reflect (a = b) (str_eqb a b).
Proof.
  revert b; induction a as [|x a IH]; intros [|y b]; simpl;
    try (constructor; congruence).
  destruct (N.eqb_spec x y) as [->|Hxy]; simpl.
  - destruct (IH b) as [->|Hab]; constructor; congruence.
  - constructor; congruence.
Qed.

Lemma str_eqb_refl a : str_eqb a a = true.
Proof. destruct (str_eqb_spec a a); congruence. Qed.

Lemma str_eqb_eq a b : str_eqb a b = true <-> a = b.
Proof. destruct (str_eqb_spec a b); split; congruence. Qed.

Lemma str_mem_In x l : str_mem x l = true <-> In x l.
Proof.
  unfold str_mem; rewrite existsb_exists; split.
  - intros (y & Hy & E); apply str_eqb_eq in E; now subst.
  - intros H; exists x; split; [assumption | apply str_eqb_refl].
Qed.


(* ------------------------------------------------------------------ *)
(** *** Folder priority *)
(* ------------------------------------------------------------------ *)

Section PriorityProps.
Context {T : CaseTables}.
Import KnowledgeBaseLoader.

(** C4. The priority of a document is decided by the markers found in its
    lower-cased relative path, in this order: "quantitative" gives 4.0,
    unless "donations_summary" occurs too, which gives 2.0; otherwise
    "qualitative" gives 3.0; otherwise "grant_example" gives 2.0; otherwise
    "contact" gives 1.0; otherwise the priority is 1.5. Two paths with the
    same lower-cased text get the same priority. *)
Theorem folder_priority_cases (p : pystr) :
  (has_marker "quantitative" p = true ->
   has_marker "donations_summary" p = true ->
   _get_folder_priority p = 2) /\
  (has_marker "quantitative" p = true ->
   has_marker "donations_summary" p = false ->
   _get_folder_priority p = 4) /\
  (has_marker "quantitative" p = false ->
   has_marker "qualitative" p = true ->
   _get_folder_priority p = 3) /\
  (has_marker "quantitative" p = false ->
   has_marker "qualitative" p = false ->
   has_marker "grant_example" p = true ->
   _get_folder_priority p = 2) /\
  (has_marker "quantitative" p = false ->
   has_marker "qualitative" p = false ->
   has_marker "grant_example" p = false ->
   has_marker "contact" p = true ->
   _get_folder_priority p = 1) /\
  (has_marker "quantitative" p = false ->
   has_marker "qualitative" p = false ->
   has_marker "grant_example" p = false ->
   has_marker "contact" p = false ->
   _get_folder_priority p = 3 # 2) /\
  (forall p', lower p' = lower p ->
   _get_folder_priority p' = _get_folder_priority p).
Proof.
  unfold has_marker, _get_folder_priority.
  repeat split; intros;
    repeat match goal with
           | H : contains _ _ = _ |- _ => rewrite H; clear H
           | H : lower _ = lower _ |- _ => rewrite H; clear H
           end; reflexivity.
Qed.

End PriorityProps.

(* ------------------------------------------------------------------ *)
(** *** Chunk sizes *)
(* ------------------------------------------------------------------ *)

Section ChunkProps.
Import KnowledgeBaseLoader.

Lemma split_on_not_nil c s : split_on c s <> [].
Proof.
  destruct s as [|x s]; simpl; [discriminate|].
  destruct (N.eqb x c); [discriminate|].
  destruct (split_on c s); discriminate.
Qed.

Lemma join_cons_cons sep p q rest :
  join sep (p :: q :: rest) = p ++ sep ++ join sep (q :: rest).
Proof. reflexivity. Qed.

(** Splitting at a character and joining with it gives the text back. *)
Lemma join_split_on c s : join [c] (split_on c s) = s.
Proof.
  induction s as [|x s IH]; [reflexivity|].
  simpl split_on.
  destruct (N.eqb_spec x c) as [->|Hxc].
  - pose proof (split_on_not_nil c s) as Hne.
    destruct (split_on c s) as [|q rest]; [congruence|].
    rewrite join_cons_cons, IH. reflexivity.
  - destruct (split_on c s) as [|q rest] eqn:E.
    + now destruct (split_on_not_nil c s).
    + destruct rest as [|r rest].
      * simpl in IH |- *. now rewrite IH.
      * rewrite join_cons_cons. rewrite <- IH, join_cons_cons. reflexivity.
Qed.

Lemma length_suffix {A} k (l : list A) : (List.length (suffix k l) <= k)%nat.
Proof. unfold suffix. rewrite length_skipn. lia. Qed.

Lemma nonempty_true {A} (l : list A) : nonempty l = true -> l <> [].
Proof. destruct l; simpl; congruence. Qed.

Variables (doc : document) (chunk_size overlap : Z).

Lemma chunk_step_ok lines st i line :
  In line lines -> chunker_ok chunk_size overlap lines st ->
  chunker_ok chunk_size overlap lines (chunk_step doc chunk_size overlap st i line).
Proof.
  intros Hin [Hcur Hem]. unfold chunk_step.
  destruct ((len (current_chunk st) + len line >? chunk_size)%Z
            && nonempty (current_chunk st)) eqn:E.
  - apply andb_prop in E as [_ Hne]. apply nonempty_true in Hne.
    split; simpl.
    + right. right. right. exists line. split; [assumption|].
      unfold len. rewrite !length_app. simpl.
      destruct (overlap >? 0)%Z eqn:Ho.
      * rewrite join_split_on.
        pose proof (length_suffix (Z.to_nat overlap) (current_chunk st)).
        lia.
      * simpl. lia.
    + apply Forall_app. split; [assumption|].
      constructor; [|constructor]. simpl.
      destruct Hcur as [Hnil|Hok]; [contradiction|assumption].
  - split; simpl; [|assumption].
    destruct (nonempty (current_chunk st)) eqn:Hne.
    + right. left. rewrite andb_true_r in E.
      unfold len in *. rewrite !length_app. simpl.
      rewrite Z.gtb_ltb, Z.ltb_ge in E. lia.
    + right. right. left. assumption.
Qed.

Lemma chunk_loop_ok lines rest st i :
  incl rest lines -> chunker_ok chunk_size overlap lines st ->
  chunker_ok chunk_size overlap lines (chunk_loop doc chunk_size overlap st i rest).
Proof.
  revert st i. induction rest as [|line rest IH]; intros st i Hincl Hst.
  - exact Hst.
  - simpl. apply IH.
    + intros x Hx. apply Hincl. now right.
    + apply chunk_step_ok; [apply Hincl; now left | assumption].
Qed.

Lemma chunk_document_ok c :
  In c (chunk_document chunk_size overlap doc) ->
  path c = doc_path doc /\
  buffer_ok chunk_size overlap (split_on NL (doc_content doc)) (content c).
Proof.
  unfold chunk_document.
  set (lines := split_on NL (doc_content doc)).
  set (st0 := {| current_chunk := []; chunk_start := 0; emitted := [] |}).
  assert (Hok : chunker_ok chunk_size overlap lines (chunk_loop doc chunk_size overlap st0 0 lines)).
  { apply chunk_loop_ok; [apply incl_refl|].
    split; simpl; [now left | constructor]. }
  assert (Hpath : forall rest st i,
             Forall (fun c => path c = doc_path doc) (emitted st) ->
             Forall (fun c => path c = doc_path doc)
               (emitted (chunk_loop doc chunk_size overlap st i rest))).
  { induction rest as [|l rest IH]; intros st i H; [exact H|].
    simpl. apply IH. unfold chunk_step.
    destruct (_ && _); simpl; [|assumption].
    apply Forall_app; split; [assumption | repeat constructor]. }
  specialize (Hpath lines st0 0%Z (Forall_nil _)).
  destruct Hok as [Hcur Hem].
  rewrite Forall_forall in Hem, Hpath.
  destruct (nonempty (strip _)) eqn:Hs; intros Hin.
  - apply in_app_or in Hin as [Hin|[<-|[]]].
    + split; [apply Hpath | apply Hem]; assumption.
    + split; [reflexivity|]. simpl.
      destruct Hcur as [Hnil|Hb]; [|assumption].
      rewrite Hnil in Hs. discriminate.
  - split; [apply Hpath | apply Hem]; assumption.
Qed.

End ChunkProps.

(** C5, as the code has it. Every chunk [get_chunks] emits comes from one
    of the documents, and its text is at most [chunk_size + 1] characters
    long (the overflow test does not count the newline that joins the
    lines), unless it is a single line of the document, or it was seeded
    with the last [overlap] characters of the chunk before it and the line
    that overflowed, in which case it is at most [overlap + 1] characters
    longer than that line. *)
Theorem chunk_length_bound (documents : list document)
    (chunk_size overlap : Z) (c : chunk) :
  In c (KnowledgeBaseLoader.get_chunks documents chunk_size overlap) ->
  exists doc, In doc documents /\ path c = doc_path doc /\
    ((len (content c) <= chunk_size + 1)%Z
     \/ In (content c) (split_on NL (doc_content doc))
     \/ exists line, In line (split_on NL (doc_content doc)) /\
          (len (content c) <= Z.max 0 overlap + 1 + len line)%Z).
Proof.
  unfold KnowledgeBaseLoader.get_chunks. rewrite in_flat_map.
  intros (doc & Hdoc & Hc). exists doc. split; [assumption|].
  apply chunk_document_ok in Hc. exact Hc.
Qed.

(** The bound of C5 at a concrete chunk. *)
Lemma chunk_length_bound_witness :
  In two_line_chunk (KnowledgeBaseLoader.get_chunks [two_line_doc] 3 0) /\
  exists doc, In doc [two_line_doc] /\ path two_line_chunk = doc_path doc /\
    ((len (content two_line_chunk) <= 3 + 1)%Z
     \/ In (content two_line_chunk) (split_on NL (doc_content doc))
     \/ exists line, In line (split_on NL (doc_content doc)) /\
          (len (content two_line_chunk) <= Z.max 0 0 + 1 + len line)%Z).
Proof.
  assert (H : In two_line_chunk
                (KnowledgeBaseLoader.get_chunks [two_line_doc] 3 0))
    by (vm_compute; left; reflexivity).
  split; [exact H|].
  exact (chunk_length_bound [two_line_doc] 3 0 two_line_chunk H).
Defined.

(** C5 as stated fails: with [chunk_size = 3] and no overlap, the two
    lines "ab" and "c" are emitted as one chunk of four characters, which
    is longer than [chunk_size] and is not a single line. *)
Lemma chunk_exceeds_chunk_size :
  KnowledgeBaseLoader.get_chunks [two_line_doc] 3 0 = [two_line_chunk]
  /\ (len (content two_line_chunk) > 3)%Z
  /\ contains [NL] (content two_line_chunk) = true.
Proof. vm_compute. repeat split. Qed.

(* ------------------------------------------------------------------ *)
(** *** Ranking of search results *)
(* ------------------------------------------------------------------ *)

Lemma firstn_In {A} (x : A) n l : In x (firstn n l) -> In x l.
Proof.
  revert n; induction l as [|y l IH]; intros [|n]; simpl; try tauto.
  intros [->|H]; [now left | right; eauto].
Qed.

Lemma skipn_In {A} (x : A) n l : In x (skipn n l) -> In x l.
Proof.
  revert n; induction l as [|y l IH]; intros [|n]; simpl; try tauto.
  intros H. right. eauto.
Qed.

Section SortProps.
Variable A : Type.








End SortProps.


Section MapMProps.
Variables A B : Type.
Variable f : A -> outcome B.

Lemma mapM_Ok_Forall2 l l' :
  mapM f l = Ok l' -> Forall2 (fun x y => f x = Ok y) l l'.
Proof.
  revert l'; induction l as [|x l IH]; intros l'; simpl.
  - intros [= <-]. constructor.
  - destruct (f x) as [y|e] eqn:Ex; simpl; [|discriminate].
    destruct (mapM f l) as [ys|e]; simpl; [|discriminate].
    intros [= <-]. constructor; auto.
Qed.

Lemma mapM_total l :
  (forall x, In x l -> exists y, f x = Ok y) -> exists l', mapM f l = Ok l'.
Proof.
  induction l as [|x l IH]; intros H; simpl.
  - eexists; reflexivity.
  - destruct (H x (or_introl eq_refl)) as [y ->].
    destruct IH as [ys ->]; [intros; apply H; now right|].
    simpl. eexists; reflexivity.
Qed.

End MapMProps.




(* ------------------------------------------------------------------ *)
(** *** Rounding *)
(* ------------------------------------------------------------------ *)










Section SearchProps.
Context {T : CaseTables}.
Variable ndarray : Type.
Variable np_array : json -> ndarray.
Variable np_dot : ndarray -> ndarray -> outcome Q.
Variable np_linalg_norm : ndarray -> Q.
Variable embed_query : pystr -> outcome json.
Import VectorSearcher.






End SearchProps.



(** Rounding decides between scores that are equal as exact numbers:
    [3 * 1.2] is [3.5999999999999996] and [2 * 1.8] is [3.6], so the chunk
    with two shared words and priority 4.0 comes before the chunk with
    three shared words and priority 1.0, which was first in the index. *)
Lemma rounding_orders_keyword_scores :
  map fst (@VectorSearcher.keyword_scored AsciiTables
             [three_words; two_words] (py "a b c") 5)
  = [8106479329266893 # 2251799813685248; 2026619832316723 # 562949953421312]
  /\ @VectorSearcher._keyword_fallback AsciiTables
       [three_words; two_words] (py "a b c") 5
     = [two_words; three_words].
Proof. vm_compute. split; reflexivity. Qed.

(* ------------------------------------------------------------------ *)
(** *** One vector per chunk *)
(* ------------------------------------------------------------------ *)

(** C9 fails on the code. With an empty cache, two chunks and a backend
    whose answer to the batch call is a single flat vector, the branch
    "single embedding" of [_compute_embeddings] appends one vector for the
    whole batch: the index ends with one vector for two chunks. *)
Theorem flat_batch_answer_leaves_one_vector :
  List.length
    (EmbeddingIndex.embeddings
       (EmbeddingIndex._compute_embeddings (fun j => j) zeros flat_backend
          (fun _ => py "d41d8cd9") (fun _ => None)
          tt [chunk_stat; chunk_addr])) = 1%nat
  /\ List.length [chunk_stat; chunk_addr] = 2%nat.
Proof. vm_compute. split; reflexivity. Qed.

(* ------------------------------------------------------------------ *)
(** *** The question parser on two inputs *)
(* ------------------------------------------------------------------ *)

(** C3 fails on the code. The test [question not in seen] looks the
    cleaned question up among lower-cased keys, so a question that has an
    upper-case letter is never found: the same line given twice comes back
    twice. *)
Theorem repeated_question_kept_twice :
  @Main.parse_questions AsciiTables
    (py "What is alpha?" ++ [NL] ++ py "What is alpha?")
  = [py "What is alpha?"; py "What is alpha?"].
Proof. vm_compute. reflexivity. Qed.

(** C10 fails on the code. The question "- Why me???" has eleven
    characters and passes [is_valid_question]; the final clean-up cleans it
    once more, which removes the leading dash, and returns a string of nine
    characters. *)
Theorem recleaned_question_is_short :
  @Main.found_questions AsciiTables (py "- - - Why me???") = [py "- Why me???"]
  /\ @Main.is_valid_question AsciiTables (py "- Why me???") = true
  /\ @Main.parse_questions AsciiTables (py "- - - Why me???") = [py "Why me???"]
  /\ List.length (py "Why me???") = 9%nat.
Proof. vm_compute. repeat split; reflexivity. Qed.

(* ------------------------------------------------------------------ *)
(** *** Shrinking the prompt *)
(* ------------------------------------------------------------------ *)

Lemma appears_refl x : appears_in x x.
Proof. exists [], []. now rewrite app_nil_r. Qed.

Lemma appears_right x a s : appears_in x s -> appears_in x (a ++ s).
Proof.
  intros (b & c & ->). exists (a ++ b), c. now rewrite app_assoc.
Qed.

Lemma appears_left x s b : appears_in x s -> appears_in x (s ++ b).
Proof.
  intros (a & c & ->). exists a, (c ++ b). now rewrite <- !app_assoc.
Qed.

Section ShrinkProps.
Context {T : CaseTables}.
Variable template : prompt_text.
Import QAEngine.

Lemma removelast_firstn_pred {A} (l : list A) k :
  firstn k (removelast l) = firstn (Nat.min k (Nat.pred (List.length l))) l.
Proof. rewrite removelast_firstn_len, firstn_firstn. reflexivity. Qed.

Lemma length_removelast {A} (l : list A) :
  List.length (removelast l) = Nat.pred (List.length l).
Proof.
  rewrite removelast_firstn_len, length_firstn. lia.
Qed.

(** The loop removes [removed] chunks from the end, one at a time: each
    removal happens on a list that is over budget and longer than 10, and
    the loop stops when the prompt fits, when 10 chunks or fewer are left,
    or after [attempts] removals. *)
Lemma reduce_chunks_spec questions ctx attempts l :
  exists removed : nat,
    (removed <= attempts)%nat /\
    reduce_chunks template attempts questions l ctx (has_context ctx)
      = firstn (List.length l - removed) l /\
    (forall j, (j < removed)%nat ->
       over_budget template questions ctx (firstn (List.length l - j) l) = true /\
       (10 < List.length l - j)%nat) /\
    (over_budget template questions ctx (firstn (List.length l - removed) l) = false
     \/ (List.length l - removed <= 10)%nat
     \/ removed = attempts).
Proof.
  revert l. induction attempts as [|a IH]; intros l; simpl.
  - exists 0%nat. rewrite Nat.sub_0_r, firstn_all.
    repeat split; auto; try lia; intros; lia.
  - fold (over_budget template questions ctx l).
    destruct (over_budget template questions ctx l) eqn:Hover.
    + destruct (Nat.leb_spec (List.length l) 10) as [Hle|Hgt].
      * exists 0%nat. rewrite Nat.sub_0_r, firstn_all.
        repeat split; auto; try lia; intros; lia.
      * destruct (IH (removelast l)) as (r & Hr & Heq & Hsteps & Hstop).
        rewrite length_removelast in *.
        assert (Hfirst : forall k, (k <= Nat.pred (List.length l))%nat ->
                  firstn k (removelast l) = firstn k l).
        { intros k Hk. rewrite removelast_firstn_pred.
          f_equal. lia. }
        exists (S r). repeat split.
        -- lia.
        -- rewrite Heq, Hfirst by lia. f_equal. lia.
        -- destruct j as [|j].
           ++ rewrite Nat.sub_0_r, firstn_all. exact Hover.
           ++ specialize (Hsteps j ltac:(lia)) as [Ho _].
              rewrite Hfirst in Ho by lia.
              replace (List.length l - S j)%nat
                with (Nat.pred (List.length l) - j)%nat by lia.
              exact Ho.
        -- destruct j as [|j]; [lia|].
           specialize (Hsteps j ltac:(lia)) as [_ Hl]. lia.
        -- replace (List.length l - S r)%nat
             with (Nat.pred (List.length l) - r)%nat by lia.
           rewrite Hfirst in Hstop by lia.
           destruct Hstop as [H|[H|H]];
             [left | right; left | right; right]; (assumption || lia).
    + exists 0%nat. rewrite Nat.sub_0_r, firstn_all.
      repeat split; auto; try lia; intros; lia.
Qed.

(** In [quantitative_first], a chunk of priority 4.0 or more is cut off
    only when every chunk kept has priority 4.0 or more. *)
Lemma quantitative_cut_last chunks k c :
  In c (skipn k (quantitative_first chunks)) -> ge4 c = true ->
  forall c', In c' (firstn k (quantitative_first chunks)) -> ge4 c' = true.
Proof.
  unfold quantitative_first.
  set (A := filter ge4 chunks). set (B := filter _ chunks).
  intros Hin Hc c' Hc'.
  rewrite skipn_app in Hin. apply in_app_or in Hin as [Hin|Hin].
  - assert (Hk : (k < List.length A)%nat).
    { destruct (Nat.lt_ge_cases k (List.length A)) as [H|H]; [exact H|].
      rewrite skipn_all2 in Hin by exact H. destruct Hin. }
    rewrite firstn_app in Hc'.
    replace (k - List.length A)%nat with 0%nat in Hc' by lia.
    simpl in Hc'. rewrite app_nil_r in Hc'.
    apply firstn_In in Hc'. apply filter_In in Hc'. tauto.
  - apply skipn_In in Hin. apply filter_In in Hin as [_ Hn].
    rewrite Hc in Hn. discriminate.
Qed.

End ShrinkProps.

Section ShrinkTheorem.
Context {T : CaseTables}.
Variable template : prompt_text.
Import QAEngine.

(** The shrinking, as the code has it. The prompt [answer_batch] sends is
    built from the chunks it keeps and the sponsor context as given. When the first prompt is within the
    token budget every chunk is kept. When it is over, the chunks are
    listed with those of priority 4.0 or more first, and chunks are removed
    from the end of that list one at a time, each removal made on a list
    that is over budget and longer than 10: so a chunk of priority 4.0 or
    more goes only when nothing of lower priority is left, and once
    something was removed at least 10 chunks stay, over budget or not. The
    loop ends when the prompt fits, when 10 chunks or fewer are left, or
    after 50 removals. A sponsor context that is not blank appears in the
    prompt sent in full (in its stripped form, as the code inserts it),
    whatever was removed. *)
Theorem shrinking_spares_sponsor_context (questions : list pystr)
    (context_chunks : list chunk) (additional_context : pystr) :
  final_prompt template questions context_chunks additional_context
    = build_prompt template questions
        (kept_chunks template questions context_chunks additional_context)
        additional_context (has_context additional_context)
  /\ (over_budget template questions additional_context context_chunks = false ->
      kept_chunks template questions context_chunks additional_context
        = context_chunks)
  /\ (over_budget template questions additional_context context_chunks = true ->
      exists removed : nat,
        (removed <= 50)%nat
        /\ kept_chunks template questions context_chunks additional_context
           = firstn (List.length (quantitative_first context_chunks) - removed)
               (quantitative_first context_chunks)
        /\ (forall j, (j < removed)%nat ->
              over_budget template questions additional_context
                (firstn (List.length (quantitative_first context_chunks) - j)
                   (quantitative_first context_chunks)) = true
              /\ (10 < List.length (quantitative_first context_chunks) - j)%nat)
        /\ (removed = 0%nat \/
            (10 <= List.length
                     (kept_chunks template questions context_chunks
                        additional_context))%nat)
        /\ (over_budget template questions additional_context
              (kept_chunks template questions context_chunks additional_context)
              = false
            \/ (List.length
                  (kept_chunks template questions context_chunks
                     additional_context) <= 10)%nat
            \/ removed = 50%nat)
        /\ (forall c c',
              In c (skipn (List.length (quantitative_first context_chunks) - removed)
                      (quantitative_first context_chunks)) ->
              ge4 c = true ->
              In c' (kept_chunks template questions context_chunks
                       additional_context) ->
              ge4 c' = true))
  /\ (has_context additional_context = true ->
      appears_in (strip additional_context)
        (final_prompt template questions context_chunks additional_context)).
Proof.
  split; [reflexivity|].
  split; [|split].
  - intros Hfit. unfold kept_chunks.
    unfold over_budget in Hfit. rewrite Hfit. reflexivity.
  - intros Hover. unfold kept_chunks.
    unfold over_budget in Hover. rewrite Hover.
    fold (quantitative_first context_chunks).
    destruct (reduce_chunks_spec template questions additional_context 50
                (quantitative_first context_chunks))
      as (removed & Hr & Heq & Hsteps & Hstop).
    exists removed. rewrite Heq.
    set (reduced := quantitative_first context_chunks) in *.
    assert (Hlen : List.length (firstn (List.length reduced - removed) reduced)
                   = (List.length reduced - removed)%nat).
    { rewrite length_firstn. lia. }
    repeat split.
    + exact Hr.
    + apply Hsteps; assumption.
    + apply Hsteps; assumption.
    + destruct removed as [|r]; [now left | right].
      rewrite Hlen. specialize (Hsteps r ltac:(lia)) as [_ H]. lia.
    + rewrite Hlen. exact Hstop.
    + intros c c' Hc Hq Hc'.
      eapply quantitative_cut_last; eauto.
  - intros Hctx. unfold final_prompt, build_prompt, additional_context_section.
    rewrite Hctx.
    do 3 apply appears_right. apply appears_left.
    do 4 apply appears_right. apply appears_left.
    apply appears_refl.
Qed.

End ShrinkTheorem.

(** C8 fails on the code. Eleven chunks come in: ten of priority 1.0 and,
    last, one of priority 3.0 whose text puts the prompt over the token
    budget. [reduced_chunks] puts only the chunks of priority 4.0 or more
    first and leaves the others in the order they came, so the chunk
    removed "from the lowest-priority end" is the one of priority 3.0: the
    ten chunks of priority 1.0 are kept. *)
Theorem shrinking_drops_higher_priority :
  @over_budget AsciiTables marker_text [what_is_phc] (py "")
    (repeat chunk_addr 10 ++ [long_story]) = true
  /\ @QAEngine.kept_chunks AsciiTables marker_text [what_is_phc]
       (repeat chunk_addr 10 ++ [long_story]) (py "")
     = repeat chunk_addr 10
  /\ priority chunk_addr < priority long_story.
Proof. vm_compute. repeat split; reflexivity. Qed.

(* ------------------------------------------------------------------ *)
(** *** Dictionaries *)
(* ------------------------------------------------------------------ *)

Section DictProps.
Variable A : Type.
Implicit Types d : list (pystr * A).

Lemma dict_get_set d k v k' :
  dict_get (dict_set d k v) k' = if str_eqb k k' then Some v else dict_get d k'.
Proof.
  induction d as [|[k0 v0] d IH]; simpl; [reflexivity|].
  destruct (str_eqb_spec k0 k) as [->|Hk0]; simpl.
  - destruct (str_eqb k k'); reflexivity.
  - rewrite IH.
    destruct (str_eqb_spec k0 k') as [->|Hk']; [|reflexivity].
    destruct (str_eqb_spec k k'); [congruence | reflexivity].
Qed.

Lemma dict_keys_set d k v :
  dict_keys (dict_set d k v)
  = if dict_has d k then dict_keys d else dict_keys d ++ [k].
Proof.
  unfold dict_has, dict_keys.
  induction d as [|[k0 v0] d IH]; simpl; [reflexivity|].
  destruct (str_eqb_spec k0 k) as [->|Hk0]; simpl; [reflexivity|].
  rewrite IH. destruct (dict_get d k); reflexivity.
Qed.

Lemma dict_has_In d k : dict_has d k = true <-> In k (dict_keys d).
Proof.
  unfold dict_has, dict_keys.
  induction d as [|[k0 v0] d IH]; simpl; [intuition discriminate|].
  destruct (str_eqb_spec k0 k) as [->|Hk0]; [intuition|].
  rewrite IH. intuition congruence.
Qed.

Lemma dict_keys_set_In d k v k' :
  In k' (dict_keys (dict_set d k v)) <-> k' = k \/ In k' (dict_keys d).
Proof.
  rewrite dict_keys_set. destruct (dict_has d k) eqn:H.
  - apply dict_has_In in H. intuition congruence.
  - rewrite in_app_iff. simpl. intuition congruence.
Qed.

Lemma dict_keys_set_NoDup d k v :
  NoDup (dict_keys d) -> NoDup (dict_keys (dict_set d k v)).
Proof.
  intros Hnd. rewrite dict_keys_set. destruct (dict_has d k) eqn:H; [exact Hnd|].
  apply NoDup_app; [exact Hnd | repeat constructor; simpl; tauto |].
  intros x Hx [<-|[]]. apply dict_has_In in Hx. congruence.
Qed.

Variable f : pystr -> A.

Lemma comprehension_keys_In qs d k :
  In k (dict_keys (fold_left (fun d q => dict_set d q (f q)) qs d))
  <-> In k (dict_keys d) \/ In k qs.
Proof.
  revert d; induction qs as [|q qs IH]; intros d; simpl; [tauto|].
  rewrite IH, dict_keys_set_In. intuition congruence.
Qed.

Lemma comprehension_NoDup qs d :
  NoDup (dict_keys d) ->
  NoDup (dict_keys (fold_left (fun d q => dict_set d q (f q)) qs d)).
Proof.
  revert d; induction qs as [|q qs IH]; intros d H; simpl; [exact H|].
  apply IH, dict_keys_set_NoDup, H.
Qed.

Lemma comprehension_get_other qs d k :
  ~ In k qs ->
  dict_get (fold_left (fun d q => dict_set d q (f q)) qs d) k = dict_get d k.
Proof.
  revert d; induction qs as [|q qs IH]; intros d H; simpl; [reflexivity|].
  rewrite IH by (simpl in H; tauto). rewrite dict_get_set.
  destruct (str_eqb_spec q k); [|reflexivity].
  subst. exfalso. apply H. now left.
Qed.

Lemma comprehension_get qs d k :
  In k qs ->
  dict_get (fold_left (fun d q => dict_set d q (f q)) qs d) k = Some (f k).
Proof.
  revert d; induction qs as [|q qs IH]; intros d H; simpl; [destruct H|].
  destruct (in_dec (list_eq_dec N.eq_dec) k qs) as [Hin|Hout].
  - now apply IH.
  - destruct H as [->|H]; [|contradiction].
    rewrite comprehension_get_other by exact Hout.
    rewrite dict_get_set, str_eqb_refl. reflexivity.
Qed.

End DictProps.

Lemma comprehension_covers {A} (questions : list pystr) (f : pystr -> A) :
  covers questions (dict_comprehension questions f).
Proof.
  split.
  - apply comprehension_NoDup. constructor.
  - intros q. unfold dict_comprehension.
    rewrite comprehension_keys_In. simpl. tauto.
Qed.

Lemma comprehension_lookup {A} (questions : list pystr) (f : pystr -> A) q :
  In q questions -> dict_get (dict_comprehension questions f) q = Some (f q).
Proof. apply comprehension_get. Qed.

(* ------------------------------------------------------------------ *)
(** *** The orchestrator without chunks *)
(* ------------------------------------------------------------------ *)

Section NoChunks.
Context {T : CaseTables}.
Variable template : prompt_text.
Variable generate_content : pystr -> outcome pystr.
Variable json_loads : pystr -> outcome json.
Variable search : pystr -> Z -> outcome (list chunk).
Import PHCQASystem.

(** C7. When retrieval finds no chunk for the batch, [answer_batch]
    returns at once: every question is a key of the answers, each once,
    mapped to the fixed text "No relevant information found in the
    knowledge base."; when sources are requested every question has the
    empty list of sources; and no prompt is sent to the generation
    backend, whatever that backend would have answered. *)
Theorem no_chunks_short_circuit (questions : list pystr) (top_k : Z)
    (additional_context : pystr) (return_sources : bool) (st : retrieval) :
  retrieve search questions top_k = Ok st ->
  all_chunks st = [] ->
  exists answers : list (pystr * json),
    covers questions answers
    /\ (forall q, In q questions ->
          dict_get answers q = Some (JStr Answers.no_information))
    /\ generation_calls
         (answer_batch template generate_content json_loads search
            questions top_k additional_context return_sources) = []
    /\ if return_sources then
         exists sources rest,
           returned
             (answer_batch template generate_content json_loads search
                questions top_k additional_context return_sources)
           = Ok (JObj ((py "answers", JObj answers)
                       :: (py "sources", JObj sources) :: rest))
           /\ covers questions sources
           /\ forall q, In q questions -> dict_get sources q = Some (JArr [])
       else
         returned
           (answer_batch template generate_content json_loads search
              questions top_k additional_context return_sources)
         = Ok (JObj answers).
Proof.
  intros Hret Hnone.
  exists (answer_all questions Answers.no_information).
  unfold answer_batch. rewrite Hret, Hnone. simpl.
  split; [apply comprehension_covers|].
  split; [intros q Hq; unfold answer_all;
          now rewrite comprehension_lookup by exact Hq|].
  split; [reflexivity|].
  unfold no_chunks_result. destruct return_sources.
  - eexists. eexists. split; [reflexivity|].
    split; [apply comprehension_covers|].
    intros q Hq. now rewrite comprehension_lookup by exact Hq.
  - reflexivity.
Qed.

End NoChunks.

(* ------------------------------------------------------------------ *)
(** *** Failures of the generation step *)
(* ------------------------------------------------------------------ *)


Section EngineProps.
Context {T : CaseTables}.
Variable template : prompt_text.
Variable generate_content : pystr -> outcome pystr.
Variable json_loads : pystr -> outcome json.
Import QAEngine.



(** The exception of a failed generation call is turned into the error
    object. *)
Lemma answer_batch_on_failure questions chunks ctx e :
  generate_content (final_prompt template questions chunks ctx) = Raise e ->
  answer_batch template generate_content json_loads questions chunks ctx
  = Ok (on_error (has_context ctx) questions e).
Proof.
  intros H. unfold answer_batch, generate_and_parse. rewrite H. reflexivity.
Qed.

(** A response that [json.loads] rejects goes to the handler. *)
Lemma answer_batch_on_decode_error questions chunks ctx text m :
  generate_content (final_prompt template questions chunks ctx) = Ok text ->
  json_loads text = Raise (JSONDecodeError m) ->
  answer_batch template generate_content json_loads questions chunks ctx
  = Ok (try_except (recover json_loads (has_context ctx) questions text)
          (on_error (has_context ctx) questions)).
Proof.
  intros Hg Hl. unfold answer_batch, generate_and_parse.
  rewrite Hg. simpl. rewrite Hl. reflexivity.
Qed.

(** Nothing to repair: neither the stripped text nor a fenced block. *)
Lemma answer_batch_unparseable questions chunks ctx text m :
  generate_content (final_prompt template questions chunks ctx) = Ok text ->
  json_loads text = Raise (JSONDecodeError m) ->
  retry_stripped json_loads (strip text) = None ->
  extract_fenced (strip text) = None ->
  answer_batch template generate_content json_loads questions chunks ctx
  = Ok (last_resort (has_context ctx) questions).
Proof.
  intros Hg Hl Hr Hf.
  rewrite (answer_batch_on_decode_error _ _ _ Hg Hl).
  unfold recover. rewrite Hr, Hf. reflexivity.
Qed.


Lemma set_default_object kv k default :
  set_default (JObj kv) k default
  = Ok (JObj (if dict_has kv k then kv else dict_set kv k default)).
Proof.
  unfold set_default. simpl. destruct (dict_has kv k); reflexivity.
Qed.



End EngineProps.

Section EngineContained.
Context {T : CaseTables}.
Variable template : prompt_text.
Variable generate_content : pystr -> outcome pystr.
Variable json_loads : pystr -> outcome json.
Import QAEngine.


End EngineContained.

(* ------------------------------------------------------------------ *)
(** *** A fenced response *)
(* ------------------------------------------------------------------ *)


(** The brace retry at work: a response that [json.loads] rejects for the
    form feed in front of it is stripped, parsed and returned as it is;
    with sponsor context the result has none of the three fields. *)
Lemma padded_answer_is_returned_unshaped :
  loads_examples ([12%N] ++ answer_json)
    = Raise (JSONDecodeError (py "Expecting value: line 1 column 1 (char 0)"))
  /\ QAEngine.has_context (py "Sponsor: health") = true
  /\ @QAEngine.answer_batch AsciiTables marker_text
       (fun _ => Ok ([12%N] ++ answer_json)) loads_examples
       [what_is_phc] [chunk_stat] (py "Sponsor: health")
     = Ok (JObj [(what_is_phc, JStr phc_connects)]).
Proof. vm_compute. repeat split; reflexivity. Qed.

(* ------------------------------------------------------------------ *)
(** *** The keys of the answers *)
(* ------------------------------------------------------------------ *)

Section AnswerKeys.
Context {T : CaseTables}.
Variable template : prompt_text.
Variable generate_content : pystr -> outcome pystr.
Variable json_loads : pystr -> outcome json.
Variable search : pystr -> Z -> outcome (list chunk).
Import PHCQASystem.



End AnswerKeys.



(** The short-circuit of C7 on a batch for which nothing is found. *)
Lemma no_chunks_short_circuit_witness :
  exists answers : list (pystr * json),
    covers [what_is_phc] answers
    /\ (forall q, In q [what_is_phc] ->
          dict_get answers q = Some (JStr Answers.no_information))
    /\ PHCQASystem.generation_calls
         (@PHCQASystem.answer_batch AsciiTables marker_text
            (fun _ => Ok answer_json) loads_examples search_nothing
            [what_is_phc] 15 (py "") true) = []
    /\ exists sources rest,
         PHCQASystem.returned
           (@PHCQASystem.answer_batch AsciiTables marker_text
              (fun _ => Ok answer_json) loads_examples search_nothing
              [what_is_phc] 15 (py "") true)
         = Ok (JObj ((py "answers", JObj answers)
                     :: (py "sources", JObj sources) :: rest))
         /\ covers [what_is_phc] sources
         /\ forall q, In q [what_is_phc] -> dict_get sources q = Some (JArr []).
Proof.
  eapply (@no_chunks_short_circuit AsciiTables marker_text
            (fun _ => Ok answer_json) loads_examples search_nothing
            [what_is_phc] 15 (py "") true).
  - vm_compute. reflexivity.
  - reflexivity.
Defined.

(* ------------------------------------------------------------------ *)
(** *** Further properties *)
(* ------------------------------------------------------------------ *)

(** X1. Every chunk carries the path, the file name and the priority of
    the document it was cut from. *)
Theorem chunk_inherits_document (documents : list document)
    (chunk_size overlap : Z) (c : chunk) :
  In c (KnowledgeBaseLoader.get_chunks documents chunk_size overlap) ->
  exists doc, In doc documents
    /\ path c = doc_path doc
    /\ filename c = doc_filename doc
    /\ priority c = doc_priority doc.
Proof.
  unfold KnowledgeBaseLoader.get_chunks. rewrite in_flat_map.
  intros (doc & Hdoc & Hc). exists doc. split; [exact Hdoc|].
  unfold KnowledgeBaseLoader.chunk_document in Hc.
  set (P := fun c : chunk => path c = doc_path doc
                             /\ filename c = doc_filename doc
                             /\ priority c = doc_priority doc).
  assert (Hloop : forall rest st i,
             Forall P (KnowledgeBaseLoader.emitted st) ->
             Forall P (KnowledgeBaseLoader.emitted
                         (KnowledgeBaseLoader.chunk_loop doc chunk_size
                            overlap st i rest))).
  { induction rest as [|l rest IH]; intros st i H; [exact H|].
    simpl. apply IH. unfold KnowledgeBaseLoader.chunk_step.
    destruct (_ && _); simpl; [|assumption].
    apply Forall_app; split; [assumption|].
    repeat constructor. }
  match type of Hc with
  | context [KnowledgeBaseLoader.chunk_loop doc chunk_size overlap ?s ?i ?l] =>
      specialize (Hloop l s i (Forall_nil _))
  end.
  rewrite Forall_forall in Hloop.
  destruct (nonempty _) in Hc.
  - apply in_app_or in Hc as [Hc|[<-|[]]]; [now apply Hloop|].
    repeat split.
  - now apply Hloop.
Qed.

Lemma chunk_inherits_document_witness :
  exists doc, In doc [two_line_doc]
    /\ path two_line_chunk = doc_path doc
    /\ filename two_line_chunk = doc_filename doc
    /\ priority two_line_chunk = doc_priority doc.
Proof.
  apply (chunk_inherits_document [two_line_doc] 3 0 two_line_chunk).
  vm_compute. left. reflexivity.
Defined.

Section AlignedIndex.
Variable ndarray : Type.
Variable np_array : json -> ndarray.
Variable np_zeros : nat -> ndarray.
Variable backend : Type.
Variable embed_content :
  backend -> EmbeddingIndex.embed_request -> outcome json * backend.
Variable md5_hexdigest : pystr -> pystr.
Variable cache_files : pystr -> option (list ndarray).
Import EmbeddingIndex.





End AlignedIndex.


(** Examples of the parser: the empty input, one question per line, and
    a numbered list. *)
Theorem parse_questions_examples :
  @Main.parse_questions AsciiTables (py "") = []
  /\ @Main.parse_questions AsciiTables
       (py "What is X?" ++ [NL] ++ py "What is Y?")
     = [py "What is X?"; py "What is Y?"]
  /\ @Main.parse_questions AsciiTables
       (py "1. First question here" ++ [NL] ++ py "2. Second question here")
     = [py "First question here"; py "Second question here"].
Proof. vm_compute. repeat split; reflexivity. Qed.

Lemma lstrip_suffix s : exists p, s = p ++ lstrip s.
Proof.
  induction s as [|c s IH]; simpl; [now exists []|].
  destruct (isspace c).
  - destruct IH as (p & Hp). exists (c :: p). simpl. now rewrite <- Hp.
  - now exists [].
Qed.

Lemma rstrip_prefix s : exists p, s = rstrip s ++ p.
Proof.
  unfold rstrip. destruct (lstrip_suffix (rev s)) as (p & Hp).
  exists (rev p). rewrite <- rev_app_distr, <- Hp. now rewrite rev_involutive.
Qed.

Lemma ascii_upper_form c :
  ascii_lower c = true -> ascii_lower (c - 32) = false.
Proof.
  unfold ascii_lower. intros H. apply andb_prop in H as [H1 H2].
  apply N.leb_le in H1, H2. apply andb_false_iff. left.
  apply N.leb_gt. lia.
Qed.

(** What [clean_question] returns does not start with a lower-case ASCII
    letter. *)
Lemma clean_question_capitalized text c rest :
  @Main.clean_question AsciiTables text = c :: rest ->
  ascii_lower c = false.
Proof.
  unfold Main.clean_question.
  destruct (negb (nonempty text)); [discriminate|].
  match goal with
  | |- context [match ?t with [] => [] | _ :: _ => _ end] =>
      destruct t as [|c0 r]
  end; [discriminate|].
  simpl ch_islower. simpl ch_upper.
  destruct (ascii_lower c0) eqn:Hc0; simpl.
  - intros [= <- _]. now apply ascii_upper_form.
  - intros [= <- _]. exact Hc0.
Qed.

(** X3. With the ASCII case tables, no question [parse_questions] returns
    starts with a lower-case ASCII letter. *)
Theorem parsed_question_not_lowercase (raw q : pystr) (c : N) (rest : pystr) :
  In q (@Main.parse_questions AsciiTables raw) ->
  q = c :: rest ->
  ascii_lower c = false.
Proof.
  unfold Main.parse_questions.
  destruct (_ || _); [intros []|].
  rewrite in_map_iff. intros (q0 & <- & _).
  unfold Main.finish.
  set (q' := @Main.clean_question AsciiTables q0).
  assert (Hq' : forall c rest, q' = c :: rest -> ascii_lower c = false)
    by (intros; eapply clean_question_capitalized; eauto).
  assert (Hr : forall x c rest,
             (x = Main.QMARK \/ x = Main.PERIOD) ->
             rstrip q' ++ [x] = c :: rest -> ascii_lower c = false).
  { intros x c1 rest1 Hx Heq.
    destruct (rstrip_prefix q') as (p & Hp).
    destruct (rstrip q') as [|c2 r2]; simpl in *.
    - injection Heq as <- _. destruct Hx as [->| ->]; reflexivity.
    - injection Heq as <- _. eapply Hq'. exact Hp. }
  destruct (_ && _).
  - destruct (existsb _ _); intros H.
    + eapply (Hr Main.QMARK); [now left | exact H].
    + eapply (Hr Main.PERIOD); [now right | exact H].
  - apply Hq'.
Qed.

(** The question cut from the line "what is X?" starts with "W". *)
Lemma parsed_question_not_lowercase_witness :
  In (py "What is X?")
    (@Main.parse_questions AsciiTables
       (py "what is X?" ++ [NL] ++ py "What is Y?"))
  /\ ascii_lower 87 = false.
Proof.
  assert (H : In (py "What is X?")
                (@Main.parse_questions AsciiTables
                   (py "what is X?" ++ [NL] ++ py "What is Y?")))
    by (vm_compute; left; reflexivity).
  split; [exact H|].
  exact (parsed_question_not_lowercase
           (py "what is X?" ++ [NL] ++ py "What is Y?")
           (rest := py "hat is X?") H eq_refl).
Defined.

(* ------------------------------------------------------------------ *)
(** *** The loop of the chunker *)
(* ------------------------------------------------------------------ *)

Section ChunkLoop.
Import KnowledgeBaseLoader.
Variables (doc : document) (chunk_size overlap : Z).

(** An invariant of the loop of [get_chunks], indexed by the lines already
    read. *)
Lemma chunk_loop_ind (Inv : list pystr -> chunker -> Prop) lines :
  (forall done line rest st,
      lines = done ++ line :: rest -> Inv done st ->
      Inv (done ++ [line]) (chunk_step doc chunk_size overlap st (len done) line)) ->
  forall st0, Inv [] st0 ->
    Inv lines (chunk_loop doc chunk_size overlap st0 0 lines).
Proof.
  intros Hstep st0 H0.
  assert (G : forall rest done st, lines = done ++ rest -> Inv done st ->
            Inv lines (chunk_loop doc chunk_size overlap st (len done) rest)).
  { induction rest as [|line rest IH]; intros done st E H; simpl.
    - rewrite app_nil_r in E. now subst.
    - replace (len done + 1)%Z with (len (done ++ [line]))
        by (unfold len; rewrite length_app; simpl; lia).
      apply IH.
      + now rewrite <- app_assoc.
      + eapply Hstep; eauto. }
  apply (G lines [] st0); auto.
Qed.

Lemma len_app {A} (l l' : list A) : len (l ++ l') = (len l + len l')%Z.
Proof. unfold len. rewrite length_app. lia. Qed.

Lemma len_nonneg {A} (l : list A) : (0 <= len l)%Z.
Proof. unfold len. lia. Qed.

Lemma chunk_loop_ranges lines :
  let st := chunk_loop doc chunk_size overlap
              {| current_chunk := []; chunk_start := 0; emitted := [] |} 0 lines in
  (0 <= chunk_start st)%Z
  /\ ((chunk_start st < len lines)%Z \/ current_chunk st = [])
  /\ Forall (range_ok (len lines)) (emitted st).
Proof.
  assert (G : let st := chunk_loop doc chunk_size overlap
              {| current_chunk := []; chunk_start := 0; emitted := [] |} 0 lines in
       (0 <= chunk_start st <= len lines)%Z
       /\ ((chunk_start st < len lines)%Z \/ current_chunk st = [])
       /\ Forall (fun c => (0 <= start_line c < end_line c)%Z
                           /\ (end_line c < len lines)%Z) (emitted st)).
  { apply (chunk_loop_ind
      (fun done st =>
         (0 <= chunk_start st <= len done)%Z
         /\ ((chunk_start st < len done)%Z \/ current_chunk st = [])
         /\ Forall (fun c => (0 <= start_line c < end_line c)%Z
                             /\ (end_line c < len done)%Z) (emitted st))).
    - intros done line rest st E (H0 & Hs & He).
      pose proof (len_nonneg done) as Hd.
      rewrite len_app. change (len [line]) with 1%Z.
      unfold chunk_step.
      destruct ((len (current_chunk st) + len line >? chunk_size)%Z
                && nonempty (current_chunk st)) eqn:C;
        cbn [chunk_start current_chunk emitted].
      + apply andb_prop in C as [_ Hne].
        assert (Hlt : (chunk_start st < len done)%Z).
        { destruct Hs as [|Hnil]; [assumption|].
          rewrite Hnil in Hne. discriminate. }
        pose proof (len_nonneg
            (if (overlap >? 0)%Z
             then split_on NL (suffix (Z.to_nat overlap) (current_chunk st))
             else [])).
        split; [lia | split; [left; lia |]].
        apply Forall_app; split.
        * eapply Forall_impl; [|exact He]. cbv beta. intros c ?. lia.
        * constructor; [|constructor]. simpl. lia.
      + split; [lia | split; [left; lia |]].
        eapply Forall_impl; [|exact He]. cbv beta. intros c ?. lia.
    - unfold len; simpl. split; [lia | split; [now right | constructor]]. }
  cbv zeta in *. destruct G as (H0 & Hs & He).
  split; [lia | split; [assumption |]].
  eapply Forall_impl; [|exact He]. unfold range_ok. cbv beta. intros c ?. lia.
Qed.

Lemma chunk_document_ranges c :
  In c (chunk_document chunk_size overlap doc) ->
  range_ok (len (split_on NL (doc_content doc))) c.
Proof.
  unfold chunk_document.
  pose proof (chunk_loop_ranges (split_on NL (doc_content doc))) as H.
  cbv zeta in *. destruct H as (H0 & Hs & He).
  set (st := chunk_loop _ _ _ _ _ _) in *.
  rewrite Forall_forall in He.
  destruct (nonempty (strip (current_chunk st))) eqn:Hne; [|now apply He].
  rewrite in_app_iff. intros [Hin|[<-|[]]]; [now apply He|].
  unfold range_ok; simpl.
  destruct Hs as [Hlt|Hnil]; [lia|].
  rewrite Hnil in Hne. discriminate.
Qed.

End ChunkLoop.

Section SplitProps.

Lemma split_on_app c a b :
  split_on c (a ++ c :: b) = split_on c a ++ split_on c b.
Proof.
  induction a as [|x a IH]; simpl.
  - now rewrite N.eqb_refl.
  - destruct (N.eqb x c); [now rewrite IH|].
    rewrite IH. destruct (split_on c a) as [|p ps] eqn:E; [|reflexivity].
    now destruct (split_on_not_nil c a).
Qed.

Lemma split_on_single c p : ~ In c p -> split_on c p = [p].
Proof.
  induction p as [|x p IH]; intros H; simpl; [reflexivity|].
  destruct (N.eqb_spec x c) as [->|_]; [destruct H; now left|].
  rewrite IH; [reflexivity|]. intros Hc; apply H; now right.
Qed.

Lemma split_on_no_sep c s p : In p (split_on c s) -> ~ In c p.
Proof.
  revert p; induction s as [|x s IH]; simpl; intros p.
  - intros [<-|[]] [].
  - destruct (N.eqb_spec x c) as [->|Hxc].
    + intros [<-|Hin]; [intros []|now apply IH].
    + destruct (split_on c s) as [|q qs] eqn:E.
      * intros [<-|[]] [->|[]]. congruence.
      * intros [<-|Hin].
        -- intros [->|Hc]; [congruence|]. apply (IH q); [now left|assumption].
        -- apply IH. now right.
Qed.

Lemma split_on_chars c s p x : In p (split_on c s) -> In x p -> In x s.
Proof.
  revert p; induction s as [|y s IH]; simpl; intros p.
  - intros [<-|[]] [].
  - destruct (N.eqb y c).
    + intros [<-|Hin]; [intros []|]. intros Hx; right; eapply IH; eauto.
    + destruct (split_on c s) as [|q qs] eqn:E.
      * intros [<-|[]] [->|[]]. now left.
      * intros [<-|Hin].
        -- intros [->|Hx]; [now left|]. right. apply (IH q); [now left|assumption].
        -- intros Hx. right. apply (IH p); [now right|assumption].
Qed.

Lemma join_app sep (l1 l2 : list pystr) :
  l1 <> [] -> l2 <> [] ->
  join sep (l1 ++ l2) = join sep l1 ++ sep ++ join sep l2.
Proof.
  intros H1 H2. induction l1 as [|p l1 IH]; [congruence|].
  destruct l1 as [|q l1].
  - simpl. destruct l2; [congruence|reflexivity].
  - change ((p :: q :: l1) ++ l2) with (p :: (q :: l1) ++ l2).
    change ((q :: l1) ++ l2) with (q :: l1 ++ l2) at 1.
    rewrite join_cons_cons.
    change (q :: l1 ++ l2) with ((q :: l1) ++ l2).
    rewrite IH by congruence.
    rewrite join_cons_cons. now rewrite <- !app_assoc.
Qed.

Lemma lstrip_nil_iff s : lstrip s = [] <-> Forall (fun c => isspace c = true) s.
Proof.
  induction s as [|c s IH]; simpl.
  - split; auto.
  - destruct (isspace c) eqn:E.
    + rewrite IH. split; [now constructor|now inversion 1].
    + split; [discriminate|]. inversion 1; congruence.
Qed.

Lemma lstrip_all_space s : Forall (fun c => isspace c = true) (lstrip s) -> lstrip s = [].
Proof.
  induction s as [|c s IH]; simpl; [reflexivity|].
  destruct (isspace c) eqn:E; [assumption|].
  inversion 1; congruence.
Qed.

Lemma strip_nil_iff s : strip s = [] <-> Forall (fun c => isspace c = true) s.
Proof.
  unfold strip, rstrip. split.
  - intros H. apply lstrip_nil_iff.
    assert (H' : lstrip (rev (lstrip s)) = []).
    { apply (f_equal (@rev N)) in H. now rewrite rev_involutive in H. }
    apply lstrip_nil_iff in H'.
    apply lstrip_all_space.
    rewrite Forall_forall in *. intros x Hx. apply H'. now apply -> in_rev.
  - intros H. apply lstrip_nil_iff in H. now rewrite H.
Qed.

Lemma nonblank_iff s :
  nonempty (strip s) = true <-> exists c, In c s /\ isspace c = false.
Proof.
  split.
  - intros H. destruct (strip s) eqn:E; [discriminate|].
    destruct (Exists_dec (fun c => isspace c = false) s) as [Hex|Hno].
    + intros c. destruct (isspace c); [right|left]; congruence.
    + apply Exists_exists in Hex. exact Hex.
    + assert (Hall : Forall (fun c => isspace c = true) s).
      { rewrite Forall_forall. intros c Hc.
        destruct (isspace c) eqn:Ec; [reflexivity|].
        destruct Hno. apply Exists_exists. now exists c. }
      apply strip_nil_iff in Hall. congruence.
  - intros (c & Hc & Hs).
    destruct (strip s) eqn:E; [|reflexivity].
    apply strip_nil_iff in E. rewrite Forall_forall in E.
    specialize (E c Hc). congruence.
Qed.

End SplitProps.

Section ChunkCover.
Import KnowledgeBaseLoader.
Variables (doc : document) (chunk_size overlap : Z).

Lemma chunk_document_keeps_lines line :
  In line (split_on NL (doc_content doc)) ->
  nonempty (strip line) = true ->
  exists c, In c (chunk_document chunk_size overlap doc)
    /\ In line (split_on NL (content c)).
Proof.
  intros Hline Hnb. unfold chunk_document.
  set (lines := split_on NL (doc_content doc)) in *.
  assert (G : forall l, In l lines -> nonempty (strip l) = true ->
     let st := chunk_loop doc chunk_size overlap
              {| current_chunk := []; chunk_start := 0; emitted := [] |} 0 lines in
     In l (split_on NL (current_chunk st))
     \/ exists c, In c (emitted st) /\ In l (split_on NL (content c))).
  { apply (chunk_loop_ind doc chunk_size overlap
      (fun done st => forall l, In l done -> nonempty (strip l) = true ->
         In l (split_on NL (current_chunk st))
         \/ exists c, In c (emitted st) /\ In l (split_on NL (content c)))).
    - intros done line0 rest st E IH l Hl Hl'.
      assert (Hno : ~ In NL line0).
      { apply (split_on_no_sep NL (doc_content doc)).
        fold lines. rewrite E. apply in_elt. }
      unfold chunk_step.
      destruct ((len (current_chunk st) + len line0 >? chunk_size)%Z
                && nonempty (current_chunk st)) eqn:C;
        cbn [chunk_start current_chunk emitted].
      + apply in_app_iff in Hl as [Hl|[<-|[]]].
        * right. destruct (IH l Hl Hl') as [Hcur|(c & Hc & Hlc)].
          -- eexists; split; [apply in_app_iff; right; left; reflexivity|].
             exact Hcur.
          -- exists c; split; [apply in_app_iff; now left|assumption].
        * left. cbn [app]. rewrite split_on_app, (split_on_single _ _ Hno).
          apply in_app_iff; right; now left.
      + destruct (nonempty (current_chunk st)) eqn:Hne.
        * apply in_app_iff in Hl as [Hl|[<-|[]]].
          -- destruct (IH l Hl Hl') as [Hcur|Hem]; [left|now right].
             cbn [app]. rewrite split_on_app. apply in_app_iff; now left.
          -- left. cbn [app]. rewrite split_on_app, (split_on_single _ _ Hno).
             apply in_app_iff; right; now left.
        * apply in_app_iff in Hl as [Hl|[<-|[]]].
          -- destruct (IH l Hl Hl') as [Hcur|Hem]; [|now right].
             destruct (current_chunk st); [|discriminate].
             simpl in Hcur. destruct Hcur as [<-|[]]. discriminate.
          -- left. rewrite (split_on_single _ _ Hno). now left.
    - intros l []. }
  cbv zeta in G. specialize (G line Hline Hnb).
  set (st := chunk_loop _ _ _ _ _ _) in *.
  destruct G as [Hcur|(c & Hc & Hlc)].
  - assert (Hne : nonempty (strip (current_chunk st)) = true).
    { apply nonblank_iff. apply nonblank_iff in Hnb as (x & Hx & Hs).
      exists x; split; [|assumption]. eapply split_on_chars; eauto. }
    rewrite Hne. eexists; split; [apply in_app_iff; right; left; reflexivity|].
    exact Hcur.
  - exists c; split; [|assumption].
    destruct (nonempty (strip (current_chunk st))); [apply in_app_iff; now left|assumption].
Qed.

End ChunkCover.

Section SmallDocument.
Import KnowledgeBaseLoader.

Lemma drop_newlines_app s t :
  drop_newlines s <> [] -> drop_newlines (s ++ t) = drop_newlines s ++ t.
Proof.
  induction s as [|c s IH]; simpl; [congruence|].
  destruct (N.eqb c NL); [assumption|reflexivity].
Qed.

Lemma drop_newlines_app_nil s t :
  drop_newlines s = [] -> drop_newlines (s ++ t) = drop_newlines t.
Proof.
  induction s as [|c s IH]; simpl; [reflexivity|].
  destruct (N.eqb c NL); [assumption|discriminate].
Qed.

Lemma drop_newlines_none s : ~ In NL s -> drop_newlines s = s.
Proof.
  destruct s as [|c s]; simpl; [reflexivity|]. intros H.
  destruct (N.eqb_spec c NL) as [->|_]; [destruct H; now left|reflexivity].
Qed.

Lemma length_drop_newlines s : (List.length (drop_newlines s) <= List.length s)%nat.
Proof.
  induction s as [|c s IH]; simpl; [lia|].
  destruct (N.eqb c NL); simpl; lia.
Qed.

Lemma lstrip_drop_newlines s : lstrip (drop_newlines s) = lstrip s.
Proof.
  induction s as [|c s IH]; simpl; [reflexivity|].
  destruct (N.eqb_spec c NL) as [->|_]; [now rewrite IH|reflexivity].
Qed.

Lemma strip_drop_newlines s : strip (drop_newlines s) = strip s.
Proof. unfold strip. now rewrite lstrip_drop_newlines. Qed.

Lemma length_join_cons sep p (rest : list pystr) :
  (List.length p <= List.length (join sep (p :: rest)))%nat.
Proof.
  destruct rest; simpl; [lia|]. rewrite length_app. lia.
Qed.

Variables (doc : document) (chunk_size overlap : Z).
Hypothesis fits : (len (doc_content doc) <= chunk_size)%Z.

Lemma small_document_loop :
  let lines := split_on NL (doc_content doc) in
  let st := chunk_loop doc chunk_size overlap
              {| current_chunk := []; chunk_start := 0; emitted := [] |} 0 lines in
  emitted st = [] /\ chunk_start st = 0%Z
  /\ current_chunk st = drop_newlines (doc_content doc).
Proof using fits.
  intros lines. cbv zeta.
  replace (drop_newlines (doc_content doc))
    with (drop_newlines (join [NL] lines))
    by (unfold lines; now rewrite join_split_on).
  apply (chunk_loop_ind doc chunk_size overlap
    (fun done st => emitted st = [] /\ chunk_start st = 0%Z
       /\ current_chunk st = drop_newlines (join [NL] done))).
  - intros done line0 rest st E (He & Hs & Hc).
    assert (Hno : ~ In NL line0).
    { apply (split_on_no_sep NL (doc_content doc)).
      fold lines. rewrite E. apply in_elt. }
    assert (Hjoin : done <> [] ->
              join [NL] (done ++ [line0]) = join [NL] done ++ NL :: line0).
    { intros Hd. rewrite join_app by congruence. reflexivity. }
    unfold chunk_step.
    assert (C : (len (current_chunk st) + len line0 >? chunk_size)%Z
                && nonempty (current_chunk st) = false).
    { destruct (nonempty (current_chunk st)) eqn:Hne; [|apply andb_false_r].
      rewrite andb_true_r. rewrite Z.gtb_ltb. apply Z.ltb_ge.
      assert (Hd : done <> []).
      { intros ->. rewrite Hc in Hne. discriminate. }
      rewrite <- (join_split_on NL (doc_content doc)) in fits. fold lines in fits.
      rewrite E, join_app in fits by congruence.
      unfold len in *. rewrite !length_app in fits.
      pose proof (length_join_cons [NL] line0 rest).
      pose proof (length_drop_newlines (join [NL] done)).
      rewrite Hc. simpl in fits, H. lia. }
    rewrite C. cbn [chunk_start current_chunk emitted].
    split; [assumption | split; [assumption|]].
    destruct (nonempty (current_chunk st)) eqn:Hne.
    + assert (Hd : done <> []).
      { intros ->. rewrite Hc in Hne. discriminate. }
      rewrite Hjoin by assumption.
      rewrite drop_newlines_app; [now rewrite Hc|].
      rewrite <- Hc. now apply nonempty_true.
    + assert (Hnil : drop_newlines (join [NL] done) = []).
      { rewrite <- Hc. now destruct (current_chunk st). }
      destruct done as [|d done'].
      * simpl. symmetry. now apply drop_newlines_none.
      * rewrite Hjoin by congruence.
        rewrite drop_newlines_app_nil by assumption.
        simpl. symmetry. now apply drop_newlines_none.
  - repeat split.
Qed.

Lemma small_document_chunks :
  chunk_document chunk_size overlap doc
  = if nonempty (strip (doc_content doc))
    then [chunk_of doc (drop_newlines (doc_content doc)) 0
            (len (split_on NL (doc_content doc)))]
    else [].
Proof using fits.
  unfold chunk_document.
  destruct small_document_loop as (He & Hs & Hc).
  rewrite He, Hs, Hc, strip_drop_newlines. reflexivity.
Qed.

End SmallDocument.

Section ChunkFields.
Import KnowledgeBaseLoader.
Variables (chunk_size overlap : Z).

Lemma chunk_document_fields doc c :
  In c (chunk_document chunk_size overlap doc) ->
  path c = doc_path doc /\ filename c = doc_filename doc
  /\ priority c = doc_priority doc.
Proof.
  unfold chunk_document.
  assert (G : let st := chunk_loop doc chunk_size overlap
              {| current_chunk := []; chunk_start := 0; emitted := [] |} 0
              (split_on NL (doc_content doc)) in
            Forall (fun c => path c = doc_path doc
                             /\ filename c = doc_filename doc
                             /\ priority c = doc_priority doc) (emitted st)).
  { apply (chunk_loop_ind doc chunk_size overlap
      (fun _ st => Forall (fun c => path c = doc_path doc
                             /\ filename c = doc_filename doc
                             /\ priority c = doc_priority doc) (emitted st))).
    - intros done line rest st _ IH. unfold chunk_step.
      destruct (_ && _); cbn [emitted]; [|assumption].
      apply Forall_app; split; [assumption|].
      constructor; [now simpl|constructor].
    - constructor. }
  cbv zeta in G. rewrite Forall_forall in G.
  destruct (nonempty _); [|apply G].
  rewrite in_app_iff. intros [Hin|[<-|[]]]; [now apply G|now simpl].
Qed.

Lemma get_chunks_In documents c :
  In c (get_chunks documents chunk_size overlap) <->
  exists doc, In doc documents /\ In c (chunk_document chunk_size overlap doc).
Proof. unfold get_chunks. apply in_flat_map. Qed.

End ChunkFields.

(* ------------------------------------------------------------------ *)
(** *** Loading and chunking *)
(* ------------------------------------------------------------------ *)

Section LoadedPriority.
Context {T : CaseTables}.
Import KnowledgeBaseLoader.

Lemma folder_priority_values (p : pystr) :
  In (_get_folder_priority p) [4; 3; 2; 1; 3 # 2].
Proof.
  unfold _get_folder_priority.
  repeat match goal with
         | |- context [if ?b then _ else _] => destruct b
         end; simpl; auto 10.
Qed.

Lemma load_all_In doc md_files :
  In doc (load_all md_files) ->
  exists f text, In f md_files /\ file_read f = Ok text
    /\ doc = load_doc (file_rel_path f) (file_name f) text.
Proof.
  unfold load_all. rewrite in_flat_map. intros (f & Hf & Hd).
  destruct (file_read f) as [text|e] eqn:E; simpl in Hd; [|contradiction].
  destruct Hd as [<-|[]]. now exists f, text.
Qed.

(** X5. Every chunk cut from a knowledge base that [load_all] read carries
    the folder priority of its own path, which is one of 4.0, 3.0, 2.0, 1.0
    and 1.5; so the priorities of an index built this way are positive. *)
Theorem loaded_chunks_have_folder_priority (md_files : list md_file)
    (chunk_size overlap : Z) :
  Forall (fun c => priority c = _get_folder_priority (path c)
                   /\ In (priority c) [4; 3; 2; 1; 3 # 2]
                   /\ 0 < priority c)
    (get_chunks (load_all md_files) chunk_size overlap).
Proof.
  rewrite Forall_forall. intros c Hc.
  apply get_chunks_In in Hc as (doc & Hdoc & Hc).
  apply chunk_document_fields in Hc as (Hp & _ & Hq).
  apply load_all_In in Hdoc as (f & text & _ & _ & ->).
  simpl in Hp, Hq. rewrite Hq, Hp.
  pose proof (folder_priority_values (file_rel_path f)) as Hv.
  split; [reflexivity | split; [assumption|]].
  simpl in Hv.
  destruct Hv as [<-|[<-|[<-|[<-|[<-|[]]]]]]; reflexivity.
Qed.

End LoadedPriority.

(** X6. The line range of a chunk is a non-empty range of lines of its
    document: [0 <= start_line < end_line <= number of lines]. *)
Theorem chunk_line_range (documents : list document)
    (chunk_size overlap : Z) (c : chunk) :
  In c (KnowledgeBaseLoader.get_chunks documents chunk_size overlap) ->
  exists doc, In doc documents /\ path c = doc_path doc
    /\ (0 <= start_line c)%Z
    /\ (start_line c < end_line c)%Z
    /\ (end_line c <= len (split_on NL (doc_content doc)))%Z.
Proof.
  intros Hc. apply get_chunks_In in Hc as (doc & Hdoc & Hc).
  exists doc. split; [assumption|].
  split; [now apply chunk_document_fields in Hc|].
  now apply chunk_document_ranges in Hc.
Qed.

Lemma chunk_line_range_witness :
  exists doc, In doc [two_line_doc] /\ path two_line_chunk = doc_path doc
    /\ (0 <= start_line two_line_chunk)%Z
    /\ (start_line two_line_chunk < end_line two_line_chunk)%Z
    /\ (end_line two_line_chunk <= len (split_on NL (doc_content doc)))%Z.
Proof.
  apply (chunk_line_range [two_line_doc] 3 0 two_line_chunk).
  vm_compute. now left.
Defined.

(** X7. No line with visible text is lost by the chunker: every line of a
    document that is not blank is a line of some chunk cut from that
    document. *)
Theorem nonblank_lines_are_chunked (documents : list document)
    (chunk_size overlap : Z) (doc : document) (line : pystr) :
  In doc documents ->
  In line (split_on NL (doc_content doc)) ->
  nonempty (strip line) = true ->
  exists c, In c (KnowledgeBaseLoader.get_chunks documents chunk_size overlap)
    /\ path c = doc_path doc
    /\ In line (split_on NL (content c)).
Proof.
  intros Hdoc Hline Hnb.
  destruct (chunk_document_keeps_lines doc chunk_size overlap line Hline Hnb)
    as (c & Hc & Hl).
  exists c. split; [apply get_chunks_In; now exists doc|].
  split; [now apply chunk_document_fields in Hc|assumption].
Qed.

Lemma nonblank_lines_are_chunked_witness :
  exists c, In c (KnowledgeBaseLoader.get_chunks [two_line_doc] 3 0)
    /\ path c = doc_path two_line_doc
    /\ In (py "ab") (split_on NL (content c)).
Proof.
  apply (nonblank_lines_are_chunked [two_line_doc] 3 0 two_line_doc (py "ab")).
  - now left.
  - vm_compute. now left.
  - reflexivity.
Defined.

(** X8. A document whose text fits in [chunk_size] is never split: it
    gives one chunk, the text without the newlines it starts with, from
    line 0 to the number of lines, whatever the overlap; and no chunk at
    all when the text is blank. *)
Theorem small_document_is_one_chunk (doc : document) (chunk_size overlap : Z) :
  (len (doc_content doc) <= chunk_size)%Z ->
  KnowledgeBaseLoader.get_chunks [doc] chunk_size overlap
  = if nonempty (strip (doc_content doc))
    then [{| path := doc_path doc;
             filename := doc_filename doc;
             content := drop_newlines (doc_content doc);
             start_line := 0;
             end_line := len (split_on NL (doc_content doc));
             priority := doc_priority doc |}]
    else [].
Proof.
  intros Hfits. unfold KnowledgeBaseLoader.get_chunks. simpl.
  rewrite app_nil_r. now apply small_document_chunks.
Qed.

Lemma small_document_is_one_chunk_witness :
  KnowledgeBaseLoader.get_chunks [two_line_doc] 10 200
  = if nonempty (strip (doc_content two_line_doc))
    then [{| path := doc_path two_line_doc;
             filename := doc_filename two_line_doc;
             content := drop_newlines (doc_content two_line_doc);
             start_line := 0;
             end_line := len (split_on NL (doc_content two_line_doc));
             priority := doc_priority two_line_doc |}]
    else [].
Proof.
  apply (@small_document_is_one_chunk two_line_doc 10 200).
  vm_compute. discriminate.
Defined.

(* ------------------------------------------------------------------ *)
(** *** Edge cases of the search *)
(* ------------------------------------------------------------------ *)

Lemma filter_none {A} (f : A -> bool) l :
  (forall x, In x l -> f x = false) -> filter f l = [].
Proof.
  induction l as [|x l IH]; intros H; simpl; [reflexivity|].
  rewrite (H x) by now left. apply IH. intros y Hy. apply H. now right.
Qed.




Section SearchEdges.
Context {T : CaseTables}.
Variable ndarray : Type.
Variable np_array : json -> ndarray.
Variable np_dot : ndarray -> ndarray -> outcome Q.
Variable np_linalg_norm : ndarray -> Q.
Variable embed_query : pystr -> outcome json.
Import VectorSearcher.





End SearchEdges.



(* ------------------------------------------------------------------ *)
(** *** The cache key *)
(* ------------------------------------------------------------------ *)

Section CacheKey.
Variable md5_hexdigest : pystr -> pystr.

Lemma insert_by_key_same_text x x' l l' :
  same_text x x' -> Forall2 same_text l l' ->
  Forall2 same_text (insert_by_key path x l) (insert_by_key path x' l').
Proof.
  intros Hx H. induction H as [|y y' l l' Hy H IH]; simpl.
  - constructor; [assumption|constructor].
  - destruct Hx as [Hp Hc], Hy as [Hp' Hc']. rewrite <- Hp, <- Hp'.
    destruct (str_leb (path x) (path y) && negb (str_eqb (path x) (path y))).
    + constructor; [now split|]. constructor; [now split|assumption].
    + constructor; [now split|]. apply IH.
Qed.

Lemma sorted_by_key_same_text l l' :
  Forall2 same_text l l' ->
  Forall2 same_text (sorted_by_key path l) (sorted_by_key path l').
Proof.
  unfold sorted_by_key.
  assert (G : forall acc acc', Forall2 same_text acc acc' ->
            Forall2 same_text l l' ->
            Forall2 same_text
              (fold_left (fun acc x => insert_by_key path x acc) l acc)
              (fold_left (fun acc x => insert_by_key path x acc) l' acc')).
  { intros acc acc' Hacc H. revert acc acc' Hacc.
    induction H as [|x x' l l' Hx H IH]; intros acc acc' Hacc; simpl.
    - assumption.
    - apply IH. now apply insert_by_key_same_text. }
  intros H. apply G; [constructor|assumption].
Qed.

(** X11. The name of the cache file depends only on the paths and the
    texts of the chunks, in their order: two lists of chunks that differ
    in priorities, file names or line numbers share one cache file. *)
Theorem cache_path_depends_on_text_only (chunks chunks' : list chunk) :
  map (fun c => (path c, content c)) chunks
  = map (fun c => (path c, content c)) chunks' ->
  EmbeddingIndex._get_cache_path md5_hexdigest chunks
  = EmbeddingIndex._get_cache_path md5_hexdigest chunks'.
Proof.
  intros E.
  assert (H : Forall2 same_text chunks chunks').
  { revert chunks' E. induction chunks as [|c l IH]; intros [|c' l'] E;
      simpl in E; try discriminate; constructor.
    - split; congruence.
    - apply IH. congruence. }
  unfold EmbeddingIndex._get_cache_path. do 3 f_equal.
  apply sorted_by_key_same_text in H.
  induction H as [|x x' l l' [Hp Hc] H IH]; simpl; [reflexivity|].
  now rewrite Hp, Hc, IH.
Qed.

End CacheKey.

Lemma cache_path_depends_on_text_only_witness :
  EmbeddingIndex._get_cache_path (fun s => s) [chunk_stat]
  = EmbeddingIndex._get_cache_path (fun s => s)
      [{| path := path chunk_stat; filename := py "other.md";
          content := content chunk_stat;
          start_line := 7; end_line := 9; priority := 1 |}].
Proof.
  apply (@cache_path_depends_on_text_only (fun s => s) [chunk_stat]
           [{| path := path chunk_stat; filename := py "other.md";
               content := content chunk_stat;
               start_line := 7; end_line := 9; priority := 1 |}]).
  reflexivity.
Defined.

(* ------------------------------------------------------------------ *)
(** *** The context of the prompt *)
(* ------------------------------------------------------------------ *)

Lemma sorted_app {A} (R : A -> A -> Prop) l1 l2 :
  StronglySorted R l1 -> StronglySorted R l2 ->
  (forall a b, In a l1 -> In b l2 -> R a b) ->
  StronglySorted R (l1 ++ l2).
Proof.
  intros H1 H2 H. induction H1 as [|a l1 H1 IH Ha]; simpl; [assumption|].
  constructor.
  - apply IH. intros x y Hx Hy. apply H; [now right|assumption].
  - apply Forall_app; split; [assumption|].
    rewrite Forall_forall. intros b Hb. apply H; [now left|assumption].
Qed.

Lemma filter_filter {A} (f g : A -> bool) l :
  filter f (filter g l) = filter (fun x => g x && f x) l.
Proof.
  induction l as [|x l IH]; simpl; [reflexivity|].
  destruct (g x); simpl; [destruct (f x)|]; now rewrite IH.
Qed.

Section TierProps.
Import QAEngine.

Lemma ge4_ge3 c : ge4 c = true -> ge3 c = true.
Proof.
  unfold ge4, ge3. rewrite !Qle_bool_iff. intros H.
  apply Qle_trans with 4; [discriminate|assumption].
Qed.

Lemma ge3_ge2 c : ge3 c = true -> ge2 c = true.
Proof.
  unfold ge3, ge2. rewrite !Qle_bool_iff. intros H.
  apply Qle_trans with 3; [discriminate|assumption].
Qed.

Lemma tier_cases c :
  (ge4 c = true /\ ge3 c = true /\ ge2 c = true /\ tier c = 3%nat)
  \/ (ge4 c = false /\ ge3 c = true /\ ge2 c = true /\ tier c = 2%nat)
  \/ (ge4 c = false /\ ge3 c = false /\ ge2 c = true /\ tier c = 1%nat)
  \/ (ge4 c = false /\ ge3 c = false /\ ge2 c = false /\ tier c = 0%nat).
Proof.
  unfold tier.
  destruct (ge4 c) eqn:E4.
  - left. pose proof (ge4_ge3 c E4) as E3. pose proof (ge3_ge2 c E3). auto.
  - destruct (ge3 c) eqn:E3.
    + right; left. pose proof (ge3_ge2 c E3). auto.
    + destruct (ge2 c) eqn:E2; auto 10.
Qed.

Ltac by_tier c :=
  let H := fresh "H" in
  let E4 := fresh "E4" in let E3 := fresh "E3" in
  let E2 := fresh "E2" in let Et := fresh "Et" in
  destruct (tier_cases c) as [H|[H|[H|H]]];
  destruct H as (E4 & E3 & E2 & Et);
  rewrite ?E4, ?E3, ?E2, ?Et.

Lemma source_type_tier c : source_type c = tier_label (tier c).
Proof. unfold source_type. by_tier c; reflexivity. Qed.

(** The four lists of [build_prompt] are the chunks of each tier. *)
Lemma prioritized_by_tier l :
  prioritized l
  = filter (fun c => tier c =? 3)%nat l ++ filter (fun c => tier c =? 2)%nat l
    ++ filter (fun c => tier c =? 1)%nat l ++ filter (fun c => tier c =? 0)%nat l.
Proof.
  unfold prioritized.
  repeat (f_equal; [apply filter_ext; intros c; by_tier c; reflexivity|]).
  apply filter_ext; intros c. by_tier c; reflexivity.
Qed.

Lemma tier_le_3 c : (tier c <= 3)%nat.
Proof.
  by_tier c; lia.
Qed.

Lemma prioritized_perm l : Permutation (prioritized l) l.
Proof.
  rewrite prioritized_by_tier.
  induction l as [|c l IH]; simpl; [constructor|].
  pose proof (tier_le_3 c) as Hle.
  destruct (tier c) as [|[|[|[|t]]]]; simpl; try lia.
  - rewrite !app_assoc. apply Permutation_sym, Permutation_cons_app.
    rewrite <- !app_assoc. now apply Permutation_sym.
  - rewrite app_assoc. apply Permutation_sym, Permutation_cons_app.
    rewrite <- app_assoc. now apply Permutation_sym.
  - apply Permutation_sym, Permutation_cons_app. now apply Permutation_sym.
  - now constructor.
Qed.

Lemma filter_tier_sorted t l :
  StronglySorted by_tier_desc (filter (fun c => tier c =? t)%nat l).
Proof.
  induction l as [|c l IH]; simpl; [constructor|].
  destruct (Nat.eqb_spec (tier c) t) as [E|_]; [|assumption].
  constructor; [assumption|].
  rewrite Forall_forall. intros b Hb. apply filter_In in Hb as [_ Hb].
  apply Nat.eqb_eq in Hb. unfold by_tier_desc. lia.
Qed.

Lemma prioritized_sorted l : StronglySorted by_tier_desc (prioritized l).
Proof.
  rewrite prioritized_by_tier.
  repeat (apply sorted_app; [apply filter_tier_sorted| |
    intros a b Ha Hb; apply filter_In in Ha as [_ Ha];
    apply Nat.eqb_eq in Ha; unfold by_tier_desc; rewrite Ha;
    repeat (apply in_app_iff in Hb as [Hb|Hb];
            [apply filter_In in Hb as [_ Hb]; apply Nat.eqb_eq in Hb; lia|]);
    apply filter_In in Hb as [_ Hb]; apply Nat.eqb_eq in Hb; lia]).
  apply filter_tier_sorted.
Qed.

Lemma filter_tier_twice t i l :
  filter (fun c => tier c =? t)%nat (filter (fun c => tier c =? i)%nat l)
  = if (t =? i)%nat then filter (fun c => tier c =? t)%nat l else [].
Proof.
  rewrite filter_filter.
  destruct (Nat.eqb_spec t i) as [->|Hne].
  - apply filter_ext. intros c. now rewrite andb_diag.
  - apply filter_none. intros c _.
    destruct (Nat.eqb_spec (tier c) i), (Nat.eqb_spec (tier c) t);
      simpl; try reflexivity; congruence.
Qed.

Lemma prioritized_stable t l :
  filter (fun c => tier c =? t)%nat (prioritized l)
  = filter (fun c => tier c =? t)%nat l.
Proof.
  rewrite prioritized_by_tier, !filter_app, !filter_tier_twice.
  destruct t as [|[|[|[|t]]]]; simpl; rewrite ?app_nil_r; try reflexivity.
  symmetry. apply filter_none. intros c _.
  pose proof (tier_le_3 c). apply Nat.eqb_neq. lia.
Qed.

(** X12. [build_prompt] presents every chunk once, highest tier first:
    [prioritized_chunks] is a permutation of the chunks it is given, in
    decreasing order of tier, the chunks of one tier in the order they
    came in; the label of a chunk is the label of its tier. *)
Theorem prompt_context_is_stable_by_tier (context_chunks : list chunk) :
  Permutation (prioritized context_chunks) context_chunks
  /\ StronglySorted by_tier_desc (prioritized context_chunks)
  /\ (forall t, filter (fun c => tier c =? t)%nat (prioritized context_chunks)
                = filter (fun c => tier c =? t)%nat context_chunks)
  /\ (forall c, source_type c = tier_label (tier c)).
Proof.
  split; [apply prioritized_perm|].
  split; [apply prioritized_sorted|].
  split; [intros t; apply prioritized_stable|apply source_type_tier].
Qed.

End TierProps.

Lemma appears_in_join x sep l : In x l -> appears_in x (join sep l).
Proof.
  induction l as [|p l IH]; intros Hin; [destruct Hin|].
  destruct l as [|q l].
  - destruct Hin as [->|[]]. apply appears_refl.
  - rewrite join_cons_cons. destruct Hin as [->|Hin].
    + apply appears_left, appears_refl.
    + do 2 apply appears_right. now apply IH.
Qed.

Section PromptContents.
Context {T : CaseTables}.
Variable template : prompt_text.
Import QAEngine.

(** X13. The prompt names every question and quotes every chunk: each
    question stands in it as a list item ["- question"], and each chunk as
    its tier label, its path and its text. *)
Theorem prompt_mentions_everything (questions : list pystr)
    (context_chunks : list chunk) (additional_context : pystr)
    (include_tailoring_explanation : bool) :
  (forall q, In q questions ->
     appears_in (py "- " ++ q)
       (build_prompt template questions context_chunks additional_context
          include_tailoring_explanation))
  /\ (forall c, In c context_chunks ->
        appears_in (py "[" ++ tier_label (tier c) ++ py "] Source: "
                    ++ path c ++ [NL] ++ content c)
          (build_prompt template questions context_chunks additional_context
             include_tailoring_explanation)).
Proof.
  unfold build_prompt. split.
  - intros q Hq. do 9 apply appears_right. apply appears_left.
    unfold questions_text. apply appears_in_join.
    apply in_map_iff. now exists q.
  - intros c Hc. do 7 apply appears_right. apply appears_left.
    unfold context_text. apply appears_in_join.
    apply in_map_iff. exists c. split.
    + unfold context_section. now rewrite source_type_tier.
    + apply (Permutation_in c (Permutation_sym (prioritized_perm context_chunks))).
      exact Hc.
Qed.

End PromptContents.

(* ------------------------------------------------------------------ *)
(** *** The size of the prompt *)
(* ------------------------------------------------------------------ *)

Lemma length_join sep (l : list pystr) :
  List.length (join sep l)
  = (list_sum (map (@List.length N) l)
     + List.length sep * (List.length l - 1))%nat.
Proof.
  induction l as [|p l IH]; [simpl; lia|].
  destruct l as [|q l].
  - simpl. lia.
  - rewrite join_cons_cons, !length_app, IH.
    cbn [map list_sum List.length].
    rewrite !Nat.sub_succ, !Nat.sub_0_r. simpl. nia.
Qed.

Lemma list_sum_perm l l' : Permutation l l' -> list_sum l = list_sum l'.
Proof. induction 1; simpl; lia. Qed.

Lemma list_sum_firstn k l : (list_sum (firstn k l) <= list_sum l)%nat.
Proof.
  revert k; induction l as [|x l IH]; intros [|k]; simpl; try lia.
  specialize (IH k). lia.
Qed.

Lemma filter_partition_perm {A} (f : A -> bool) l :
  Permutation (filter f l ++ filter (fun x => negb (f x)) l) l.
Proof.
  induction l as [|x l IH]; simpl; [constructor|].
  destruct (f x); simpl.
  - now constructor.
  - apply Permutation_sym, Permutation_cons_app. now apply Permutation_sym.
Qed.

Section PromptSize.
Context {T : CaseTables}.
Variable template : prompt_text.
Import QAEngine.

Lemma length_context_text l :
  List.length (context_text l)
  = (list_sum (map (fun c => List.length (context_section c)) l)
     + 7 * (List.length l - 1))%nat.
Proof.
  unfold context_text. rewrite length_join, map_map, length_map.
  pose proof (prioritized_perm l) as Hp.
  rewrite (list_sum_perm (Permutation_map _ Hp)).
  rewrite (Permutation_length Hp). reflexivity.
Qed.

Lemma context_text_shorter l l' :
  (list_sum (map (fun c => List.length (context_section c)) l')
   <= list_sum (map (fun c => List.length (context_section c)) l))%nat ->
  (List.length l' <= List.length l)%nat ->
  (List.length (context_text l') <= List.length (context_text l))%nat.
Proof. intros H1 H2. rewrite !length_context_text. lia. Qed.

Lemma build_prompt_shorter questions ctx include l l' :
  (List.length (context_text l') <= List.length (context_text l))%nat ->
  (len (build_prompt template questions l' ctx include)
   <= len (build_prompt template questions l ctx include))%Z.
Proof.
  intros H. unfold build_prompt, len. rewrite !length_app. lia.
Qed.

Lemma kept_chunks_smaller questions chunks ctx :
  let kept := kept_chunks template questions chunks ctx in
  (list_sum (map (fun c => List.length (context_section c)) kept)
   <= list_sum (map (fun c => List.length (context_section c)) chunks))%nat
  /\ (List.length kept <= List.length chunks)%nat.
Proof.
  cbv zeta. unfold kept_chunks.
  destruct (_ >? _)%Z; [|split; lia].
  fold (quantitative_first chunks).
  destruct (reduce_chunks_spec template questions ctx 50
              (quantitative_first chunks)) as (removed & _ & -> & _).
  pose proof (filter_partition_perm ge4 chunks) as Hp.
  fold (quantitative_first chunks) in Hp.
  split.
  - rewrite <- (list_sum_perm (Permutation_map _ Hp)).
    rewrite <- firstn_map. apply list_sum_firstn.
  - rewrite <- (Permutation_length Hp), length_firstn. lia.
Qed.

(** X14. Trimming never lengthens the prompt: the prompt [answer_batch]
    sends is no longer, in characters and in estimated tokens, than the
    prompt for all the chunks it was given. *)
Theorem trimmed_prompt_is_no_longer (questions : list pystr)
    (context_chunks : list chunk) (additional_context : pystr) :
  (len (final_prompt template questions context_chunks additional_context)
   <= len (build_prompt template questions context_chunks additional_context
             (has_context additional_context)))%Z
  /\ (count_tokens
        (final_prompt template questions context_chunks additional_context)
      <= count_tokens
           (build_prompt template questions context_chunks additional_context
              (has_context additional_context)))%Z.
Proof.
  assert (H : (len (final_prompt template questions context_chunks
                      additional_context)
               <= len (build_prompt template questions context_chunks
                         additional_context
                         (has_context additional_context)))%Z).
  { unfold final_prompt. apply build_prompt_shorter.
    destruct (kept_chunks_smaller questions context_chunks additional_context).
    now apply context_text_shorter. }
  split; [assumption|].
  unfold count_tokens. apply Z.div_le_mono; [lia|assumption].
Qed.

End PromptSize.

(* ------------------------------------------------------------------ *)
(** *** Blank sponsor context *)
(* ------------------------------------------------------------------ *)

Section BlankContext.
Context {T : CaseTables}.
Variable template : prompt_text.
Variable generate_content : pystr -> outcome pystr.
Variable json_loads : pystr -> outcome json.
Variable search : pystr -> Z -> outcome (list chunk).
Import QAEngine.

Lemma blank_has_no_context ctx : strip ctx = [] -> has_context ctx = false.
Proof. unfold has_context. intros ->. apply andb_false_r. Qed.

Lemma build_prompt_blank questions chunks ctx include :
  has_context ctx = false ->
  build_prompt template questions chunks ctx include
  = build_prompt template questions chunks [] include.
Proof.
  intros H. unfold build_prompt, additional_context_section.
  rewrite H. reflexivity.
Qed.

Lemma reduce_chunks_blank attempts questions l ctx include :
  has_context ctx = false ->
  reduce_chunks template attempts questions l ctx include
  = reduce_chunks template attempts questions l [] include.
Proof.
  intros H. revert l. induction attempts as [|n IH]; intros l; simpl;
    [reflexivity|].
  rewrite (build_prompt_blank _ _ _ _ H), IH. reflexivity.
Qed.

Lemma final_prompt_blank questions chunks ctx :
  has_context ctx = false ->
  final_prompt template questions chunks ctx
  = final_prompt template questions chunks [].
Proof.
  intros H. unfold final_prompt, kept_chunks.
  rewrite H. change (has_context []) with false.
  rewrite !(build_prompt_blank _ _ _ _ H), (reduce_chunks_blank _ _ _ _ _ H).
  reflexivity.
Qed.

(** X15. A sponsor context of white space only is no sponsor context: the
    engine and the whole system give the same result, with the same prompt
    sent, as with the empty context. *)
Theorem blank_context_is_no_context (questions : list pystr) (top_k : Z)
    (additional_context : pystr) (return_sources : bool) :
  strip additional_context = [] ->
  (forall context_chunks,
     answer_batch template generate_content json_loads
       questions context_chunks additional_context
     = answer_batch template generate_content json_loads
         questions context_chunks [])
  /\ PHCQASystem.answer_batch template generate_content json_loads search
       questions top_k additional_context return_sources
     = PHCQASystem.answer_batch template generate_content json_loads search
         questions top_k [] return_sources.
Proof.
  intros Hb. apply blank_has_no_context in Hb.
  assert (He : forall chunks,
     answer_batch template generate_content json_loads
       questions chunks additional_context
     = answer_batch template generate_content json_loads
         questions chunks []).
  { intros chunks. unfold answer_batch.
    rewrite (final_prompt_blank _ _ _ Hb), Hb. reflexivity. }
  split; [exact He|].
  unfold PHCQASystem.answer_batch.
  destruct (PHCQASystem.retrieve search questions top_k) as [st|e];
    [|reflexivity].
  destruct (negb (nonempty (PHCQASystem.all_chunks st))).
  - unfold PHCQASystem.no_chunks_result. rewrite Hb. reflexivity.
  - rewrite He, (final_prompt_blank _ _ _ Hb). reflexivity.
Qed.

End BlankContext.

Lemma blank_context_is_no_context_witness :
  (forall context_chunks,
     @QAEngine.answer_batch AsciiTables marker_text
       (fun _ => Ok answer_json) loads_examples
       [what_is_phc] context_chunks [SP; NL]
     = @QAEngine.answer_batch AsciiTables marker_text
         (fun _ => Ok answer_json) loads_examples
         [what_is_phc] context_chunks [])
  /\ @PHCQASystem.answer_batch AsciiTables marker_text
       (fun _ => Ok answer_json) loads_examples search_stat
       [what_is_phc] 15 [SP; NL] true
     = @PHCQASystem.answer_batch AsciiTables marker_text
         (fun _ => Ok answer_json) loads_examples search_stat
         [what_is_phc] 15 [] true.
Proof.
  apply (@blank_context_is_no_context AsciiTables marker_text
           (fun _ => Ok answer_json) loads_examples search_stat
           [what_is_phc] 15 [SP; NL] true).
  reflexivity.
Defined.

(* ------------------------------------------------------------------ *)
(** *** A response that parses *)
(* ------------------------------------------------------------------ *)

Section ParsedObject.
Context {T : CaseTables}.
Variable template : prompt_text.
Variable generate_content : pystr -> outcome pystr.
Variable json_loads : pystr -> outcome json.
Import QAEngine.

Lemma default_keeps_members (kv : list (pystr * json)) k d k' v :
  dict_get kv k' = Some v ->
  dict_get (if dict_has kv k then kv else dict_set kv k d) k' = Some v.
Proof.
  intros H. destruct (dict_has kv k) eqn:Eh; [assumption|].
  rewrite dict_get_set. destruct (str_eqb_spec k k') as [->|_]; [|assumption].
  unfold dict_has in Eh. now rewrite H in Eh.
Qed.

Lemma default_other (kv : list (pystr * json)) k d k' :
  str_eqb k k' = false ->
  dict_get (if dict_has kv k then kv else dict_set kv k d) k' = dict_get kv k'.
Proof.
  intros H. destruct (dict_has kv k); [reflexivity|].
  now rewrite dict_get_set, H.
Qed.

Lemma default_sets_field (kv : list (pystr * json)) k d :
  dict_get (if dict_has kv k then kv else dict_set kv k d) k
  = Some (dict_get_default kv k d).
Proof.
  unfold dict_has, dict_get_default.
  destruct (dict_get kv k) eqn:E; [assumption|].
  now rewrite dict_get_set, str_eqb_refl.
Qed.

(** X16. A response that parses to a JSON object is returned, never
    replaced by an error. Without sponsor context the result is its
    "answers" member, or the object itself when it has none. With sponsor
    context the result has the four keys: an object with "answers" keeps
    every member it has and gets 0.0, and the two fixed texts, for the
    fields it lacks; an object without "answers" becomes the answers, with
    the fixed tailoring text, a fit score of 3.5 and the fixed fit text. *)
Theorem parsed_object_is_shaped (questions : list pystr) (chunks : list chunk)
    (ctx text : pystr) (kv : list (pystr * json)) :
  generate_content (final_prompt template questions chunks ctx) = Ok text ->
  json_loads text = Ok (JObj kv) ->
  if has_context ctx then
    if dict_has kv (py "answers") then
      exists fields,
        answer_batch template generate_content json_loads questions chunks ctx
        = Ok (JObj fields)
        /\ (forall k v, dict_get kv k = Some v -> dict_get fields k = Some v)
        /\ dict_get fields (py "fit_score")
           = Some (dict_get_default kv (py "fit_score") (JNum 0))
        /\ dict_get fields (py "fit_explanation")
           = Some (dict_get_default kv (py "fit_explanation")
                     (JStr Answers.no_fit_analysis))
        /\ dict_get fields (py "tailoring_explanation")
           = Some (dict_get_default kv (py "tailoring_explanation")
                     (JStr Answers.tailored_default))
    else
      answer_batch template generate_content json_loads questions chunks ctx
      = Ok (Answers.tailored_object (JObj kv) Answers.tailored_default
              (35 # 10) Answers.no_detailed_fit)
  else
    answer_batch template generate_content json_loads questions chunks ctx
    = Ok (dict_get_default kv (py "answers") (JObj kv)).
Proof.
  intros Hg Hl. unfold answer_batch, generate_and_parse.
  rewrite Hg. cbn [bind]. rewrite Hl. cbn [bind].
  unfold shape_parsed. cbn [py_contains bind].
  destruct (has_context ctx).
  - destruct (dict_has kv (py "answers")) eqn:Ha.
    + unfold ensure_fields.
      rewrite set_default_object. cbn [bind].
      rewrite set_default_object. cbn [bind].
      rewrite set_default_object. cbn [try_json try_except].
      eexists. split; [reflexivity|].
      split; [|split; [|split]].
      * intros k v Hk. now do 3 apply default_keeps_members.
      * rewrite !default_other by reflexivity. apply default_sets_field.
      * rewrite default_other by reflexivity.
        rewrite default_sets_field. unfold dict_get_default.
        now rewrite default_other by reflexivity.
      * rewrite default_sets_field. unfold dict_get_default.
        now rewrite !default_other by reflexivity.
    + reflexivity.
  - unfold dict_has, dict_get_default. cbn [py_getitem].
    destruct (dict_get kv (py "answers")); reflexivity.
Qed.

End ParsedObject.

Lemma parsed_object_is_shaped_witness :
  exists fields,
    @QAEngine.answer_batch AsciiTables marker_text
      (fun _ => Ok scored_answer) loads_scored
      [what_is_phc] [chunk_stat] (py "Kaiser Permanente funds health equity")
    = Ok (JObj fields)
    /\ (forall k v,
          dict_get [(py "answers", JObj [(what_is_phc, JStr phc_connects)]);
                    (py "fit_score", JNum (42 # 10))] k = Some v ->
          dict_get fields k = Some v)
    /\ dict_get fields (py "fit_score") = Some (JNum (42 # 10))
    /\ dict_get fields (py "fit_explanation")
       = Some (JStr Answers.no_fit_analysis)
    /\ dict_get fields (py "tailoring_explanation")
       = Some (JStr Answers.tailored_default).
Proof.
  exact (@parsed_object_is_shaped AsciiTables marker_text
           (fun _ => Ok scored_answer) loads_scored
           [what_is_phc] [chunk_stat]
           (py "Kaiser Permanente funds health equity") scored_answer
           [(py "answers", JObj [(what_is_phc, JStr phc_connects)]);
            (py "fit_score", JNum (42 # 10))]
           eq_refl eq_refl).
Defined.

(* ------------------------------------------------------------------ *)
(** *** The texts of the error answers *)
(* ------------------------------------------------------------------ *)

Section ErrorTexts.
Context {T : CaseTables}.
Variable template : prompt_text.
Variable generate_content : pystr -> outcome pystr.
Variable json_loads : pystr -> outcome json.
Import QAEngine.

Lemma on_error_answers include questions e :
  carries_answers (on_error include questions e)
    (answer_all questions
       (if mentions_quota (exn_msg e) then Answers.quota_error
        else py "Error: " ++ exn_msg e)).
Proof.
  unfold on_error, carries_answers. fold (mentions_quota (exn_msg e)).
  destruct include, (mentions_quota (exn_msg e));
    (now left) || (right; eexists; reflexivity).
Qed.

(** X17. When the generation call fails, every question gets one and the
    same text: "Error: API quota exceeded" if the message of the exception
    contains "429", or "quota" or "rate limit" in any case, and "Error: "
    followed by the message otherwise. When the response is no JSON and
    holds neither braces around it nor a fence, every question gets
    "Error: Could not parse JSON response". *)
Theorem error_answers_by_cause (questions : list pystr) (chunks : list chunk)
    (ctx : pystr) :
  (forall e,
     generate_content (final_prompt template questions chunks ctx) = Raise e ->
     exists v,
       answer_batch template generate_content json_loads questions chunks ctx
       = Ok v
       /\ carries_answers v
            (answer_all questions
               (if mentions_quota (exn_msg e) then py "Error: API quota exceeded"
                else py "Error: " ++ exn_msg e)))
  /\ (forall text m,
        generate_content (final_prompt template questions chunks ctx) = Ok text ->
        json_loads text = Raise (JSONDecodeError m) ->
        retry_stripped json_loads (strip text) = None ->
        extract_fenced (strip text) = None ->
        exists v,
          answer_batch template generate_content json_loads questions chunks ctx
          = Ok v
          /\ carries_answers v
               (answer_all questions
                  (py "Error: Could not parse JSON response")))
  /\ (forall text,
        In text questions ->
        forall msg, dict_get (answer_all questions msg) text = Some (JStr msg)).
Proof.
  split; [|split].
  - intros e He. eexists. split.
    + eapply answer_batch_on_failure. exact He.
    + apply on_error_answers.
  - intros text m Hg Hl Hr Hf. eexists. split.
    + eapply answer_batch_unparseable; eauto.
    + unfold last_resort, carries_answers.
      destruct (has_context ctx); [right; eexists; reflexivity|now left].
  - intros q Hq msg. unfold answer_all.
    exact (comprehension_lookup questions (fun _ => JStr msg) q Hq).
Qed.

End ErrorTexts.

(* ------------------------------------------------------------------ *)
(** *** The pool of retrieved chunks *)
(* ------------------------------------------------------------------ *)

Lemma id_mem_In i ids : PHCQASystem.id_mem i ids = true <-> In i ids.
Proof.
  unfold PHCQASystem.id_mem. rewrite existsb_exists. split.
  - intros ([p z] & Hin & E). apply andb_prop in E as [E1 E2].
    apply str_eqb_eq in E1. apply Z.eqb_eq in E2.
    destruct i as [p' z']. simpl in *. now subst.
  - intros Hin. exists i. split; [assumption|].
    now rewrite str_eqb_refl, Z.eqb_refl.
Qed.

Section PoolProps.
Context {T : CaseTables}.
Import PHCQASystem.
Variable search : pystr -> Z -> outcome (list chunk).

Lemma append_for_get q c qc q' cs' x :
  dict_get (append_for q c qc) q' = Some cs' -> In x cs' ->
  x = c \/ exists cs, dict_get qc q' = Some cs /\ In x cs.
Proof.
  unfold append_for. rewrite dict_get_set.
  destruct (str_eqb_spec q q') as [->|_].
  - intros [= <-] Hx. apply in_app_iff in Hx as [Hx|[<-|[]]]; [|now left].
    right. unfold dict_get_default in Hx.
    destruct (dict_get qc q') as [cs|]; [|destruct Hx]. now exists cs.
  - intros H Hx. right. now exists cs'.
Qed.

Lemma append_all_get c qs qc q' cs' x :
  dict_get (fold_left (fun qc q => append_for q c qc) qs qc) q' = Some cs' ->
  In x cs' ->
  x = c \/ exists cs, dict_get qc q' = Some cs /\ In x cs.
Proof.
  revert qc cs'. induction qs as [|q qs IH]; intros qc cs' H Hx; simpl in H.
  - right. now exists cs'.
  - destruct (IH _ _ H Hx) as [->|(cs & Hcs & Hin)]; [now left|].
    eapply append_for_get; eauto.
Qed.

Lemma add_chunk_ok only_new attributed st c :
  pool_ok search st -> found search c -> pool_ok search (add_chunk only_new attributed st c).
Proof.
  intros (Hs & Hn & Hf & Hq) Hc. unfold add_chunk, pool_ok.
  cbn [all_chunks seen_chunk_ids question_chunks].
  destruct (id_mem (chunk_id c) (seen_chunk_ids st)) eqn:E; cbn [negb].
  - apply id_mem_In in E. rewrite Hs in E.
    repeat split; try assumption.
    intros q cs x Hget Hx.
    destruct (if only_new then false else true).
    + destruct (append_all_get _ _ _ _ _ Hget Hx) as [->|(cs0 & H0 & Hin)];
        [assumption|eauto].
    + eauto.
  - assert (Hnew : ~ In (chunk_id c) (map chunk_id (all_chunks st))).
    { rewrite <- Hs. intros H. apply id_mem_In in H. congruence. }
    rewrite map_app. cbn [map].
    split; [now rewrite Hs|].
    split.
    { apply NoDup_app;
        [assumption | constructor; [intros []|constructor] |].
      intros i Hi [<-|[]]. contradiction. }
    split.
    { intros x Hx. apply in_app_iff in Hx as [Hx|[<-|[]]]; auto. }
    intros q cs x Hget Hx. apply in_app_iff.
    destruct (if only_new then true else true).
    + destruct (append_all_get _ _ _ _ _ Hget Hx) as [->|(cs0 & H0 & Hin)];
        [right; now left|left; eauto].
    + left; eauto.
Qed.

Lemma add_chunks_ok only_new attributed l st :
  pool_ok search st -> (forall c, In c l -> found search c) ->
  pool_ok search (fold_left (add_chunk only_new attributed) l st).
Proof.
  revert st. induction l as [|c l IH]; intros st Hst Hl; simpl; [assumption|].
  apply IH.
  - apply add_chunk_ok; [assumption|]. apply Hl. now left.
  - intros x Hx. apply Hl. now right.
Qed.

Lemma search_questions_ok k qs st st' :
  pool_ok search st -> search_questions search k st qs = Ok st' -> pool_ok search st'.
Proof.
  revert st. induction qs as [|q qs IH]; intros st Hst H; simpl in H.
  - now injection H as <-.
  - unfold search_question in H.
    destruct (search q k) as [l|e] eqn:E; simpl in H; [|discriminate].
    eapply IH; [|exact H].
    apply add_chunks_ok; [assumption|].
    intros c Hc. now exists q, k, l.
Qed.

Lemma retrieve_ok questions top_k st :
  retrieve search questions top_k = Ok st -> pool_ok search st.
Proof.
  unfold retrieve.
  assert (H0 : pool_ok search {| all_chunks := []; seen_chunk_ids := [];
                          question_chunks :=
                            dict_comprehension questions (fun _ => []) |}).
  { unfold pool_ok; cbn [all_chunks seen_chunk_ids question_chunks map].
    repeat split; [constructor|intros c []|].
    intros q cs c Hget Hc.
    destruct (in_dec (list_eq_dec N.eq_dec) q questions) as [Hq|Hq].
    - rewrite (comprehension_lookup questions (fun _ => []) q Hq) in Hget.
      injection Hget as <-. destruct Hc.
    - unfold dict_comprehension in Hget.
      rewrite comprehension_get_other in Hget by assumption. discriminate. }
  destruct (Nat.ltb 3 (List.length questions)).
  - destruct (search (combined_query questions) (top_k * 2)) as [l|e] eqn:E;
      simpl; [|discriminate].
    apply search_questions_ok. apply add_chunks_ok; [assumption|].
    intros c Hc. now exists (combined_query questions), (top_k * 2)%Z, l.
  - now apply search_questions_ok.
Qed.

End PoolProps.

(* ------------------------------------------------------------------ *)
(** *** Sorted source lists *)
(* ------------------------------------------------------------------ *)

Lemma str_leb_refl a : str_leb a a = true.
Proof.
  induction a as [|x a IH]; simpl; [reflexivity|].
  now rewrite N.ltb_irrefl, N.eqb_refl.
Qed.

Lemma str_leb_total a b : str_leb a b = false -> str_leb b a = true.
Proof.
  revert b; induction a as [|x a IH]; intros [|y b]; simpl;
    try discriminate; try reflexivity.
  destruct (N.ltb_spec x y); [discriminate|].
  destruct (N.eqb_spec x y) as [->|Hne].
  - rewrite N.ltb_irrefl, N.eqb_refl. apply IH.
  - intros _. destruct (N.ltb_spec y x); [reflexivity|]. lia.
Qed.

Lemma str_leb_trans a b c :
  str_leb a b = true -> str_leb b c = true -> str_leb a c = true.
Proof.
  revert b c; induction a as [|x a IH]; intros [|y b] [|z c]; simpl;
    try discriminate; try reflexivity.
  destruct (N.ltb_spec x y) as [Hxy|Hxy].
  - intros _. destruct (N.ltb_spec y z) as [Hyz|Hyz].
    + intros _. destruct (N.ltb_spec x z); [reflexivity|lia].
    + destruct (N.eqb_spec y z) as [->|_]; [|discriminate].
      intros _. destruct (N.ltb_spec x z); [reflexivity|lia].
  - destruct (N.eqb_spec x y) as [->|_]; [|discriminate].
    intros Hab. destruct (N.ltb_spec y z); [reflexivity|].
    destruct (N.eqb_spec y z) as [->|_]; [|discriminate].
    now apply IH.
Qed.

Section SortedByKey.

Lemma insert_by_key_In (x y : pystr) l :
  In y (insert_by_key (fun p => p) x l) <-> y = x \/ In y l.
Proof.
  induction l as [|z l IH]; simpl; [intuition|].
  destruct (_ && _); simpl; rewrite ?IH; intuition.
Qed.

Lemma insert_by_key_sorted (x : pystr) l :
  StronglySorted str_le l ->
  StronglySorted str_le (insert_by_key (fun p => p) x l).
Proof.
  induction 1 as [|z l Hl IH Hz]; simpl; [repeat constructor|].
  destruct (str_leb x z && negb (str_eqb x z)) eqn:E.
  - apply andb_prop in E as [E _].
    constructor; [now constructor|].
    constructor; [exact E|].
    eapply Forall_impl; [|exact Hz]. intros w Hw.
    unfold str_le in *. eapply str_leb_trans; eauto.
  - constructor; [assumption|].
    rewrite Forall_forall. intros w Hw.
    apply insert_by_key_In in Hw as [->|Hw].
    + unfold str_le. apply andb_false_iff in E as [E|E].
      * now apply str_leb_total.
      * apply negb_false_iff, str_eqb_eq in E. subst. apply str_leb_refl.
    + rewrite Forall_forall in Hz. now apply Hz.
Qed.

Lemma insert_by_key_perm (x : pystr) l :
  Permutation (insert_by_key (fun p => p) x l) (x :: l).
Proof.
  induction l as [|z l IH]; simpl; [apply Permutation_refl|].
  destruct (_ && _); [apply Permutation_refl|].
  eapply perm_trans; [apply perm_skip, IH|apply perm_swap].
Qed.

Lemma sorted_by_key_perm (l acc : list pystr) :
  Permutation
    (fold_left (fun acc x => insert_by_key (fun p => p) x acc) l acc)
    (l ++ acc).
Proof.
  revert acc. induction l as [|x l IH]; intros acc; simpl;
    [apply Permutation_refl|].
  eapply perm_trans; [apply IH|].
  eapply perm_trans;
    [apply Permutation_app_head, insert_by_key_perm|].
  apply Permutation_sym, Permutation_middle.
Qed.

Lemma sorted_by_key_sorted (l acc : list pystr) :
  StronglySorted str_le acc ->
  StronglySorted str_le
    (fold_left (fun acc x => insert_by_key (fun p => p) x acc) l acc).
Proof.
  revert acc. induction l as [|x l IH]; intros acc H; simpl; [assumption|].
  apply IH. now apply insert_by_key_sorted.
Qed.

Lemma sorted_by_key_spec (l : list pystr) :
  NoDup l ->
  NoDup (sorted_by_key (fun p => p) l)
  /\ StronglySorted str_le (sorted_by_key (fun p => p) l)
  /\ forall y, In y (sorted_by_key (fun p => p) l) <-> In y l.
Proof.
  intros Hl. unfold sorted_by_key.
  pose proof (sorted_by_key_perm l []) as Hp. rewrite app_nil_r in Hp.
  split; [|split].
  - eapply Permutation_NoDup; [apply Permutation_sym, Hp|assumption].
  - apply sorted_by_key_sorted. constructor.
  - intros y. split; apply Permutation_in;
      [assumption|now apply Permutation_sym].
Qed.

End SortedByKey.

(* ------------------------------------------------------------------ *)
(** *** What the orchestrator returns *)
(* ------------------------------------------------------------------ *)

Section Orchestrator.
Context {T : CaseTables}.
Variable template : prompt_text.
Variable generate_content : pystr -> outcome pystr.
Variable json_loads : pystr -> outcome json.
Variable search : pystr -> Z -> outcome (list chunk).
Import PHCQASystem.

(** X18. The pool of chunks handed to the engine holds no chunk twice:
    the ids (path, start line) of the pooled chunks are distinct, they are
    the ids recorded as seen, and every pooled chunk was returned by a
    search. *)
Theorem pooled_chunks_are_distinct (questions : list pystr) (top_k : Z)
    (st : retrieval) :
  retrieve search questions top_k = Ok st ->
  NoDup (map chunk_id (all_chunks st))
  /\ seen_chunk_ids st = map chunk_id (all_chunks st)
  /\ forall c, In c (all_chunks st) ->
       exists query k l, search query k = Ok l /\ In c l.
Proof.
  intros H. apply retrieve_ok in H as (Hs & Hn & Hf & _).
  split; [assumption|split; [assumption|exact Hf]].
Qed.

Lemma sources_map_entry questions st q :
  pool_ok search st -> In q questions ->
  exists paths,
    dict_get (sources_map questions (question_chunks st)) q
    = Some (JArr (map JStr paths))
    /\ NoDup paths /\ StronglySorted str_le paths
    /\ forall p, In p paths ->
         p <> [] /\ exists c, In c (all_chunks st) /\ path c = p.
Proof.
  intros (_ & _ & _ & Hq) Hin. unfold sources_map.
  rewrite (comprehension_lookup questions _ q Hin).
  eexists. split; [reflexivity|].
  destruct (sorted_by_key_spec
              (l := nodup (list_eq_dec N.eq_dec)
                      (filter nonempty
                         (map path
                            (dict_get_default (question_chunks st) q [])))))
    as (H1 & H2 & H3); [apply NoDup_nodup|].
  split; [assumption|split; [assumption|]].
  intros p Hp. apply H3, nodup_In, filter_In in Hp as [Hp Hne].
  split; [now apply nonempty_true|].
  apply in_map_iff in Hp as (c & <- & Hc).
  unfold dict_get_default in Hc.
  destruct (dict_get (question_chunks st) q) as [cs|] eqn:E; [|destruct Hc].
  specialize (Hq q cs c E Hc).
  apply in_map_iff in Hq as (c' & Hid & Hc').
  exists c'. split; [assumption|]. unfold chunk_id in Hid. congruence.
Qed.

Lemma positive_of_number v :
  is_number v = true -> exists b, py_positive v = Ok b.
Proof. destruct v; simpl; try discriminate; eauto. Qed.

Lemma positive_of_other v :
  is_number v = false -> exists e, py_positive v = Raise e.
Proof. destruct v; simpl; try discriminate; eauto. Qed.

Lemma assemble_fit_score questions qc result :
  exists answers tailoring fit,
    assemble questions qc true result
    = (positive <- py_positive (reported_fit_score result) ;;
       Ok (JObj
             (let response :=
                [(py "answers", answers);
                 (py "sources", JObj (sources_map questions qc))] in
              let response :=
                if py_truthy tailoring
                then dict_set response (py "tailoring_explanation") tailoring
                else response in
              let response :=
                if positive
                then dict_set response (py "fit_score")
                       (reported_fit_score result)
                else response in
              if py_truthy fit
              then dict_set response (py "fit_explanation") fit
              else response))).
Proof.
  unfold assemble. cbn [orb].
  destruct result; try (do 3 eexists; reflexivity).
Qed.

(** X19. With sources asked for and chunks found, a result of the engine
    whose fit score is a number (or that has none) is returned as an
    object that starts with "answers" and "sources"; the sources have
    exactly the questions as keys, and each question is given a list of
    paths that is sorted, without repetition and without an empty path,
    every one the path of a pooled chunk. *)
Theorem sources_cover_questions (questions : list pystr) (top_k : Z)
    (ctx : pystr) (st : retrieval) (result : json) :
  retrieve search questions top_k = Ok st ->
  all_chunks st <> [] ->
  QAEngine.answer_batch template generate_content json_loads
    questions (all_chunks st) ctx = Ok result ->
  is_number (reported_fit_score result) = true ->
  exists answers sources rest,
    returned (answer_batch template generate_content json_loads search
                questions top_k ctx true)
    = Ok (JObj ((py "answers", answers)
                :: (py "sources", JObj sources) :: rest))
    /\ covers questions sources
    /\ forall q, In q questions ->
         exists paths,
           dict_get sources q = Some (JArr (map JStr paths))
           /\ NoDup paths /\ StronglySorted str_le paths
           /\ forall p, In p paths ->
                p <> [] /\ exists c, In c (all_chunks st) /\ path c = p.
Proof.
  intros Hr Hne He Hnum. unfold answer_batch. rewrite Hr.
  destruct (all_chunks st) as [|c0 cs] eqn:Eall; [congruence|].
  cbn [nonempty negb returned]. rewrite He. cbn [bind].
  destruct (assemble_fit_score questions (question_chunks st) result)
    as (answers & tailoring & fit & ->).
  destruct (positive_of_number _ Hnum) as (b & ->). cbn [bind].
  assert (Hprops :
    covers questions (sources_map questions (question_chunks st))
    /\ forall q, In q questions ->
         exists paths,
           dict_get (sources_map questions (question_chunks st)) q
           = Some (JArr (map JStr paths))
           /\ NoDup paths /\ StronglySorted str_le paths
           /\ forall p, In p paths ->
                p <> [] /\ exists c, In c (c0 :: cs) /\ path c = p).
  { split; [apply comprehension_covers|].
    intros q Hq. rewrite <- Eall.
    apply sources_map_entry; [|assumption]. eapply retrieve_ok; eauto. }
  exists answers, (sources_map questions (question_chunks st)).
  cbv zeta. destruct (py_truthy tailoring), b, (py_truthy fit);
    eexists; (split; [reflexivity | exact Hprops]).
Qed.

(** X20. A fit score that is no number breaks the batch: with sources
    asked for and chunks found, a result of the engine whose "fit_score"
    is a string, a list, an object or [null] makes [answer_batch] raise,
    at [fit_score > 0.0]. *)
Theorem worded_fit_score_raises (questions : list pystr) (top_k : Z)
    (ctx : pystr) (st : retrieval) (result : json) :
  retrieve search questions top_k = Ok st ->
  all_chunks st <> [] ->
  QAEngine.answer_batch template generate_content json_loads
    questions (all_chunks st) ctx = Ok result ->
  is_number (reported_fit_score result) = false ->
  exists e,
    returned (answer_batch template generate_content json_loads search
                questions top_k ctx true) = Raise e.
Proof.
  intros Hr Hne He Hnum. unfold answer_batch. rewrite Hr.
  destruct (all_chunks st) as [|c0 cs] eqn:Eall; [congruence|].
  cbn [nonempty negb returned]. rewrite He. cbn [bind].
  destruct (assemble_fit_score questions (question_chunks st) result)
    as (answers & tailoring & fit & ->).
  destruct (positive_of_other _ Hnum) as (e & ->). now exists e.
Qed.

(** X21. The combined query of a large batch is made of at most twenty
    key words, at most five for each question; each is a word of a
    lower-cased question, longer than three characters, and none of the
    common words the code lists. *)
Theorem combined_query_keywords (questions : list pystr) :
  exists keywords,
    combined_query questions = join [SP] keywords
    /\ (List.length keywords <= 20)%nat
    /\ (List.length keywords <= 5 * List.length questions)%nat
    /\ forall w, In w keywords ->
         (3 < List.length w)%nat
         /\ ~ In w common_words
         /\ exists q, In q questions /\ In w (split_ws (lower q)).
Proof.
  unfold combined_query. eexists. split; [reflexivity|].
  split; [apply firstn_le_length|].
  split.
  - rewrite length_firstn.
    apply Nat.le_trans with (1 := Nat.le_min_r _ _).
    induction questions as [|q qs IH]; [simpl; lia|].
    cbn [flat_map]. rewrite length_app, length_firstn.
    cbn [List.length]. lia.
  - intros w Hw. apply firstn_In, in_flat_map in Hw as (q & Hq & Hw).
    apply firstn_In, filter_In in Hw as (Hw & Hf).
    apply andb_prop in Hf as [Hlen Hc].
    apply Nat.ltb_lt in Hlen.
    split; [assumption|]. split; [|now exists q].
    intros Hin. apply str_mem_In in Hin.
    rewrite Hin in Hc. discriminate.
Qed.

End Orchestrator.

Lemma pooled_chunks_are_distinct_witness :
  NoDup (map PHCQASystem.chunk_id [chunk_stat])
  /\ [PHCQASystem.chunk_id chunk_stat] = map PHCQASystem.chunk_id [chunk_stat]
  /\ forall c, In c [chunk_stat] ->
       exists query k l, search_stat query k = Ok l /\ In c l.
Proof.
  exact (@pooled_chunks_are_distinct AsciiTables search_stat
           [what_is_phc] 15
           {| PHCQASystem.all_chunks := [chunk_stat];
              PHCQASystem.seen_chunk_ids := [PHCQASystem.chunk_id chunk_stat];
              PHCQASystem.question_chunks := [(what_is_phc, [chunk_stat])] |}
           eq_refl).
Defined.

Lemma sources_cover_questions_witness :
  exists answers sources rest,
    PHCQASystem.returned
      (@PHCQASystem.answer_batch AsciiTables marker_text
         (fun _ => Ok answer_json) loads_examples search_stat
         [what_is_phc] 15 (py "") true)
    = Ok (JObj ((py "answers", answers)
                :: (py "sources", JObj sources) :: rest))
    /\ covers [what_is_phc] sources
    /\ forall q, In q [what_is_phc] ->
         exists paths,
           dict_get sources q = Some (JArr (map JStr paths))
           /\ NoDup paths /\ StronglySorted str_le paths
           /\ forall p, In p paths ->
                p <> [] /\ exists c, In c [chunk_stat] /\ path c = p.
Proof.
  apply (@sources_cover_questions AsciiTables marker_text
           (fun _ => Ok answer_json) loads_examples search_stat
           [what_is_phc] 15 (py "")
           {| PHCQASystem.all_chunks := [chunk_stat];
              PHCQASystem.seen_chunk_ids := [PHCQASystem.chunk_id chunk_stat];
              PHCQASystem.question_chunks := [(what_is_phc, [chunk_stat])] |}
           (JObj [(what_is_phc, JStr phc_connects)])).
  - reflexivity.
  - discriminate.
  - reflexivity.
  - reflexivity.
Defined.

Lemma worded_fit_score_raises_witness :
  exists e,
    PHCQASystem.returned
      (@PHCQASystem.answer_batch AsciiTables marker_text
         (fun _ => Ok worded_answer) loads_worded search_stat
         [what_is_phc] 15 (py "Kaiser Permanente funds health equity") true)
    = Raise e.
Proof.
  apply (@worded_fit_score_raises AsciiTables marker_text
           (fun _ => Ok worded_answer) loads_worded search_stat
           [what_is_phc] 15 (py "Kaiser Permanente funds health equity")
           {| PHCQASystem.all_chunks := [chunk_stat];
              PHCQASystem.seen_chunk_ids := [PHCQASystem.chunk_id chunk_stat];
              PHCQASystem.question_chunks := [(what_is_phc, [chunk_stat])] |}
           (JObj [(py "answers", JObj [(what_is_phc, JStr phc_connects)]);
                  (py "fit_score", JStr (py "high"));
                  (py "fit_explanation", JStr Answers.no_fit_analysis);
                  (py "tailoring_explanation", JStr Answers.tailored_default)])).
  - reflexivity.
  - discriminate.
  - reflexivity.
  - reflexivity.
Defined.

(* ------------------------------------------------------------------ *)
(** *** An empty knowledge base *)
(* ------------------------------------------------------------------ *)

Section EmptyKnowledgeBase.
Context {T : CaseTables}.
Variable ndarray : Type.
Variable np_array : json -> ndarray.
Variable np_zeros : nat -> ndarray.
Variable np_dot : ndarray -> ndarray -> outcome Q.
Variable np_linalg_norm : ndarray -> Q.
Variable backend : Type.
Variable embed_content :
  backend -> EmbeddingIndex.embed_request -> outcome json * backend.
Variable embed_query : pystr -> outcome json.
Variable md5_hexdigest : pystr -> pystr.
Variable cache_files : pystr -> option (list ndarray).
Variable template : prompt_text.
Variable generate_content : pystr -> outcome pystr.
Variable json_loads : pystr -> outcome json.

Lemma search_nothing_indexed query top_k :
  VectorSearcher.search np_array np_dot np_linalg_norm embed_query
    [] [] query top_k = Ok [].
Proof.
  unfold VectorSearcher.search, VectorSearcher.similarities,
    VectorSearcher.search_scored, VectorSearcher._keyword_fallback,
    VectorSearcher.keyword_scored.
  destruct (embed_query query); simpl; unfold slice_to;
    destruct (0 <=? top_k)%Z; simpl; now rewrite ?firstn_nil.
Qed.

Import PHCQASystem.

Lemma add_no_chunk only_new attributed st :
  fold_left (add_chunk only_new attributed) [] st = st.
Proof. reflexivity. Qed.

Lemma search_questions_nothing (search : pystr -> Z -> outcome (list chunk))
    k qs st :
  (forall query top_k, search query top_k = Ok []) ->
  search_questions search k st qs = Ok st.
Proof.
  intros H. induction qs as [|q qs IH]; simpl; [reflexivity|].
  unfold search_question. rewrite H. simpl. exact IH.
Qed.

Lemma retrieve_nothing (search : pystr -> Z -> outcome (list chunk))
    questions top_k :
  (forall query k, search query k = Ok []) ->
  exists st, retrieve search questions top_k = Ok st /\ all_chunks st = [].
Proof.
  intros H. unfold retrieve. eexists.
  destruct (Nat.ltb 3 (List.length questions)).
  - rewrite H. cbn [bind fold_left].
    rewrite search_questions_nothing by assumption. split; reflexivity.
  - rewrite search_questions_nothing by assumption. split; reflexivity.
Qed.

(** X22. A knowledge base that gives no chunk (no file, only unreadable
    files, only blank documents) never reaches the model: when a key is
    there and no cache file is found, [answer_questions] returns, sends no
    prompt, and answers every question with "No relevant information found
    in the knowledge base." *)
Theorem empty_knowledge_base_answers (env_key : option pystr)
    (md_files : list KnowledgeBaseLoader.md_file) (b : backend)
    (questions : list pystr) (api_key : option pystr)
    (additional_context : pystr) (return_sources : bool) (key : pystr) :
  resolve_api_key api_key env_key = Some key ->
  system_chunks md_files = [] ->
  EmbeddingIndex._load_embeddings_from_cache md5_hexdigest cache_files []
    = None ->
  exists w answers,
    returned
      (answer_questions np_array np_zeros np_dot np_linalg_norm
         embed_content embed_query md5_hexdigest cache_files
         template generate_content json_loads
         env_key md_files b questions api_key additional_context
         return_sources) = Ok w
    /\ generation_calls
         (answer_questions np_array np_zeros np_dot np_linalg_norm
            embed_content embed_query md5_hexdigest cache_files
            template generate_content json_loads
            env_key md_files b questions api_key additional_context
            return_sources) = []
    /\ carries_answers w answers
    /\ covers questions answers
    /\ forall q, In q questions ->
         dict_get answers q
         = Some (JStr (py "No relevant information found in the knowledge base.")).
Proof.
  intros Hkey Hchunks Hmiss. unfold answer_questions. rewrite Hkey.
  assert (Hsearch : forall query k,
            system_search np_array np_zeros np_dot np_linalg_norm
              embed_content embed_query md5_hexdigest cache_files
              md_files b query k = Ok []).
  { intros query k. unfold system_search. rewrite Hchunks. cbv zeta.
    unfold EmbeddingIndex._compute_embeddings. rewrite Hmiss.
    apply search_nothing_indexed. }
  destruct (retrieve_nothing _ questions 15 Hsearch) as (st & Hst & Hall).
  unfold answer_batch. rewrite Hst, Hall. cbn [nonempty negb returned generation_calls].
  exists (no_chunks_result questions additional_context return_sources),
         (answer_all questions Answers.no_information).
  split; [reflexivity|split; [reflexivity|]].
  split; [|split].
  - unfold no_chunks_result, carries_answers.
    destruct return_sources; [right; eexists; reflexivity|now left].
  - apply comprehension_covers.
  - intros q Hq.
    exact (comprehension_lookup questions
             (fun _ => JStr Answers.no_information) q Hq).
Qed.

End EmptyKnowledgeBase.

Lemma empty_knowledge_base_answers_witness :
  exists w answers,
    PHCQASystem.returned
      (@answer_questions AsciiTables Q number_of zeros_q dot_q (fun v => v)
         unit failing_backend (fun _ => Ok (JNum 1))
         (fun s => s) (fun _ => None)
         marker_text (fun _ => Ok answer_json) loads_examples
         (Some (py "key-from-env")) [blank_file] tt [what_is_phc] None
         (py "") true) = Ok w
    /\ PHCQASystem.generation_calls
         (@answer_questions AsciiTables Q number_of zeros_q dot_q (fun v => v)
            unit failing_backend (fun _ => Ok (JNum 1))
            (fun s => s) (fun _ => None)
            marker_text (fun _ => Ok answer_json) loads_examples
            (Some (py "key-from-env")) [blank_file] tt [what_is_phc] None
            (py "") true) = []
    /\ carries_answers w answers
    /\ covers [what_is_phc] answers
    /\ forall q, In q [what_is_phc] ->
         dict_get answers q
         = Some (JStr (py "No relevant information found in the knowledge base.")).
Proof.
  apply (@empty_knowledge_base_answers AsciiTables Q number_of zeros_q
           dot_q (fun v => v) unit failing_backend (fun _ => Ok (JNum 1))
           (fun s => s) (fun _ => None)
           marker_text (fun _ => Ok answer_json) loads_examples
           (Some (py "key-from-env")) [blank_file] tt [what_is_phc] None
           (py "") true (py "key-from-env")).
  - reflexivity.
  - reflexivity.
  - reflexivity.
Defined.

(* ------------------------------------------------------------------ *)
(** *** Valid questions *)
(* ------------------------------------------------------------------ *)

Section RegexClass.
Context {T : CaseTables}.

(** Deleting every character outside a class keeps the characters of the
    class: [re.sub('[^...]', '', s)]. *)
Lemma sub_loop_not_char p fuel pos s :
  (List.length s < fuel)%nat ->
  sub_loop false (RNotChar p) no_groups fuel pos s = filter p s.
Proof.
  revert fuel pos. induction s as [|c s IH]; intros [|fuel] pos Hf;
    simpl in Hf; try lia.
  - reflexivity.
  - cbn [sub_loop]. unfold match_at. cbn [rmatch].
    unfold char_matches. cbn [andb]. rewrite orb_false_r.
    cbn [filter]. destruct (p c).
    + f_equal. apply IH. lia.
    + replace (Nat.ltb pos (S pos)) with true
        by (symmetry; apply Nat.ltb_lt; lia).
      unfold no_groups at 1. cbn [app]. apply IH. lia.
Qed.

Lemma re_sub_not_char p s :
  re_sub false (RNotChar p) no_groups s = filter p s.
Proof. unfold re_sub. apply sub_loop_not_char. lia. Qed.

End RegexClass.

Section ValidQuestion.
Context {T : CaseTables}.
Import Main.

(** X23. What [is_valid_question] accepts: a text of at least ten
    characters, that has three words or more or ends with a question mark,
    that is not one of the six formatting words once lower-cased, and of
    which at least half of the characters are word characters or white
    space. *)
Theorem valid_question_iff (text : pystr) :
  is_valid_question text = true <->
  (10 <= List.length text)%nat
  /\ ((3 <= List.length (split_ws text))%nat \/ endswith [QMARK] text = true)
  /\ ~ In (lower text) formatting_lines
  /\ (List.length text
      <= 2 * List.length (filter (fun c => ch_isword c || isspace c) text))%nat.
Proof.
  unfold is_valid_question. rewrite re_sub_not_char.
  destruct (Nat.ltb_spec (List.length text) 10) as [Hs|Hl].
  - rewrite orb_true_r. split; [discriminate|]. intros (H & _). lia.
  - assert (Hne : nonempty text = true) by (destruct text; [simpl in Hl; lia|reflexivity]).
    rewrite Hne. cbn [negb orb].
    destruct (Nat.ltb_spec (List.length (split_ws text)) 3) as [Hw|Hw];
      cbn [andb].
    + destruct (endswith [QMARK] text) eqn:Eq; cbn [negb].
      * destruct (str_mem (lower text) formatting_lines) eqn:Ef.
        -- apply str_mem_In in Ef. split; [discriminate|]. tauto.
        -- assert (Hf : ~ In (lower text) formatting_lines).
           { intros H. apply str_mem_In in H. congruence. }
           destruct (Nat.ltb_spec
                       (2 * List.length
                              (filter (fun c => ch_isword c || isspace c) text))
                       (List.length text)) as [Hp|Hp].
           ++ split; [discriminate|]. intros (_ & _ & _ & H). lia.
           ++ split; [|reflexivity]. intros _. auto.
      * split; [discriminate|]. intros (_ & [H|H] & _); [lia|discriminate].
    + destruct (str_mem (lower text) formatting_lines) eqn:Ef.
      * apply str_mem_In in Ef. split; [discriminate|]. tauto.
      * assert (Hf : ~ In (lower text) formatting_lines).
        { intros H. apply str_mem_In in H. congruence. }
        destruct (Nat.ltb_spec
                    (2 * List.length
                           (filter (fun c => ch_isword c || isspace c) text))
                    (List.length text)) as [Hp|Hp].
        -- split; [discriminate|]. intros (_ & _ & _ & H). lia.
        -- split; [|reflexivity]. intros _. auto.
Qed.

End ValidQuestion.

(* ------------------------------------------------------------------ *)
(** *** White space in a cleaned question *)
(* ------------------------------------------------------------------ *)

Section SpaceRuns.
Context {T : CaseTables}.
Variable R : Type.

Lemma rep_loop_S (step : nat -> pystr -> captures -> cont R -> option R)
    fuel lo hi greedy pos s caps k :
  rep_loop step (S fuel) lo hi greedy pos s caps k
  = let more (_ : unit) :=
      match hi with
      | Some O => None
      | _ =>
          step pos s caps (fun pos' s' caps' =>
            if Nat.eqb pos' pos then None
            else rep_loop step fuel (Nat.pred lo) (opt_pred hi) greedy
                   pos' s' caps' k)
      end in
    if Nat.eqb lo 0 then
      if greedy then or_else (more tt) (fun _ => k pos s caps)
      else or_else (k pos s caps) more
    else more tt.
Proof. reflexivity. Qed.

Lemma class_step p pos s caps (k : cont R) :
  rmatch false (RChar p) pos s caps k
  = match s with
    | c :: s' => if p c then k (S pos) s' caps else None
    | [] => None
    end.
Proof.
  destruct s as [|c s]; [reflexivity|].
  cbn [rmatch]. unfold char_matches. cbn [andb]. now rewrite orb_false_r.
Qed.

Lemma not_class_step p pos s caps (k : cont R) :
  rmatch false (RNotChar p) pos s caps k
  = match s with
    | c :: s' => if p c then None else k (S pos) s' caps
    | [] => None
    end.
Proof.
  destruct s as [|c s]; [reflexivity|].
  cbn [rmatch]. unfold char_matches. cbn [andb]. now rewrite orb_false_r.
Qed.

Lemma rep_step icase r lo hi greedy pos s caps (k : cont R) :
  rmatch icase (RRep r lo hi greedy) pos s caps k
  = rep_loop (rmatch icase r) (S (List.length s)) lo hi greedy pos s caps k.
Proof. reflexivity. Qed.

Lemma seq_step icase r1 r2 pos s caps (k : cont R) :
  rmatch icase (RSeq r1 r2) pos s caps k
  = rmatch icase r1 pos s caps
      (fun pos' s' caps' => rmatch icase r2 pos' s' caps' k).
Proof. reflexivity. Qed.

Lemma succ_neq pos : Nat.eqb (S pos) pos = false.
Proof. apply Nat.eqb_neq. lia. Qed.

End SpaceRuns.

Section SpaceRunsMatch.
Context {T : CaseTables}.

(** A greedy run of white space takes all the white space there is. *)
Lemma ws_run_rest fuel pos s :
  (List.length s < fuel)%nat ->
  exists pos',
    (pos <= pos')%nat /\
    rep_loop (rmatch false (RChar isspace)) fuel 0 None true pos s []
      (fun pos' s' caps => Some (pos', s', caps))
    = Some (pos', lstrip s, []).
Proof.
  revert fuel pos. induction s as [|c s IH]; intros [|fuel] pos Hf;
    simpl in Hf; try lia.
  - exists pos. split; [lia|reflexivity].
  - rewrite rep_loop_S. cbv zeta. cbn [Nat.eqb Nat.pred opt_pred lstrip].
    rewrite class_step. destruct (isspace c).
    + rewrite succ_neq.
      destruct (IH fuel (S pos)) as (pos' & Hle & ->); [lia|].
      exists pos'. split; [lia|reflexivity].
    + exists pos. split; [lia|reflexivity].
Qed.

(** [\s+] at the start of a text: it fails on a visible character, and
    on white space it consumes the whole run. *)
Lemma match_ws_visible pos c s :
  isspace c = false -> match_at false (plus ws) pos (c :: s) = None.
Proof.
  intros Hc. unfold match_at, plus, ws. rewrite rep_step.
  rewrite rep_loop_S. cbv zeta. cbn [Nat.eqb].
  rewrite class_step. now rewrite Hc.
Qed.

Lemma match_ws_run pos c s :
  isspace c = true ->
  exists pos', (pos < pos')%nat
    /\ match_at false (plus ws) pos (c :: s) = Some (pos', lstrip s, []).
Proof.
  intros Hc. unfold match_at, plus, ws. rewrite rep_step. cbn [List.length].
  rewrite rep_loop_S. cbv zeta. cbn [Nat.eqb Nat.pred opt_pred].
  rewrite class_step, Hc, succ_neq.
  destruct (@ws_run_rest (S (List.length s)) (S pos) s) as (pos' & Hle & ->);
    [lia|].
  exists pos'. split; [lia|reflexivity].
Qed.

Lemma length_lstrip s : (List.length (lstrip s) <= List.length s)%nat.
Proof.
  induction s as [|c s IH]; simpl; [lia|].
  destruct (isspace c); simpl; lia.
Qed.

Lemma lstrip_starts_visible s : starts_visible (lstrip s).
Proof.
  induction s as [|c s IH]; simpl; [exact I|].
  destruct (isspace c) eqn:E; [assumption|exact E].
Qed.

Lemma sub_loop_nil r repl fuel pos :
  match_at false r pos [] = None -> sub_loop false r repl fuel pos [] = [].
Proof. intros H. destruct fuel; [reflexivity|]. simpl. now rewrite H. Qed.

(** [re.sub(r'\s+', ' ', s)] *)
Lemma collapse_loosely_spaced fuel pos s :
  (List.length s < fuel)%nat ->
  let out := sub_loop false (plus ws) (fun _ => [SP]) fuel pos s in
  loosely_spaced out
  /\ (starts_visible s -> s <> [] ->
      exists c rest, s = c :: rest /\ exists out', out = c :: out').
Proof.
  revert pos s. induction fuel as [|fuel IH]; intros pos s Hf; [lia|].
  cbv zeta. destruct s as [|c rest].
  - simpl. split; [exact I|congruence].
  - cbn [sub_loop]. destruct (isspace c) eqn:Ec.
    + destruct (match_ws_run pos c rest Ec) as (pos' & Hlt & ->).
      replace (Nat.ltb pos pos') with true
        by (symmetry; apply Nat.ltb_lt; lia).
      pose proof (length_lstrip rest) as Hl. simpl in Hf.
      destruct (IH pos' (lstrip rest)) as (Hout & Hhead); [lia|].
      cbv zeta in Hout, Hhead. split.
      * cbn [app loosely_spaced]. split; [|exact Hout].
        intros _. split; [|].
        -- (* the replacement is a space *) reflexivity.
        -- pose proof (lstrip_starts_visible rest) as Hv.
           destruct (lstrip rest) as [|d r] eqn:El.
           ++ rewrite sub_loop_nil by reflexivity. exact I.
           ++ destruct (Hhead Hv) as (c' & rest' & E & out' & ->);
                [congruence|].
              injection E as <- <-. exact Hv.
      * intros Hv. simpl in Hv. congruence.
    + rewrite (match_ws_visible pos c rest Ec).
      simpl in Hf. destruct (IH (S pos) rest) as (Hout & _); [lia|].
      split.
      * cbn [loosely_spaced]. split; [congruence|exact Hout].
      * intros _ _. exists c, rest. split; [reflexivity|]. eauto.
Qed.

End SpaceRunsMatch.

Section Trimming.

Lemma lstrip_snoc l c :
  lstrip (l ++ [c])
  = match lstrip l with
    | [] => if isspace c then [] else [c]
    | r => r ++ [c]
    end.
Proof.
  induction l as [|x l IH]; simpl; [reflexivity|].
  destruct (isspace x); [exact IH|reflexivity].
Qed.

Lemma rstrip_cons c s :
  rstrip (c :: s)
  = match rstrip s with
    | [] => if isspace c then [] else [c]
    | r => c :: r
    end.
Proof.
  unfold rstrip. cbn [rev]. rewrite lstrip_snoc.
  destruct (lstrip (rev s)) as [|x r] eqn:E.
  - simpl. destruct (isspace c); reflexivity.
  - rewrite rev_app_distr. simpl.
    destruct (rev r ++ [x]) eqn:E'; [|reflexivity].
    now destruct (rev r).
Qed.

Lemma spaced_loosely s : spaced s -> loosely_spaced s.
Proof.
  induction s as [|c s IH]; simpl; [auto|].
  intros [H Hs]. split; [|auto].
  intros Hc. destruct (H Hc) as [-> Hd]. split; [reflexivity|].
  destruct s; [exact I|exact Hd].
Qed.

Lemma loosely_spaced_lstrip s : loosely_spaced s -> loosely_spaced (lstrip s).
Proof.
  induction s as [|c s IH]; [auto|].
  intros Hall. pose proof Hall as [H Hs]. cbn [lstrip].
  destruct (isspace c); [auto|exact Hall].
Qed.

Lemma rstrip_head c s :
  isspace c = false -> exists r, rstrip (c :: s) = c :: r.
Proof.
  intros Hc. rewrite rstrip_cons, Hc. destruct (rstrip s); eauto.
Qed.

Lemma rstrip_spaced s : loosely_spaced s -> spaced (rstrip s).
Proof.
  induction s as [|c s IH]; [intros _; exact I|].
  intros [H Hs]. specialize (IH Hs). rewrite rstrip_cons.
  destruct (rstrip s) as [|x r] eqn:E.
  - destruct (isspace c) eqn:Ec; [exact I|].
    simpl. split; [congruence|exact I].
  - cbn [spaced]. split; [|exact IH].
    intros Hc. destruct (H Hc) as [-> Hd]. split; [reflexivity|].
    destruct s as [|d s']; [discriminate|].
    destruct (rstrip_head d s' Hd) as (r' & Er). congruence.
Qed.

Lemma strip_tidy s : loosely_spaced s -> tidy (strip s).
Proof.
  intros H. unfold strip, tidy. split.
  - pose proof (lstrip_starts_visible s) as Hv.
    destruct (lstrip s) as [|c l]; [exact I|].
    destruct (rstrip_head c l Hv) as (r & ->). exact Hv.
  - apply rstrip_spaced. now apply loosely_spaced_lstrip.
Qed.

Lemma rstrip_of_spaced s : spaced s -> rstrip s = s.
Proof.
  induction s as [|c s IH]; [reflexivity|].
  intros [H Hs]. rewrite rstrip_cons, (IH Hs).
  destruct s as [|d s']; [|reflexivity].
  destruct (isspace c) eqn:Ec; [|reflexivity].
  now destruct (H eq_refl).
Qed.

Lemma lstrip_of_visible s : starts_visible s -> lstrip s = s.
Proof. destruct s as [|c s]; simpl; [reflexivity|]. now intros ->. Qed.

Lemma strip_of_tidy s : tidy s -> strip s = s.
Proof.
  intros [Hv Hs]. unfold strip.
  rewrite (lstrip_of_visible _ Hv). now apply rstrip_of_spaced.
Qed.

Lemma spaced_app_r a b : spaced (a ++ b) -> spaced b.
Proof. induction a as [|c a IH]; simpl; [auto|]. intros [_ H]. auto. Qed.

Lemma spaced_snoc s c :
  spaced s -> isspace c = false -> spaced (s ++ [c]).
Proof.
  intros Hs Hc. induction s as [|x s IH]; simpl.
  - split; [congruence|exact I].
  - destruct Hs as [H Hs]. split; [|auto].
    intros Hx. destruct (H Hx) as [-> Hd]. split; [reflexivity|].
    destruct s; [destruct Hd|exact Hd].
Qed.

Lemma spaced_only_spaces s c :
  spaced s -> In c s -> isspace c = true -> c = SP.
Proof.
  induction s as [|x s IH]; simpl; [tauto|].
  intros [H Hs] [->|Hin] Hc; [now destruct (H Hc)|auto].
Qed.

Lemma spaced_no_double_space s : spaced s -> ~ appears_in [SP; SP] s.
Proof.
  intros Hs (a & b & E). subst s. apply spaced_app_r in Hs.
  simpl in Hs. destruct Hs as [H _].
  destruct (H eq_refl) as [_ Hd]. discriminate.
Qed.

End Trimming.

Section Anchors.
Context {T : CaseTables}.

Lemma bol_step (R : Type) icase pos s caps (k : cont R) :
  rmatch icase RBol pos s caps k
  = if Nat.eqb pos 0 then k pos s caps else None.
Proof. reflexivity. Qed.

Lemma eol_step (R : Type) icase pos s caps (k : cont R) :
  rmatch icase REol pos s caps k
  = match s with
    | [] => k pos s caps
    | [c] => if N.eqb c NL then k pos s caps else None
    | _ => None
    end.
Proof. reflexivity. Qed.

Lemma sub_loop_S icase r repl fuel pos s :
  sub_loop icase r repl (S fuel) pos s
  = match match_at icase r pos s with
    | Some (pos', s', caps) =>
        if Nat.ltb pos pos'
        then repl caps ++ sub_loop icase r repl fuel pos' s'
        else match s with
             | [] => []
             | c :: rest => c :: sub_loop icase r repl fuel (S pos) rest
             end
    | None =>
        match s with
        | [] => []
        | c :: rest => c :: sub_loop icase r repl fuel (S pos) rest
        end
    end.
Proof. reflexivity. Qed.

Lemma bol_later icase r pos s :
  (0 < pos)%nat -> match_at icase (RSeq RBol r) pos s = None.
Proof.
  intros Hp. unfold match_at. rewrite seq_step, bol_step.
  destruct pos; [lia|reflexivity].
Qed.

(** A pattern anchored at the start changes nothing further on. *)
Lemma sub_loop_anchored icase r repl fuel pos s :
  (0 < pos)%nat -> sub_loop icase (RSeq RBol r) repl fuel pos s = s.
Proof.
  revert pos s. induction fuel as [|fuel IH]; intros pos s Hp; [reflexivity|].
  rewrite sub_loop_S, bol_later by assumption.
  destruct s as [|c rest]; [reflexivity|]. f_equal. apply IH. lia.
Qed.

Lemma spaced_lstrip s : spaced s -> spaced (lstrip s).
Proof.
  induction s as [|c s IH]; [auto|].
  intros Hall. pose proof Hall as [H Hs]. cbn [lstrip].
  destruct (isspace c); [auto|exact Hall].
Qed.

(** [re.sub(r'^[...]\s+', '', s)] on a tidy text. *)
Lemma strip_prefix_tidy p s :
  tidy s ->
  tidy (re_sub false (RSeq RBol (RSeq (RChar p) (plus ws))) no_groups s).
Proof.
  intros Ht. unfold re_sub. destruct s as [|c rest]; [exact Ht|].
  rewrite sub_loop_S.
  assert (E : match_at false (RSeq RBol (RSeq (RChar p) (plus ws))) 0 (c :: rest)
              = if p c then match_at false (plus ws) 1 rest else None).
  { unfold match_at. rewrite seq_step, bol_step. cbn [Nat.eqb].
    rewrite seq_step, class_step. reflexivity. }
  rewrite E. clear E.
  assert (Hsame : forall fuel,
            c :: sub_loop false (RSeq RBol (RSeq (RChar p) (plus ws)))
                   no_groups fuel 1 rest = c :: rest).
  { intros fuel. f_equal. apply sub_loop_anchored. lia. }
  destruct (p c); [|now rewrite Hsame].
  destruct rest as [|d r]; [exact Ht|].
  destruct (isspace d) eqn:Ed.
  - destruct (match_ws_run 1 d r Ed) as (pos' & Hlt & ->).
    replace (Nat.ltb 0 pos') with true by (symmetry; apply Nat.ltb_lt; lia).
    unfold no_groups at 1. cbn [app].
    rewrite sub_loop_anchored by lia.
    split; [apply lstrip_starts_visible|].
    apply spaced_lstrip. destruct Ht as [_ (_ & _ & Hs)]. exact Hs.
  - rewrite (match_ws_visible 1 d r Ed). now rewrite Hsame.
Qed.

(** [\s+[...]$] on a visible character, on white space before a visible
    character, and on the empty text. *)
Lemma match_suffix_visible p pos c rest :
  isspace c = false ->
  match_at false (RSeq (plus ws) (RSeq (RChar p) REol)) pos (c :: rest) = None.
Proof.
  intros Hc. unfold match_at, plus, ws.
  rewrite seq_step, rep_step, rep_loop_S. cbv zeta. cbn [Nat.eqb].
  now rewrite class_step, Hc.
Qed.

Lemma match_suffix_nil p pos :
  match_at false (RSeq (plus ws) (RSeq (RChar p) REol)) pos [] = None.
Proof. reflexivity. Qed.

Lemma match_suffix_space p pos c d rest :
  isspace c = true -> isspace d = false ->
  match_at false (RSeq (plus ws) (RSeq (RChar p) REol)) pos (c :: d :: rest)
  = if p d
    then match rest with
         | [] => Some (S (S pos), [], [])
         | [x] => if N.eqb x NL then Some (S (S pos), [x], []) else None
         | _ => None
         end
    else None.
Proof.
  intros Hc Hd. unfold match_at, plus, ws.
  rewrite seq_step, rep_step. cbn [List.length].
  rewrite rep_loop_S. cbv zeta. cbn [Nat.eqb Nat.pred opt_pred].
  rewrite class_step, Hc, succ_neq.
  rewrite rep_loop_S. cbv zeta. cbn [Nat.eqb Nat.pred opt_pred].
  rewrite class_step, Hd. cbn [or_else].
  rewrite seq_step, class_step.
  destruct (p d); [|reflexivity].
  rewrite eol_step. destruct rest as [|x [|y rest]]; reflexivity.
Qed.

(** [re.sub(r'\s+[...]$', '', s)] on a spaced text. *)
Lemma strip_suffix_spaced p fuel pos s :
  spaced s ->
  let out := sub_loop false (RSeq (plus ws) (RSeq (RChar p) REol))
               no_groups fuel pos s in
  spaced out
  /\ (forall c rest, s = c :: rest -> isspace c = false ->
      exists out', out = c :: out').
Proof.
  revert pos s. induction fuel as [|fuel IH]; intros pos s Hs; cbv zeta.
  - simpl. split; [assumption|]. intros c rest -> _. eauto.
  - destruct s as [|c rest].
    + simpl. split; [exact I|discriminate].
    + rewrite sub_loop_S. destruct (isspace c) eqn:Ec.
      * destruct Hs as [H Hs]. destruct (H Ec) as [-> Hd].
        destruct rest as [|d rest2]; [destruct Hd|].
        rewrite (match_suffix_space p pos SP d rest2 Ec Hd).
        destruct (IH (S pos) (d :: rest2) Hs) as (Hout & Hhead).
        cbv zeta in Hout, Hhead.
        destruct (Hhead d rest2 eq_refl Hd) as (out' & Eout).
        assert (Hkeep :
          spaced (SP :: sub_loop false (RSeq (plus ws) (RSeq (RChar p) REol))
                          no_groups fuel (S pos) (d :: rest2))
          /\ (forall c rest, SP :: d :: rest2 = c :: rest ->
              isspace c = false ->
              exists out'0,
                SP :: sub_loop false (RSeq (plus ws) (RSeq (RChar p) REol))
                        no_groups fuel (S pos) (d :: rest2) = c :: out'0)).
        { split.
          - cbn [spaced]. split; [|exact Hout].
            intros _. split; [reflexivity|]. rewrite Eout. exact Hd.
          - intros c rest [= <- <-] Hc. eauto. }
        destruct (p d); [|exact Hkeep].
        destruct rest2 as [|x [|y rest3]]; [| |exact Hkeep].
        -- replace (Nat.ltb pos (S (S pos))) with true
             by (symmetry; apply Nat.ltb_lt; lia).
           unfold no_groups at 1. cbn [app].
           rewrite sub_loop_nil by reflexivity.
           split; [exact I|]. intros c rest [= <- <-] Hc. congruence.
        -- destruct (N.eqb_spec x NL) as [->|_]; [|exact Hkeep].
           destruct Hs as [_ [Hx _]].
           destruct (Hx eq_refl) as [Hnl _]. discriminate.
      * rewrite (match_suffix_visible p pos c rest Ec).
        destruct Hs as [H Hs].
        destruct (IH (S pos) rest Hs) as (Hout & _). cbv zeta in Hout.
        split.
        -- cbn [spaced]. split; [congruence|exact Hout].
        -- intros c' rest' [= <- <-] _. eauto.
Qed.

Lemma strip_suffix_tidy p s :
  tidy s ->
  tidy (re_sub false (RSeq (plus ws) (RSeq (RChar p) REol)) no_groups s).
Proof.
  intros [Hv Hs]. unfold re_sub.
  destruct (strip_suffix_spaced p (S (List.length s)) 0 s Hs) as (Hout & Hhead).
  cbv zeta in Hout, Hhead. split; [|exact Hout].
  destruct s as [|c rest]; [exact I|].
  destruct (Hhead c rest eq_refl Hv) as (out' & ->). exact Hv.
Qed.

End Anchors.

Lemma spaced_visible_app l rest :
  Forall (fun u => isspace u = false) l -> spaced rest -> spaced (l ++ rest).
Proof.
  induction 1 as [|u l Hu Hl IH]; intros Hr; simpl; [assumption|].
  split; [congruence|auto].
Qed.

Lemma ascii_upper_is_visible : upper_is_visible AsciiTables.
Proof.
  intros c Hc. simpl in *. rewrite Hc. split; [discriminate|].
  constructor; [|constructor].
  unfold ascii_lower in Hc. apply andb_prop in Hc as [H1 H2].
  apply N.leb_le in H1, H2. unfold isspace.
  repeat match goal with
         | |- context [N.leb ?a ?b] =>
             (rewrite (proj2 (N.leb_le a b)) by lia)
             || (rewrite (proj2 (N.leb_gt a b)) by lia)
         | |- context [N.eqb ?a ?b] =>
             rewrite (proj2 (N.eqb_neq a b)) by lia
         end.
  reflexivity.
Qed.

Section TidyQuestions.
Context {T : CaseTables}.
Hypothesis visible : upper_is_visible T.
Import Main.

Lemma clean_question_tidy text : tidy (clean_question text).
Proof using visible.
  unfold clean_question.
  destruct (negb (nonempty text)); [split; exact I|]. cbv zeta.
  match goal with
  | |- context [re_sub false (plus ws) (fun _ => [SP]) ?t] =>
      set (t4 := t);
      assert (H5 : loosely_spaced (re_sub false (plus ws) (fun _ => [SP]) t4))
        by (unfold re_sub;
            apply (@collapse_loosely_spaced T (S (List.length t4)) 0%nat t4); lia);
      set (t5 := re_sub false (plus ws) (fun _ => [SP]) t4) in *
  end.
  pose proof (strip_tidy t5 H5) as H6.
  set (t6 := strip t5) in *.
  pose proof (strip_prefix_tidy
                (fun c => existsb (N.eqb c) [COLON; DASH; EN_DASH; EM_DASH])
                H6) as H7.
  change (RSeq RBol
            (RSeq (RChar (fun c => existsb (N.eqb c)
                                     [COLON; DASH; EN_DASH; EM_DASH]))
               (plus ws)))
    with (seq_of [RBol; one_of [COLON; DASH; EN_DASH; EM_DASH]; plus ws]) in H7.
  set (t7 := re_sub false _ no_groups t6) in *.
  pose proof (strip_suffix_tidy
                (fun c => existsb (N.eqb c) [COLON; DASH; EN_DASH; EM_DASH])
                H7) as H8.
  change (RSeq (plus ws)
            (RSeq (RChar (fun c => existsb (N.eqb c)
                                     [COLON; DASH; EN_DASH; EM_DASH]))
               REol))
    with (seq_of [plus ws; one_of [COLON; DASH; EN_DASH; EM_DASH]; REol]) in H8.
  set (t8 := re_sub false _ no_groups t7) in *.
  destruct t8 as [|c rest]; [split; exact I|].
  destruct (ch_islower c) eqn:El; [|exact H8].
  destruct (visible c El) as [Hne Hall].
  destruct H8 as [_ [_ Hrest]].
  split.
  - destruct (ch_upper c) as [|u us]; [congruence|].
    simpl. now inversion Hall.
  - now apply spaced_visible_app.
Qed.

Lemma finish_tidy q : tidy (finish q).
Proof using visible.
  unfold finish. pose proof (clean_question_tidy q) as Ht.
  set (q' := clean_question q) in *.
  destruct (_ && _); [|exact Ht].
  destruct Ht as [Hv Hs]. rewrite (rstrip_of_spaced _ Hs).
  assert (G : forall p, isspace p = false -> tidy (q' ++ [p])).
  { intros p Hp. split; [|now apply spaced_snoc].
    destruct q'; [exact Hp|exact Hv]. }
  destruct (existsb (fun w => contains (py w) (lower q')) question_words);
    apply G; reflexivity.
Qed.

Lemma endswith_snoc s c : endswith [c] (s ++ [c]) = true.
Proof.
  unfold endswith. rewrite rev_app_distr. simpl. now rewrite N.eqb_refl.
Qed.

Lemma finish_punctuated q :
  (20 < List.length (finish q))%nat ->
  exists e, In e [PERIOD; BANG; QMARK] /\ endswith [e] (finish q) = true.
Proof using visible.
  unfold finish. pose proof (clean_question_tidy q) as [_ Hs].
  set (q' := clean_question q) in *.
  rewrite (rstrip_of_spaced _ Hs).
  destruct (Nat.ltb 20 (List.length q')) eqn:El; cbn [andb].
  - destruct (existsb (fun e => endswith [e] q') [PERIOD; BANG; QMARK]) eqn:Ee;
      cbn [negb].
    + intros _. apply existsb_exists in Ee. exact Ee.
    + intros _.
      destruct (existsb (fun w => contains (py w) (lower q')) question_words).
      * exists QMARK. split; [simpl; auto|apply endswith_snoc].
      * exists PERIOD. split; [simpl; auto|apply endswith_snoc].
  - apply Nat.ltb_ge in El. intros H. lia.
Qed.

(** X24. Every question [parse_questions] returns is tidy: it has no
    white space at either end, its only white-space character is the
    space, and no two spaces follow each other. So a question never runs
    over several lines, whatever the input. *)
Theorem parsed_questions_are_tidy (raw q : pystr) :
  In q (parse_questions raw) ->
  strip q = q
  /\ (forall c, In c q -> isspace c = true -> c = SP)
  /\ ~ appears_in [SP; SP] q.
Proof using visible.
  unfold parse_questions. destruct (_ || _); [intros []|].
  rewrite in_map_iff. intros (q0 & <- & _).
  pose proof (finish_tidy q0) as Ht.
  split; [now apply strip_of_tidy|]. destruct Ht as [_ Hs].
  split; [intros c; now apply spaced_only_spaces|].
  now apply spaced_no_double_space.
Qed.

(** X25. Every question [parse_questions] returns that is longer than
    twenty characters ends with a full stop, an exclamation mark or a
    question mark. *)
Theorem long_questions_are_punctuated (raw q : pystr) :
  In q (parse_questions raw) ->
  (20 < List.length q)%nat ->
  exists e, In e [PERIOD; BANG; QMARK] /\ endswith [e] q = true.
Proof using visible.
  unfold parse_questions. destruct (_ || _); [intros []|].
  rewrite in_map_iff. intros (q0 & <- & _). apply finish_punctuated.
Qed.

End TidyQuestions.

Lemma parsed_questions_are_tidy_witness :
  strip (py "What is PHC's mission and who does it serve?")
  = py "What is PHC's mission and who does it serve?"
  /\ (forall c, In c (py "What is PHC's mission and who does it serve?") ->
      isspace c = true -> c = SP)
  /\ ~ appears_in [SP; SP] (py "What is PHC's mission and who does it serve?").
Proof.
  apply (@parsed_questions_are_tidy AsciiTables ascii_upper_is_visible
           ([TAB] ++ py "what is   PHC's mission" ++ [NL]
            ++ py "and who does it serve  ")
           (py "What is PHC's mission and who does it serve?")).
  vm_compute. now left.
Defined.

Lemma long_questions_are_punctuated_witness :
  exists e, In e [Main.PERIOD; Main.BANG; Main.QMARK]
    /\ endswith [e] (py "What is PHC's mission and who does it serve?") = true.
Proof.
  apply (@long_questions_are_punctuated AsciiTables ascii_upper_is_visible
           ([TAB] ++ py "what is   PHC's mission" ++ [NL]
            ++ py "and who does it serve  ")
           (py "What is PHC's mission and who does it serve?")).
  - vm_compute. now left.
  - vm_compute. lia.
Defined.

(* ------------------------------------------------------------------ *)
(** *** The status of a request *)
(* ------------------------------------------------------------------ *)

Section RequestStatus.
Context {T : CaseTables}.
Variable str_title : pystr -> pystr.
Variable validate_str : json -> outcome pystr.
Variable validate_float : json -> outcome Q.
Variable answer_questions : list pystr -> pystr -> pystr -> outcome json.
Import Endpoint.

(** X26. The errors of a request. Status 400 is raised exactly when no
    valid question is parsed, before the key is read and before anything
    is asked of the QA system. Every other [HTTPException] has status
    500: the key is not set, the QA system raised (the detail is
    "Error generating answers: " and the message), or it returned no
    answers. *)
Theorem request_status (env_key : option pystr)
    (grantQuestions grantContext : pystr) :
  (Main.parse_questions grantQuestions = [] <->
   exists detail,
     generate str_title validate_str validate_float answer_questions
       env_key grantQuestions grantContext
     = HTTPException 400 detail)
  /\ (forall status_code detail,
        generate str_title validate_str validate_float answer_questions
          env_key grantQuestions grantContext
        = HTTPException status_code detail ->
        (status_code = 400%Z
         /\ detail = py "No valid grant questions found in input.")
        \/ (status_code = 500%Z
            /\ (detail = py "GEMINI_API_KEY environment variable not set"
                \/ detail = py "No answers were generated. The QA system returned an empty result."
                \/ exists api_key ctx e,
                     answer_questions (Main.parse_questions grantQuestions)
                       api_key ctx = Raise e
                     /\ detail = py "Error generating answers: " ++ exn_msg e))).
Proof.
  assert (Hall : forall status_code detail,
        generate str_title validate_str validate_float answer_questions
          env_key grantQuestions grantContext
        = HTTPException status_code detail ->
        (Main.parse_questions grantQuestions = []
         /\ status_code = 400%Z
         /\ detail = py "No valid grant questions found in input.")
        \/ (Main.parse_questions grantQuestions <> []
            /\ status_code = 500%Z
            /\ (detail = py "GEMINI_API_KEY environment variable not set"
                \/ detail = py "No answers were generated. The QA system returned an empty result."
                \/ exists api_key ctx e,
                     answer_questions (Main.parse_questions grantQuestions)
                       api_key ctx = Raise e
                     /\ detail = py "Error generating answers: " ++ exn_msg e))).
  { intros status_code detail. unfold generate.
    destruct (Main.parse_questions grantQuestions) as [|q qs] eqn:Eq;
      cbn [nonempty negb].
    - intros [= <- <-]. now left.
    - intros H. right. split; [discriminate|].
      unfold get_api_key in H.
      destruct env_key as [k|]; [|injection H as <- <-; auto].
      destruct (nonempty k); [|injection H as <- <-; auto].
      destruct (answer_questions (q :: qs) k _) as [result|e] eqn:Ea.
      + match type of H with
        | (if ?b then _ else _) = _ => destruct b
        end; [injection H as <- <-; auto|].
        destruct (build_response _ _ _ _ _ _ _ _ _); discriminate.
      + injection H as <- <-. split; [reflexivity|].
        right; right. eauto. }
  split.
  - split.
    + intros Hq. unfold generate. rewrite Hq. simpl. eauto.
    + intros (detail & H). apply Hall in H as [(Hq & _)|(_ & H & _)];
        [assumption|discriminate].
  - intros status_code detail H.
    apply Hall in H as [(_ & H1 & H2)|(_ & H1 & H2)]; auto.
Qed.

End RequestStatus.

(* ------------------------------------------------------------------ *)
(** *** One result for each question *)
(* ------------------------------------------------------------------ *)

Section DictValues.
Variable P : json -> Prop.

Lemma dict_set_values (d : list (pystr * json)) k v :
  Forall (fun e => P (snd e)) d -> P v ->
  Forall (fun e => P (snd e)) (dict_set d k v).
Proof.
  intros Hd Hv. induction Hd as [|[k' v'] d Hk Hd IH]; simpl.
  - constructor; [exact Hv|constructor].
  - destruct (str_eqb k' k); constructor; auto.
Qed.

Lemma dict_get_values (d : list (pystr * json)) k v :
  Forall (fun e => P (snd e)) d -> dict_get d k = Some v -> P v.
Proof.
  intros Hd. induction Hd as [|[k' v'] d Hk Hd IH]; simpl; [discriminate|].
  destruct (str_eqb k' k); [intros [= <-]; exact Hk|exact IH].
Qed.

End DictValues.

Lemma mapM_map_Ok {A B} (f : A -> outcome B) (g : A -> B) l :
  (forall x, In x l -> f x = Ok (g x)) -> mapM f l = Ok (map g l).
Proof.
  induction l as [|x l IH]; intros H; simpl; [reflexivity|].
  rewrite (H x) by now left. simpl. rewrite IH; [reflexivity|].
  intros y Hy. apply H. now right.
Qed.

Section Results.
Context {T : CaseTables}.
Variable str_title : pystr -> pystr.
Variable validate_str : json -> outcome pystr.
Variable validate_float : json -> outcome Q.
Variable answer_questions : list pystr -> pystr -> pystr -> outcome json.
Import Endpoint.

Hypothesis strings_pass : forall s, validate_str (JStr s) = Ok s.
Hypothesis numbers_pass : forall q, validate_float (JNum q) = Ok q.

Variable answers : list (pystr * json).
Variable sources : list (pystr * json).
Hypothesis answers_are_texts : text_values answers.
Hypothesis sources_are_paths : path_lists sources.

Lemma index_answer_ok st item :
  lookup_ok st -> (exists s, snd item = JStr s) ->
  exists st', index_answer (JObj sources) st item = Ok st' /\ lookup_ok st'.
Proof using sources_are_paths.
  intros [Ha Hs] Hitem. destruct item as [key value]. simpl in Hitem.
  unfold index_answer. cbn [py_contains bind].
  assert (Ham : text_values
                  (if dict_has (dict_set (answer_map st) key value)
                        (lower (strip key))
                   then dict_set (answer_map st) key value
                   else dict_set (dict_set (answer_map st) key value)
                          (lower (strip key)) value)).
  { unfold text_values in *.
    destruct (dict_has _ _);
      repeat apply (dict_set_values (fun v => exists s, v = JStr s));
      assumption. }
  destruct (dict_has sources key) eqn:Eh.
  - unfold dict_has in Eh. cbn [py_getitem].
    destruct (dict_get sources key) as [v|] eqn:Ev; [|discriminate].
    cbn [bind]. eexists. split; [reflexivity|].
    split; [exact Ham|]. cbn [sources_map_normalized].
    pose proof (@dict_get_values
                  (fun v => exists ps, v = JArr (map JStr ps))
                  _ _ _ sources_are_paths Ev) as Hv.
    unfold path_lists in *.
    repeat apply (dict_set_values
                    (fun v => exists ps, v = JArr (map JStr ps)));
      assumption.
  - eexists. split; [reflexivity|]. split; assumption.
Qed.

Lemma index_answers_ok items st :
  lookup_ok st -> text_values items ->
  exists st', index_answers (JObj sources) st items = Ok st' /\ lookup_ok st'.
Proof using sources_are_paths.
  revert st. induction items as [|item items IH]; intros st Hst Hi; simpl.
  - eauto.
  - inversion Hi as [|? ? Hitem Hrest]; subst.
    destruct (index_answer_ok item Hst Hitem) as (st1 & -> & H1).
    simpl. now apply IH.
Qed.

Lemma result_for_ok st q :
  lookup_ok st ->
  exists p,
    result_for str_title validate_str answers (JObj sources) st q = Ok p
    /\ question p = q
    /\ answer p <> []
    /\ (forall a, dict_get answers q = Some (JStr a) -> a <> [] ->
        answer p = a)
    /\ (forall ps, dict_get sources q = Some (JArr (map JStr ps)) ->
        ps <> [] -> Endpoint.sources p = map (shown str_title) ps).
Proof using strings_pass answers_are_texts sources_are_paths.
  intros [Ha Hs]. unfold result_for. cbn [py_get bind].
  (* the sources *)
  set (qs := if py_truthy (dict_get_default sources q (JArr []))
             then dict_get_default sources q (JArr [])
             else dict_get_default (sources_map_normalized st)
                    (lower (strip q)) (JArr [])).
  assert (Hqs : exists ps, qs = JArr (map JStr ps)
            /\ forall ps', dict_get sources q = Some (JArr (map JStr ps')) ->
                 ps' <> [] -> ps = ps').
  { unfold qs, dict_get_default.
    destruct (dict_get sources q) as [v|] eqn:Ev.
    - destruct (@dict_get_values (fun v => exists ps, v = JArr (map JStr ps))
                  _ _ _ sources_are_paths Ev) as (ps & ->).
      destruct ps as [|p0 ps]; cbn [map py_truthy nonempty].
      + destruct (dict_get (sources_map_normalized st) (lower (strip q)))
          as [w|] eqn:Ew.
        * destruct (@dict_get_values (fun v => exists ps, v = JArr (map JStr ps))
                    _ _ _ Hs Ew) as (ps2 & ->).
          exists ps2. split; [reflexivity|].
          intros ps' [= E] Hne. destruct ps'; [congruence|discriminate].
        * exists []. split; [reflexivity|].
          intros ps' [= E] Hne. destruct ps'; [congruence|discriminate].
      + exists (p0 :: ps). split; [reflexivity|].
        intros ps' [= E] _.
        change (map JStr (p0 :: ps) = map JStr ps') in E.
        revert E. generalize (p0 :: ps). intros l. revert ps'.
        induction l as [|x l IHl]; intros [|y l'] E; simpl in E;
          try discriminate; [reflexivity|].
        injection E as -> E. f_equal. now apply IHl.
    - cbn [py_truthy nonempty].
      destruct (dict_get (sources_map_normalized st) (lower (strip q)))
        as [w|] eqn:Ew.
      + destruct (@dict_get_values (fun v => exists ps, v = JArr (map JStr ps))
                    _ _ _ Hs Ew) as (ps2 & ->).
        exists ps2. split; [reflexivity|]. discriminate.
      + exists []. split; [reflexivity|]. discriminate. }
  destruct Hqs as (ps & -> & Hps). cbn [py_iter bind].
  rewrite (mapM_map_Ok (clean_source str_title)
             (fun v => match v with
                       | JStr s => JStr (shown str_title s)
                       | other => other
                       end)).
  2:{ intros x Hx. apply in_map_iff in Hx as (s & <- & _).
      unfold clean_source, shown. cbn [py_contains bind].
      destruct (contains (py "knowledge_base/") s); reflexivity. }
  cbn [bind]. rewrite map_map.
  (* the answer *)
  set (found := if found_truthy (dict_get answers q) then dict_get answers q
                else dict_get (answer_map st) (lower (strip q))).
  assert (Hans : exists a,
            match found with
            | Some x => if py_truthy x then x else JStr no_answer
            | None => JStr no_answer
            end = JStr a
            /\ a <> []
            /\ forall a', dict_get answers q = Some (JStr a') -> a' <> [] ->
                 a = a').
  { unfold found.
    destruct (dict_get answers q) as [v|] eqn:Ev.
    - destruct (@dict_get_values (fun v => exists s, v = JStr s)
                  _ _ _ answers_are_texts Ev) as (s & ->).
      cbn [found_truthy py_truthy]. destruct s as [|c s]; cbn [nonempty].
      + destruct (dict_get (answer_map st) (lower (strip q))) as [w|] eqn:Ew.
        * destruct (@dict_get_values (fun v => exists s, v = JStr s)
                    _ _ _ Ha Ew) as (s2 & ->).
          cbn [py_truthy]. destruct s2 as [|c2 s2]; cbn [nonempty].
          -- exists no_answer. repeat split; [discriminate|].
             intros a' [= <-] H. congruence.
          -- exists (c2 :: s2). repeat split; [discriminate|].
             intros a' [= <-] H. congruence.
        * exists no_answer. repeat split; [discriminate|].
          intros a' [= <-] H. congruence.
      + exists (c :: s). repeat split; [discriminate|].
        now intros a' [= <-] _.
    - cbn [found_truthy].
      destruct (dict_get (answer_map st) (lower (strip q))) as [w|] eqn:Ew.
      + destruct (@dict_get_values (fun v => exists s, v = JStr s)
                    _ _ _ Ha Ew) as (s2 & ->).
        cbn [py_truthy]. destruct s2 as [|c2 s2]; cbn [nonempty].
        * exists no_answer. repeat split; discriminate.
        * exists (c2 :: s2). repeat split; discriminate.
      + exists no_answer. repeat split; discriminate. }
  destruct Hans as (a & -> & Hne & Hexact).
  rewrite strings_pass. cbn [bind].
  rewrite (mapM_map_Ok validate_str
             (fun v => match v with JStr s => s | _ => [] end)).
  2:{ intros x Hx. apply in_map_iff in Hx as (s & <- & _).
      apply strings_pass. }
  cbn [bind]. rewrite map_map. eexists. split; [reflexivity|].
  cbn [question answer Endpoint.sources].
  split; [reflexivity|]. split; [assumption|].
  split; [intros a' H1 H2; now apply Hexact|].
  intros ps' H1 H2. now rewrite (Hps ps' H1 H2).
Qed.

End Results.

Section EveryQuestion.
Context {T : CaseTables}.
Variable str_title : pystr -> pystr.
Variable validate_str : json -> outcome pystr.
Variable validate_float : json -> outcome Q.
Variable answer_questions : list pystr -> pystr -> pystr -> outcome json.
Import Endpoint.

Lemma generate_sourced (env_key : option pystr)
    (grantQuestions grantContext api_key : pystr) (result : json)
    (answers sources : list (pystr * json))
    (tailoring : pystr) (score : Q) (fit : pystr) :
  (forall s, validate_str (JStr s) = Ok s) ->
  (forall q, validate_float (JNum q) = Ok q) ->
  Main.parse_questions grantQuestions <> [] ->
  get_api_key env_key = Respond api_key ->
  answer_questions (Main.parse_questions grantQuestions) api_key
    (if nonempty grantContext then strip grantContext else []) = Ok result ->
  sourced_result result answers sources tailoring score fit ->
  answers <> [] ->
  exists response,
    generate str_title validate_str validate_float answer_questions
      env_key grantQuestions grantContext = Respond response
    /\ map question (results response) = Main.parse_questions grantQuestions
    /\ Forall (fun p =>
                 answer p <> []
                 /\ (forall a, dict_get answers (question p) = Some (JStr a) ->
                     a <> [] -> answer p = a)
                 /\ (forall ps,
                       dict_get sources (question p)
                       = Some (JArr (map JStr ps)) ->
                       ps <> [] ->
                       Endpoint.sources p = map (shown str_title) ps))
         (results response)
    /\ tailoring_explanation response = tailoring
    /\ fit_score response = score
    /\ fit_explanation response = fit.
Proof.
  intros Hstr Hnum Hq Hkey Hcall
    (kv & -> & Hans & Hsrc & Htail & Hscore & Hfit & Htexts & Hpaths) Hne.
  unfold generate.
  destruct (Main.parse_questions grantQuestions) as [|q0 qs] eqn:Eq;
    [congruence|]. cbn [nonempty negb].
  rewrite Hkey, Hcall.
  assert (Hhas : dict_has kv (py "answers") = true)
    by (unfold dict_has; now rewrite Hans).
  rewrite Hhas, Hsrc, Htail, Hscore, Hfit.
  destruct answers as [|a0 answers']; [congruence|].
  assert (Hd : dict_get_default kv (py "answers") JNull
               = JObj (a0 :: answers'))
    by (unfold dict_get_default; now rewrite Hans).
  rewrite !Hd.
  cbn [py_truthy nonempty negb]. unfold build_response.
  destruct (@index_answers_ok T sources Hpaths (a0 :: answers')
              {| answer_map := []; sources_map_normalized := [] |})
    as (st & -> & Hst); [split; constructor|assumption|].
  cbn [bind].
  assert (Hall : forall q, In q (q0 :: qs) ->
            exists p,
              result_for str_title validate_str (a0 :: answers')
                (JObj sources) st q = Ok p).
  { intros q _.
    destruct (result_for_ok str_title validate_str Hstr
                Htexts Hpaths q Hst)
      as (p & Hp & _). eauto. }
  destruct (mapM_total _ _ Hall) as (rs & Hrs). rewrite Hrs. cbn [bind].
  rewrite Hstr, Hnum. cbn [bind]. rewrite Hstr. cbn [bind].
  eexists. split; [reflexivity|].
  cbn [results tailoring_explanation fit_score fit_explanation].
  apply mapM_Ok_Forall2 in Hrs.
  assert (Hres : Forall2 (fun q p =>
            question p = q
            /\ answer p <> []
            /\ (forall a, dict_get (a0 :: answers') q = Some (JStr a) ->
                a <> [] -> answer p = a)
            /\ (forall ps, dict_get sources q = Some (JArr (map JStr ps)) ->
                ps <> [] -> Endpoint.sources p = map (shown str_title) ps))
            (q0 :: qs) rs).
  { eapply Forall2_impl; [|exact Hrs]. intros q p Hp.
    destruct (result_for_ok str_title validate_str Hstr
                Htexts Hpaths q Hst)
      as (p' & Hp' & H1 & H2 & H3 & H4).
    rewrite Hp in Hp'. injection Hp' as <-. auto. }
  split; [|split; [|auto]].
  - clear -Hres. induction Hres as [|q p qs' rs' (Hq & _) _ IH]; simpl;
      [reflexivity|]. now rewrite Hq, IH.
  - clear -Hres. induction Hres as [|q p qs' rs' (Hq & H) _ IH];
      constructor; [|exact IH]. now rewrite Hq.
Qed.

(** X27. When the QA system returns answers in the expected shape, the
    response has exactly one result for each parsed question, in their
    order; no answer is empty; a question whose exact text has a
    non-empty answer gets that answer; a question with sources gets them,
    unchanged unless a path holds "knowledge_base/"; the tailoring
    explanation and the fit score and explanation are passed on. *)
Theorem every_question_gets_a_result (env_key : option pystr)
    (grantQuestions grantContext api_key : pystr) (result : json)
    (answers sources : list (pystr * json))
    (tailoring : pystr) (score : Q) (fit : pystr) :
  (forall s, validate_str (JStr s) = Ok s) ->
  (forall q, validate_float (JNum q) = Ok q) ->
  Main.parse_questions grantQuestions <> [] ->
  get_api_key env_key = Respond api_key ->
  answer_questions (Main.parse_questions grantQuestions) api_key
    (if nonempty grantContext then strip grantContext else []) = Ok result ->
  sourced_result result answers sources tailoring score fit ->
  answers <> [] ->
  exists response,
    generate str_title validate_str validate_float answer_questions
      env_key grantQuestions grantContext = Respond response
    /\ map question (results response) = Main.parse_questions grantQuestions
    /\ Forall (fun p =>
                 answer p <> []
                 /\ (forall a, dict_get answers (question p) = Some (JStr a) ->
                     a <> [] -> answer p = a)
                 /\ (forall ps,
                       dict_get sources (question p)
                       = Some (JArr (map JStr ps)) ->
                       ps <> [] ->
                       Endpoint.sources p = map (shown str_title) ps))
         (results response)
    /\ tailoring_explanation response = tailoring
    /\ fit_score response = score
    /\ fit_explanation response = fit.
Proof. exact (@generate_sourced env_key grantQuestions grantContext api_key
               result answers sources tailoring score fit). Qed.

End EveryQuestion.

Lemma every_question_gets_a_result_witness :
  exists response,
    @Endpoint.generate AsciiTables ascii_title str_field float_field
      answers_phc (Some (py "key-from-env")) (py "what is PHC?") (py "")
    = Endpoint.Respond response
    /\ map Endpoint.question (Endpoint.results response)
       = @Main.parse_questions AsciiTables (py "what is PHC?")
    /\ Forall (fun p =>
                 Endpoint.answer p <> []
                 /\ (forall a,
                       dict_get [(what_is_phc, JStr phc_connects)]
                         (Endpoint.question p) = Some (JStr a) ->
                       a <> [] -> Endpoint.answer p = a)
                 /\ (forall ps,
                       dict_get
                         [(what_is_phc,
                           JArr [JStr (py "quantitative/phc_impact_2024.md")])]
                         (Endpoint.question p)
                       = Some (JArr (map JStr ps)) ->
                       ps <> [] ->
                       Endpoint.sources p = map (shown ascii_title) ps))
         (Endpoint.results response)
    /\ Endpoint.tailoring_explanation response = []
    /\ Endpoint.fit_score response = 0
    /\ Endpoint.fit_explanation response = [].
Proof.
  apply (@every_question_gets_a_result AsciiTables ascii_title
           str_field float_field answers_phc
           (Some (py "key-from-env")) (py "what is PHC?") (py "")
           (py "key-from-env")
           (JObj [(py "answers", JObj [(what_is_phc, JStr phc_connects)]);
                  (py "sources",
                   JObj [(what_is_phc,
                          JArr [JStr (py "quantitative/phc_impact_2024.md")])])])
           [(what_is_phc, JStr phc_connects)]
           [(what_is_phc, JArr [JStr (py "quantitative/phc_impact_2024.md")])]
           [] 0 []).
  - reflexivity.
  - reflexivity.
  - vm_compute. discriminate.
  - reflexivity.
  - reflexivity.
  - eexists. repeat split; try reflexivity.
    + constructor; [|constructor]. now exists phc_connects.
    + constructor; [|constructor].
      now exists [py "quantitative/phc_impact_2024.md"].
  - discriminate.
Defined.

(* ------------------------------------------------------------------ *)
(** *** A failed generation behind the endpoint *)
(* ------------------------------------------------------------------ *)

Lemma answer_all_keys questions text :
  forall k, In k (dict_keys (answer_all questions text)) <-> In k questions.
Proof.
  intros k. unfold answer_all.
  destruct (comprehension_covers questions (fun _ => JStr text)) as [_ H].
  apply H.
Qed.

Lemma comprehension_values (P : json -> Prop) questions (f : pystr -> json) :
  (forall q, P (f q)) ->
  Forall (fun e => P (snd e)) (dict_comprehension questions f).
Proof.
  intros Hf. unfold dict_comprehension.
  assert (G : forall d : list (pystr * json),
            Forall (fun e => P (snd e)) d ->
            Forall (fun e => P (snd e))
              (fold_left (fun d q => dict_set d q (f q)) questions d)).
  { induction questions as [|q qs IH]; intros d Hd; simpl; [assumption|].
    apply IH. now apply dict_set_values. }
  apply G. constructor.
Qed.

Lemma answer_all_texts questions text : text_values (answer_all questions text).
Proof.
  unfold answer_all, text_values.
  apply (comprehension_values (fun v => exists s, v = JStr s)). eauto.
Qed.

Lemma sources_map_paths {T : CaseTables} questions qc :
  path_lists (PHCQASystem.sources_map questions qc).
Proof.
  unfold PHCQASystem.sources_map, path_lists.
  apply (comprehension_values (fun v => exists ps, v = JArr (map JStr ps))).
  eauto.
Qed.

Section FailedGeneration.
Context {T : CaseTables}.
Variable str_title : pystr -> pystr.
Variable validate_str : json -> outcome pystr.
Variable validate_float : json -> outcome Q.
Variable ndarray : Type.
Variable np_array : json -> ndarray.
Variable np_zeros : nat -> ndarray.
Variable np_dot : ndarray -> ndarray -> outcome Q.
Variable np_linalg_norm : ndarray -> Q.
Variable backend : Type.
Variable embed_content :
  backend -> EmbeddingIndex.embed_request -> outcome json * backend.
Variable embed_query : pystr -> outcome json.
Variable md5_hexdigest : pystr -> pystr.
Variable cache_files : pystr -> option (list ndarray).
Variable template : prompt_text.
Variable generate_content : pystr -> outcome pystr.
Variable json_loads : pystr -> outcome json.
Import Endpoint.

Lemma on_error_sourced include questions qc e :
  include = true \/ ~ In (py "answers") questions ->
  exists msg result tailoring fit,
    startswith (py "Error") msg = true
    /\ PHCQASystem.assemble questions qc true
         (QAEngine.on_error include questions e) = Ok result
    /\ sourced_result result (answer_all questions msg)
         (PHCQASystem.sources_map questions qc) tailoring 0 fit.
Proof.
  intros Hq.
  set (msg := if mentions_quota (exn_msg e) then Answers.quota_error
              else py "Error: " ++ exn_msg e).
  assert (Hmsg : startswith (py "Error") msg = true)
    by (unfold msg; destruct (mentions_quota _); reflexivity).
  exists msg.
  assert (Hplain : ~ In (py "answers") questions ->
            dict_has (answer_all questions msg) (py "answers") = false).
  { intros H. destruct (dict_has _ _) eqn:E; [|reflexivity].
    apply dict_has_In, answer_all_keys in E. contradiction. }
  unfold QAEngine.on_error. fold (mentions_quota (exn_msg e)).
  destruct include.
  - assert (E : exists tailoring fit,
       (if mentions_quota (exn_msg e)
        then Answers.tailored_object
               (JObj (answer_all questions Answers.quota_error))
               (py "Unable to generate tailoring explanation due to API error.")
               0 (py "Unable to generate fit analysis due to API error.")
        else Answers.tailored_object
               (JObj (answer_all questions (py "Error: " ++ exn_msg e)))
               (py "Unable to generate tailoring explanation due to error.")
               0 (py "Unable to generate fit analysis due to error."))
       = Answers.tailored_object (JObj (answer_all questions msg))
           tailoring 0 fit
       /\ tailoring <> [] /\ fit <> []).
    { unfold msg. destruct (mentions_quota (exn_msg e));
        do 2 eexists; (split; [reflexivity|split; discriminate]). }
    destruct E as (tailoring & fit & -> & Ht & Hf).
    destruct tailoring as [|t0 ts]; [congruence|].
    destruct fit as [|f0 fs]; [congruence|].
    eexists. exists (t0 :: ts), (f0 :: fs). split; [assumption|].
    split; [reflexivity|].
    eexists. split; [reflexivity|].
    repeat split; try reflexivity;
      [apply answer_all_texts|apply sources_map_paths].
  - destruct Hq as [Hq|Hq]; [discriminate|].
    assert (E : (if mentions_quota (exn_msg e)
                 then JObj (answer_all questions Answers.quota_error)
                 else JObj (answer_all questions (py "Error: " ++ exn_msg e)))
                = JObj (answer_all questions msg))
      by (unfold msg; destruct (mentions_quota (exn_msg e)); reflexivity).
    rewrite E. unfold PHCQASystem.assemble. rewrite (Hplain Hq).
    cbn [py_truthy nonempty orb py_positive bind Qle_bool].
    eexists. exists [], []. split; [assumption|].
    split; [reflexivity|].
    eexists. split; [reflexivity|].
    repeat split; try reflexivity;
      [apply answer_all_texts|apply sources_map_paths].
Qed.

(** X28. A failed generation is no HTTP error. When the search finds
    chunks for the parsed questions and the generation call raises, the
    endpoint still responds: with one result for each parsed question, in
    their order, and every answer a text that starts with "Error". *)
Theorem failed_generation_still_responds (env_key : option pystr)
    (md_files : list KnowledgeBaseLoader.md_file) (b : backend)
    (grantQuestions grantContext api_key : pystr)
    (st : PHCQASystem.retrieval) (e : exn) :
  (forall s, validate_str (JStr s) = Ok s) ->
  (forall q, validate_float (JNum q) = Ok q) ->
  Main.parse_questions grantQuestions <> [] ->
  get_api_key env_key = Respond api_key ->
  PHCQASystem.retrieve
    (system_search np_array np_zeros np_dot np_linalg_norm embed_content
       embed_query md5_hexdigest cache_files md_files b)
    (Main.parse_questions grantQuestions) 15 = Ok st ->
  PHCQASystem.all_chunks st <> [] ->
  generate_content
    (QAEngine.final_prompt template (Main.parse_questions grantQuestions)
       (PHCQASystem.all_chunks st)
       (if nonempty grantContext then strip grantContext else []))
  = Raise e ->
  QAEngine.has_context
    (if nonempty grantContext then strip grantContext else []) = true
  \/ ~ In (py "answers") (Main.parse_questions grantQuestions) ->
  exists response,
    generate str_title validate_str validate_float
      (call_answer_questions np_array np_zeros np_dot np_linalg_norm
         embed_content embed_query md5_hexdigest cache_files
         template generate_content json_loads env_key md_files b)
      env_key grantQuestions grantContext = Respond response
    /\ map question (results response) = Main.parse_questions grantQuestions
    /\ Forall (fun p => startswith (py "Error") (answer p) = true)
         (results response).
Proof.
  intros Hstr Hnum Hq Hkey Hr Hne He Hctx.
  set (questions := Main.parse_questions grantQuestions) in *.
  set (ctx := if nonempty grantContext then strip grantContext else []) in *.
  destruct (@on_error_sourced (QAEngine.has_context ctx) questions
              (PHCQASystem.question_chunks st) e Hctx)
    as (msg & result & tailoring & fit & Hmsg & Hasm & Hshape).
  set (qa_system :=
         call_answer_questions np_array np_zeros np_dot np_linalg_norm
           embed_content embed_query md5_hexdigest cache_files
           template generate_content json_loads env_key md_files b).
  assert (Hcall : qa_system questions api_key ctx = Ok result).
  { unfold qa_system, call_answer_questions, answer_questions.
    assert (Hres : resolve_api_key (Some api_key) env_key = Some api_key).
    { unfold get_api_key in Hkey. unfold resolve_api_key.
      destruct env_key as [k|]; [|discriminate].
      destruct (nonempty k) eqn:Ek; [|discriminate].
      injection Hkey as ->. cbv zeta. rewrite Ek. cbv iota beta.
      rewrite Ek. reflexivity. }
    rewrite Hres. unfold PHCQASystem.answer_batch. rewrite Hr.
    destruct (PHCQASystem.all_chunks st) as [|c0 cs] eqn:Eall; [congruence|].
    cbn [nonempty negb PHCQASystem.returned].
    rewrite (answer_batch_on_failure template generate_content json_loads
               questions (c0 :: cs) ctx He).
    cbn [bind]. exact Hasm. }
  assert (Hans : answer_all questions msg <> []).
  { destruct questions as [|q0 qs] eqn:Eq; [congruence|].
    intros Hnil.
    assert (Hin : In q0 (dict_keys (answer_all (q0 :: qs) msg)))
      by (apply answer_all_keys; now left).
    rewrite Hnil in Hin. destruct Hin. }
  destruct (@generate_sourced T str_title validate_str validate_float
              qa_system env_key grantQuestions grantContext api_key result
              (answer_all questions msg)
              (PHCQASystem.sources_map questions
                 (PHCQASystem.question_chunks st))
              tailoring 0 fit Hstr Hnum Hq Hkey Hcall Hshape Hans)
    as (response & Hgen & Hmap & Hall & _).
  exists response. split; [assumption|]. split; [assumption|].
  assert (Hmsg_ne : msg <> []) by (intros ->; discriminate).
  assert (Hin : forall p, In p (results response) ->
            In (question p) questions).
  { intros p Hp. fold questions in Hmap. rewrite <- Hmap.
    apply in_map_iff. now exists p. }
  rewrite Forall_forall in *. intros p Hp.
  destruct (Hall p Hp) as (_ & Hexact & _).
  rewrite (Hexact msg); [assumption| |assumption].
  exact (comprehension_lookup questions (fun _ => JStr msg) (question p)
           (Hin p Hp)).
Qed.

End FailedGeneration.

Lemma failed_generation_still_responds_witness :
  exists response,
    @Endpoint.generate AsciiTables ascii_title str_field float_field
      (@call_answer_questions AsciiTables Q number_of zeros_q dot_q
         (fun v => v) unit failing_backend (fun _ => Ok (JNum 1))
         (fun s => s) (fun _ => Some [1]) marker_text refusing loads_examples
         (Some (py "key-from-env")) [stat_file] tt)
      (Some (py "key-from-env")) (py "what is PHC?") (py "")
    = Endpoint.Respond response
    /\ map Endpoint.question (Endpoint.results response)
       = @Main.parse_questions AsciiTables (py "what is PHC?")
    /\ Forall (fun p => startswith (py "Error") (Endpoint.answer p) = true)
         (Endpoint.results response).
Proof.
  apply (@failed_generation_still_responds AsciiTables ascii_title
           str_field float_field Q number_of zeros_q dot_q (fun v => v)
           unit failing_backend (fun _ => Ok (JNum 1)) (fun s => s)
           (fun _ => Some [1]) marker_text refusing loads_examples
           (Some (py "key-from-env")) [stat_file] tt
           (py "what is PHC?") (py "") (py "key-from-env")
           {| PHCQASystem.all_chunks := [chunk_stat];
              PHCQASystem.seen_chunk_ids := [(path chunk_stat, 0%Z)];
              PHCQASystem.question_chunks := [(what_is_phc, [chunk_stat])] |}
           (PyError (py "429 quota exceeded"))).
  - reflexivity.
  - reflexivity.
  - vm_compute. discriminate.
  - reflexivity.
  - vm_compute. reflexivity.
  - discriminate.
  - reflexivity.
  - right. vm_compute. intros [H|[]]. discriminate H.
Defined.
